(** * ChromaDB diagnostic scripts: configuration repair and migration script

    A shallow embedding of [chroma_version_analysis.py] and
    [chroma_diagnostic.py], and the properties their specification states.

    Python text is a Rocq [string]: a character stands for the code point
    of the same number, so code points up to 255 are covered; the
    decorations of the printed messages are kept byte for byte.

    What the scripts ask of their surroundings (file system, SQLite, the
    chromadb client, the json decoder) is answered by a [World], one
    answer per question for the time of a run; what they do there is
    recorded, in order, in a trace of [event]s, the printed lines
    included.  The dicts decoded from the configuration column live in a
    heap of objects, because both scripts' steps assign to them through
    the references kept in [problematic_configs]. *)

From Stdlib Require Import String Ascii List ZArith Lia Bool DecimalString.
From stdpp Require Import list strings.
Set Warnings "-register-all".
Import ListNotations.
Local Open Scope string_scope.
Local Open Scope list_scope.

(** ** Text *)

Module PyStr.

Definition LF : ascii := ascii_of_nat 10.
Definition DQUOTE : ascii := ascii_of_nat 34.
Definition SQUOTE : ascii := ascii_of_nat 39.
Definition BACKSLASH : ascii := ascii_of_nat 92.

Definition nl : string := String LF "".
Definition dq : string := String DQUOTE "".
Definition sq : string := String SQUOTE "".

(** [sep.join(parts)] *)
Fixpoint join (sep : string) (parts : list string) : string :=
  match parts with
  | [] => ""
  | [p] => p
  | p :: ps => p +:+ sep +:+ join sep ps
  end.

(** [s * n] *)
Fixpoint repeat_str (s : string) (n : nat) : string :=
  match n with
  | O => ""
  | S n' => s +:+ repeat_str s n'
  end.

(** [str(n)] for an [int] *)
Definition of_Z (z : Z) : string := NilZero.string_of_int (Z.to_int z).
Definition of_nat (n : nat) : string := NilZero.string_of_uint (Nat.to_uint n).

(** [s.startswith(p)] *)
Definition startswith (s p : string) : bool := String.prefix p s.

(** [s.endswith(p)] *)
Definition endswith (s p : string) : bool :=
  let n := String.length s in
  let m := String.length p in
  (m <=? n)%nat && String.eqb (String.substring (n - m) m s) p.

(** [p in s] *)
Fixpoint contains (s p : string) : bool :=
  String.prefix p s ||
  match s with
  | "" => false
  | String _ s' => contains s' p
  end.

(** [c in s] for one character *)
Fixpoint has_char (c : ascii) (s : string) : bool :=
  match s with
  | "" => false
  | String a s' => Ascii.eqb a c || has_char c s'
  end.

(** [s.lower()].  Only the letters A to Z are folded; no other character
    lowers to a letter of the word the scripts look for. *)
Definition lower_char (c : ascii) : ascii :=
  let n := nat_of_ascii c in
  if (65 <=? n)%nat && (n <=? 90)%nat then ascii_of_nat (n + 32) else c.

Fixpoint lower (s : string) : string :=
  match s with
  | "" => ""
  | String c s' => String (lower_char c) (lower s')
  end.

(** [s.split(LF)]: the lines of a text *)
Fixpoint lines (s : string) : list string :=
  match s with
  | "" => [""]
  | String c s' =>
      if Ascii.eqb c LF then "" :: lines s'
      else match lines s' with
           | l :: ls => String c l :: ls
           | [] => [String c ""]
           end
  end.

(** [os.path.join(a, b)] of [posixpath], for a relative [b] *)
Definition path_join (a b : string) : string :=
  if String.eqb a "" then b
  else if endswith a "/" then a +:+ b
  else a +:+ "/" +:+ b.

(** Index just past the last slash of [s], counted from [i] *)
Fixpoint after_last_slash (s : string) (i : nat) (last : nat) : nat :=
  match s with
  | "" => last
  | String c s' =>
      after_last_slash s' (S i) (if Ascii.eqb c "/"%char then S i else last)
  end.

Fixpoint all_slashes (s : string) : bool :=
  match s with
  | "" => true
  | String c s' => Ascii.eqb c "/"%char && all_slashes s'
  end.

(** [head.rstrip('/')] *)
Fixpoint rstrip_slashes (s : string) : string :=
  match s with
  | "" => ""
  | String c s' =>
      if all_slashes s then "" else String c (rstrip_slashes s')
  end.

(** [os.path.dirname(p)] of [posixpath] *)
Definition dirname (p : string) : string :=
  let head := String.substring 0 (after_last_slash p 0 0) p in
  if negb (String.eqb head "") && negb (all_slashes head)
  then rstrip_slashes head else head.

End PyStr.

(** ** Decoded JSON values and [json.dumps] *)

(** A value as [json.loads] returns it.  A dict keeps its keys in insertion
    order; a float is kept as the text [json.dumps] writes for it. *)
Inductive json : Type :=
| JNull
| JBool (b : bool)
| JInt (z : Z)
| JFloat (text : string)
| JStr (s : string)
| JArr (items : list json)
| JObj (fields : list (string * json)).

Abbreviation dict := (list (string * json)).

Module Json.
Import PyStr.

Definition hex_digit (n : nat) : ascii :=
  if (n <? 10)%nat then ascii_of_nat (48 + n) else ascii_of_nat (87 + n).

(** The text written for one character of a string: the [ESCAPE_DCT] of
    the encoder, and [\uXXXX] for what is outside of space to tilde. *)
Definition escape_char (c : ascii) : string :=
  let n := nat_of_ascii c in
  if Ascii.eqb c DQUOTE then String BACKSLASH dq
  else if Ascii.eqb c BACKSLASH then String BACKSLASH (String BACKSLASH "")
  else if (n =? 10)%nat then String BACKSLASH "n"
  else if (n =? 13)%nat then String BACKSLASH "r"
  else if (n =? 9)%nat then String BACKSLASH "t"
  else if (n =? 8)%nat then String BACKSLASH "b"
  else if (n =? 12)%nat then String BACKSLASH "f"
  else if (32 <=? n)%nat && (n <=? 126)%nat then String c ""
  else String BACKSLASH
         (String "u" (String "0" (String "0"
            (String (hex_digit (n / 16)) (String (hex_digit (n mod 16)) ""))))).

Fixpoint escape (s : string) : string :=
  match s with
  | "" => ""
  | String c s' => escape_char c +:+ escape s'
  end.

(** [encode_basestring_ascii] *)
Definition encode_str (s : string) : string := dq +:+ escape s +:+ dq.

(** The encoder of [json.dumps]: [indent = None] gives the separators
    [", "] and [": "]; [indent = Some n] gives [","], a line break and
    [n] spaces per nesting level. *)
Fixpoint encode (indent : option nat) (level : nat) (j : json) : string :=
  let inner :=
    match indent with
    | None => ""
    | Some n => nl +:+ repeat_str " " (n * S level)
    end in
  let outer :=
    match indent with
    | None => ""
    | Some n => nl +:+ repeat_str " " (n * level)
    end in
  let sep :=
    match indent with
    | None => ", "
    | Some _ => "," +:+ inner
    end in
  match j with
  | JNull => "null"
  | JBool true => "true"
  | JBool false => "false"
  | JInt z => of_Z z
  | JFloat text => text
  | JStr s => encode_str s
  | JArr [] => "[]"
  | JArr items =>
      "[" +:+ inner +:+ join sep (map (encode indent (S level)) items)
          +:+ outer +:+ "]"
  | JObj [] => "{}"
  | JObj fields =>
      "{" +:+ inner
          +:+ join sep
                (map (fun kv =>
                        match kv with
                        | (k, v) => encode_str k +:+ ": " +:+ encode indent (S level) v
                        end) fields)
          +:+ outer +:+ "}"
  end.

(** [json.dumps(v)] *)
Definition dumps (j : json) : string := encode None 0 j.

(** [json.dumps(v, indent=n)] *)
Definition dumps_indent (n : nat) (j : json) : string := encode (Some n) 0 j.

(** [type(v).__name__] *)
Definition type_name (j : json) : string :=
  match j with
  | JNull => "NoneType"
  | JBool _ => "bool"
  | JInt _ => "int"
  | JFloat _ => "float"
  | JStr _ => "str"
  | JArr _ => "list"
  | JObj _ => "dict"
  end.

End Json.

(** ** Dict operations *)

Module Dict.

(** [k in d] *)
Definition contains (k : string) (d : dict) : bool :=
  existsb (fun kv => String.eqb (fst kv) k) d.

(** [d[k]] *)
Fixpoint get (k : string) (d : dict) : option json :=
  match d with
  | [] => None
  | (k', v) :: d' => if String.eqb k' k then Some v else get k d'
  end.

(** [d[k] = v]: a present key keeps its place, a new key goes last. *)
Fixpoint set (k : string) (v : json) (d : dict) : dict :=
  match d with
  | [] => [(k, v)]
  | (k', v') :: d' =>
      if String.eqb k' k then (k', v) :: d' else (k', v') :: set k v d'
  end.

(** [list(d.keys())] *)
Definition keys (d : dict) : list string := map fst d.

End Dict.

(** ** The surroundings of the scripts *)

(** A raised exception: [type(e).__name__] and [str(e)].  Every exception
    of the model is caught by [except Exception]. *)
Record exn : Type := { exn_kind : string; exn_msg : string }.

Inductive res (A : Type) : Type :=
| Ok (a : A)
| Raise (e : exn).
Arguments Ok {A} a.
Arguments Raise {A} e.

(** A row of [SELECT id, name, configuration_json_str FROM collections]:
    two text columns and a nullable text column. *)
Record row : Type :=
  { row_id : string; row_name : string; row_config : option string }.

(** A collection handle as [list_collections] returns it. *)
Record collection : Type := { col_name : string; col_id : string }.

(** An opened client. *)
Definition client : Type := nat.

(** The ways the scripts call [chromadb.PersistentClient]. *)
Inductive client_args : Type :=
| PathOnly (path : string)
| WithSettings (path : string) (allow_reset : bool)
| WithAllowReset (path : string) (allow_reset : bool).

(** What a run does, in order. *)
Inductive event : Type :=
| Print (line : string)
| PathExists (path : string)
| ListDir (path : string)
| IsFile (path : string)
| GetSize (path : string)
| SqliteConnect (path : string)
| SqliteExecute (path : string) (sql : string) (params : list string)
| SqliteClose (path : string)
| JsonLoads (text : string)
| ClientOpen (args : client_args)
| ListCollections (c : client)
| CopyTree (src dst : string)
| FileWrite (path : string) (content : string).

(** The answers of the surroundings during one run. *)
Class World : Type :=
  { chromadb_version : string;
    (** [repr(s)] of a [str] and [str(v)] of a decoded value, for printing *)
    w_repr_str : string -> string;
    w_str_json : json -> string;
    w_json_loads : string -> res json;
    w_path_exists : string -> bool;
    w_listdir : string -> res (list string);
    w_isfile : string -> bool;
    w_getsize : string -> res Z;
    w_sqlite_connect : string -> res unit;
    w_sqlite_tables : string -> res (list string);
    w_sqlite_table_info : string -> res (list (string * string));
    w_sqlite_sample : string -> res (list row);
    w_sqlite_collections : string -> option string -> res (list row);
    w_client_open : client_args -> res client;
    w_list_collections : client -> res (list collection);
    w_copytree : string -> string -> res unit;
    w_file_write : string -> string -> res unit }.

(** ** Heap, trace and exceptions: the monad of the scripts *)

Abbreviation loc := nat.
Abbreviation heap := (list dict).

Definition M (A : Type) : Type := heap -> res A * heap * list event.

Definition ret {A : Type} (a : A) : M A := fun h => (Ok a, h, []).

Definition bind {A B : Type} (m : M A) (k : A -> M B) : M B :=
  fun h =>
    let '(r1, h1, t1) := m h in
    match r1 with
    | Ok a => let '(r2, h2, t2) := k a h1 in (r2, h2, t1 ++ t2)
    | Raise e => (Raise e, h1, t1)
    end.

Notation "x <- m ;; k" := (bind m (fun x => k))
  (at level 100, m at level 50, right associativity).
Notation "m ;; k" := (bind m (fun _ => k))
  (at level 100, right associativity).

Definition emit (e : event) : M unit := fun h => (Ok tt, h, [e]).
Definition lift {A : Type} (r : res A) : M A := fun h => (r, h, []).
Definition raise {A : Type} (e : exn) : M A := lift (Raise e).

(** [try: m  except Exception as e: ...], the caller matching on the result *)
Definition attempt {A : Type} (m : M A) : M (res A) :=
  fun h => let '(r, h1, t1) := m h in (Ok r, h1, t1).

(** [try: m  except <kind> as e: handler e]; other exceptions go on. *)
Definition catch_kind {A : Type} (kind : string) (m : M A)
    (handler : exn -> M A) : M A :=
  r <- attempt m ;;
  match r with
  | Ok a => ret a
  | Raise e => if String.eqb (exn_kind e) kind then handler e else raise e
  end.

(** [for x in xs: body x] *)
Fixpoint for_each {A : Type} (xs : list A) (body : A -> M unit) : M unit :=
  match xs with
  | [] => ret tt
  | x :: xs' => body x ;; for_each xs' body
  end.

(** A fresh dict object *)
Definition alloc (d : dict) : M loc :=
  fun h => (Ok (length h), h ++ [d], []).

(** What stops the model at a reference without an object. *)
Definition dangling : exn :=
  {| exn_kind := "ReferenceError"; exn_msg := "no such object" |}.

(** Reading the object behind a reference.  A reference of the scripts
    always has its object. *)
Definition load (l : loc) : M dict :=
  fun h =>
    match h !! l with
    | Some d => (Ok d, h, [])
    | None => (Raise dangling, h, [])
    end.

(** [config[k] = v] on the object behind [l] *)
Definition setitem (l : loc) (k : string) (v : json) : M unit :=
  fun h => (Ok tt, alter (Dict.set k v) l h, []).

Section Calls.
Context {W : World}.

Definition print (line : string) : M unit := emit (Print line).

Definition os_path_exists (p : string) : M bool :=
  emit (PathExists p) ;; ret (w_path_exists p).
Definition os_listdir (p : string) : M (list string) :=
  emit (ListDir p) ;; lift (w_listdir p).
Definition os_path_isfile (p : string) : M bool :=
  emit (IsFile p) ;; ret (w_isfile p).
Definition os_path_getsize (p : string) : M Z :=
  emit (GetSize p) ;; lift (w_getsize p).
Definition sqlite3_connect (p : string) : M unit :=
  emit (SqliteConnect p) ;; lift (w_sqlite_connect p).
Definition sqlite3_close (p : string) : M unit := emit (SqliteClose p).
Definition json_loads (s : string) : M json :=
  emit (JsonLoads s) ;; lift (w_json_loads s).
Definition PersistentClient (a : client_args) : M client :=
  emit (ClientOpen a) ;; lift (w_client_open a).
Definition list_collections (c : client) : M (list collection) :=
  emit (ListCollections c) ;; lift (w_list_collections c).
Definition shutil_copytree (src dst : string) : M unit :=
  emit (CopyTree src dst) ;; lift (w_copytree src dst).
Definition write_file (path content : string) : M unit :=
  emit (FileWrite path content) ;; lift (w_file_write path content).

(** [repr] of a list of [str] *)
Definition repr_list (l : list string) : string :=
  "[" +:+ PyStr.join ", " (map w_repr_str l) +:+ "]".

End Calls.

(** ** chroma_version_analysis.py *)

(** An element of [problematic_configs]: identifier, name, and the
    reference to the decoded dict or [None]. *)
Definition entry : Type := string * string * option loc.

(** What [analyze_configuration_error] returns: [False], [None], or the
    list. *)
Inductive analysis : Type :=
| AFalse
| ANone
| AList (problematic_configs : list entry).

Definition CollectionConfigurationInternal : json :=
  JStr "CollectionConfigurationInternal".

Definition default_config : dict :=
  [ ("_type", CollectionConfigurationInternal);
    ("hnsw", JObj []);
    ("embedding_function", JObj []) ].

Definition select_all : string :=
  "SELECT id, name, configuration_json_str FROM collections".
Definition select_named : string :=
  "SELECT id, name, configuration_json_str FROM collections WHERE name = ?".

Module Script.
Import PyStr.

Definition header (db_path : string) : string :=
  "-- ChromaDB Configuration Migration Script
-- Generated for database: " +:+ db_path +:+ "
-- Fixes missing '_type' fields in collection configurations

BEGIN TRANSACTION;

".

Definition fix_collection (name updated_json collection_id : string) : string :=
  "-- Fix collection: " +:+ name +:+ "
UPDATE collections 
SET configuration_json_str = '" +:+ updated_json +:+ "'
WHERE id = '" +:+ collection_id +:+ "';

".

Definition fix_default (name updated_json collection_id : string) : string :=
  "-- Fix collection with default config: " +:+ name +:+ "
UPDATE collections 
SET configuration_json_str = '" +:+ updated_json +:+ "'
WHERE id = '" +:+ collection_id +:+ "';

".

Definition footer : string :=
  "
COMMIT;

-- Verify the changes
SELECT id, name, configuration_json_str FROM collections;
".

End Script.

Section VersionAnalysis.
Context {W : World}.
Import PyStr.

Definition check_chromadb_version_info : M string :=
  print "=== ChromaDB Version Information ===" ;;
  print ("ChromaDB version: " +:+ chromadb_version) ;;
  let version := chromadb_version in
  (if startswith version "0.6" then
     print "⚠️  WARNING: Version 0.6.x has known compatibility issues with '_type' configuration" ;;
     print "   Recommended: Upgrade to version 1.0.7+ or downgrade to 1.0.0"
   else if startswith version "1.0" && String.ltb version "1.0.7" then
     print "⚠️  WARNING: This version may have '_type' configuration issues" ;;
     print "   Recommended: Upgrade to version 1.0.7+"
   else if String.leb "1.0.7" version then
     print "✓ This version should handle '_type' configuration correctly"
   else ret tt) ;;
  ret version.

(** The [for candidate in ...: if exists: ...; break] loops *)
Fixpoint first_existing (db_path : string) (candidates : list string)
    : M (option string) :=
  match candidates with
  | [] => ret None
  | candidate :: rest =>
      let candidate_path := path_join db_path candidate in
      found <- os_path_exists candidate_path ;;
      if found then ret (Some candidate_path)
      else first_existing db_path rest
  end.

(** Body of the [for row in rows] loop; [problematic_configs] goes in
    and comes out. *)
Definition analyze_row (r : row) (problematic_configs : list entry)
    : M (list entry) :=
  let collection_id := row_id r in
  let name := row_name r in
  print (nl +:+ "Collection: " +:+ name +:+ " (ID: " +:+ collection_id +:+ ")") ;;
  match row_config r with
  | Some ((String _ _) as config_json_str) =>
      catch_kind "JSONDecodeError"
        (decoded <- json_loads config_json_str ;;
         match decoded with
         | JObj fields =>
             config <- alloc fields ;;
             print ("  Configuration keys: " +:+ repr_list (Dict.keys fields)) ;;
             if negb (Dict.contains "_type" fields) then
               print "  ❌ PROBLEM: Missing '_type' field in configuration" ;;
               let problematic_configs :=
                 problematic_configs ++ [(collection_id, name, Some config)] in
               (if Dict.contains "hnsw" fields then
                  print "  💡 SUGGESTION: This appears to be an HNSW configuration" ;;
                  setitem config "_type" CollectionConfigurationInternal
                else ret tt) ;;
               ret problematic_configs
             else
               match Dict.get "_type" fields with
               | Some v =>
                   print ("  ✓ Configuration has '_type': " +:+ w_str_json v) ;;
                   ret problematic_configs
               | None => raise {| exn_kind := "KeyError"; exn_msg := "'_type'" |}
               end
         | other =>
             raise {| exn_kind := "AttributeError";
                      exn_msg := "'" +:+ Json.type_name other
                                 +:+ "' object has no attribute 'keys'" |}
         end)
        (fun e =>
           print ("  ❌ PROBLEM: Invalid JSON in configuration: " +:+ exn_msg e) ;;
           ret (problematic_configs ++ [(collection_id, name, None)]))
  | _ =>
      print "  ❌ PROBLEM: No configuration JSON found" ;;
      ret (problematic_configs ++ [(collection_id, name, None)])
  end.

Fixpoint analyze_rows (rows : list row) (problematic_configs : list entry)
    : M (list entry) :=
  match rows with
  | [] => ret problematic_configs
  | r :: rest =>
      problematic_configs <- analyze_row r problematic_configs ;;
      analyze_rows rest problematic_configs
  end.

(** [cursor.execute(...)] with [cursor.fetchall()] *)
Definition select_collections (sqlite_path : string)
    (collection_name : option string) : M (list row) :=
  match collection_name with
  | Some ((String _ _) as name) =>
      emit (SqliteExecute sqlite_path select_named [name]) ;;
      lift (w_sqlite_collections sqlite_path (Some name))
  | _ =>
      emit (SqliteExecute sqlite_path select_all []) ;;
      lift (w_sqlite_collections sqlite_path None)
  end.

Definition analyze_configuration_error (db_path : string)
    (collection_name : option string) : M analysis :=
  print (nl +:+ "=== Analyzing Configuration Error ===") ;;
  sqlite_path <- first_existing db_path ["chroma.sqlite3"; "chroma.db"] ;;
  match sqlite_path with
  | None =>
      print "ERROR: Could not find ChromaDB SQLite file" ;;
      ret AFalse
  | Some sqlite_path =>
      print ("Analyzing SQLite database: " +:+ sqlite_path) ;;
      r <- attempt
             (sqlite3_connect sqlite_path ;;
              rows <- select_collections sqlite_path collection_name ;;
              print ("Found " +:+ of_nat (length rows) +:+ " collections:") ;;
              problematic_configs <- analyze_rows rows [] ;;
              sqlite3_close sqlite_path ;;
              ret (AList problematic_configs)) ;;
      match r with
      | Ok a => ret a
      | Raise e =>
          print ("Error analyzing SQLite database: " +:+ exn_msg e) ;;
          ret ANone
      end
  end.

(** Body of the [for collection_id, name, config in problematic_configs]
    loop; [migration_script] goes in and comes out. *)
Definition migrate_entry (e : entry) (migration_script : string) : M string :=
  let '(collection_id, name, config) := e in
  match config with
  | Some config =>
      fields <- load config ;;
      (if negb (Dict.contains "_type" fields) then
         setitem config "_type" CollectionConfigurationInternal
       else ret tt) ;;
      fields <- load config ;;
      let updated_json := Json.dumps (JObj fields) in
      ret (migration_script +:+ Script.fix_collection name updated_json collection_id)
  | None =>
      let updated_json := Json.dumps (JObj default_config) in
      ret (migration_script +:+ Script.fix_default name updated_json collection_id)
  end.

Fixpoint migrate_entries (problematic_configs : list entry)
    (migration_script : string) : M string :=
  match problematic_configs with
  | [] => ret migration_script
  | e :: rest =>
      migration_script <- migrate_entry e migration_script ;;
      migrate_entries rest migration_script
  end.

Definition script_path_of (db_path : string) : string :=
  path_join (dirname db_path) "chroma_migration.sql".

Definition generate_migration_script (db_path : string)
    (problematic_configs : list entry) : M unit :=
  match problematic_configs with
  | [] => print (nl +:+ "✓ No configuration issues found!")
  | _ =>
      print (nl +:+ "=== Generating Migration Script ===") ;;
      let migration_script := Script.header db_path in
      migration_script <- migrate_entries problematic_configs migration_script ;;
      let migration_script := migration_script +:+ Script.footer in
      let script_path := script_path_of db_path in
      write_file script_path migration_script ;;
      print ("Migration script written to: " +:+ script_path) ;;
      print (nl +:+ "To apply the migration:") ;;
      print ("  1. Backup your database: cp -r '" +:+ db_path +:+ "' '"
             +:+ db_path +:+ "_backup'") ;;
      print ("  2. Apply the script: sqlite3 '"
             +:+ path_join db_path "chroma.sqlite3" +:+ "' < '"
             +:+ script_path +:+ "'") ;;
      print "  3. Test the database with ChromaDB"
  end.

(** Body of the [for name, client_func in approaches] loop, and the
    loop; [true] is the [return True] from inside it. *)
Fixpoint try_approaches (approaches : list (string * client_args)) : M bool :=
  match approaches with
  | [] => ret false
  | (name, args) :: rest =>
      print (nl +:+ "Testing: " +:+ name) ;;
      r <- attempt
             (c <- PersistentClient args ;;
              collections <- list_collections c ;;
              print ("  ✓ Success! Found " +:+ of_nat (length collections)
                     +:+ " collections") ;;
              for_each collections
                (fun collection => print ("    - " +:+ col_name collection))) ;;
      match r with
      | Ok _ => ret true
      | Raise e =>
          print ("  ❌ Failed: " +:+ exn_kind e +:+ ": " +:+ exn_msg e) ;;
          try_approaches rest
      end
  end.

Definition approaches_of (db_path : string) : list (string * client_args) :=
  [ ("Standard PersistentClient", PathOnly db_path);
    ("PersistentClient with settings", WithSettings db_path false) ].

Definition test_chromadb_connection_with_fixes (db_path : string) : M bool :=
  print (nl +:+ "=== Testing ChromaDB Connection Approaches ===") ;;
  try_approaches (approaches_of db_path).

(** [main()] with [sys.argv] *)
Definition version_analysis_main (argv : list string) : M unit :=
  match argv with
  | _ :: db_path :: more =>
      let collection_name := head more in
      print "ChromaDB Version Compatibility Analysis" ;;
      print (repeat_str "=" 50) ;;
      version <- check_chromadb_version_info ;;
      found <- os_path_exists db_path ;;
      if negb found then
        print ("ERROR: Database path does not exist: " +:+ db_path)
      else
        success <- test_chromadb_connection_with_fixes db_path ;;
        if negb success then
          problematic_configs <- analyze_configuration_error db_path collection_name ;;
          (match problematic_configs with
           | AList ((_ :: _) as l) => generate_migration_script db_path l
           | _ => ret tt
           end) ;;
          print (nl +:+ "=== Recommendations ===") ;;
          print "1. IMMEDIATE FIX: Apply the generated migration script" ;;
          print "2. VERSION FIX: Consider upgrading ChromaDB:" ;;
          print "   pip install 'chromadb>=1.0.7'" ;;
          print "3. COMPATIBILITY: Ensure all ChromaDB clients use the same version" ;;
          print "4. BACKUP: Always backup your database before applying migrations"
        else ret tt
  | _ =>
      print "Usage: python chroma_version_analysis.py <path_to_chroma_database> [collection_name]"
  end.

End VersionAnalysis.

(** ** chroma_diagnostic.py *)

(** A keyword dict of [test_database_migration], unpacked into the
    keyword arguments of [PersistentClient]. *)
Record kwargs : Type := { kw_path : string; kw_allow_reset : option bool }.

Definition args_of_kwargs (config : kwargs) : client_args :=
  match kw_allow_reset config with
  | None => PathOnly (kw_path config)
  | Some b => WithAllowReset (kw_path config) b
  end.

Section Diagnostic.
Context {W : World}.
Import PyStr.

(** The dict as the f-string prints it *)
Definition repr_kwargs (config : kwargs) : string :=
  "{'path': " +:+ w_repr_str (kw_path config)
  +:+ match kw_allow_reset config with
      | None => ""
      | Some true => ", 'allow_reset': True"
      | Some false => ", 'allow_reset': False"
      end
  +:+ "}".

(** Body of the [for row in rows] loop of the sample *)
Definition show_sample_row (r : row) : M unit :=
  let config_json := row_config r in
  print ("    ID: " +:+ row_id r +:+ ", Name: " +:+ row_name r) ;;
  match config_json with
  | Some ((String _ _) as config_json) =>
      catch_kind "JSONDecodeError"
        (config <- json_loads config_json ;;
         print ("    Configuration: " +:+ Json.dumps_indent 6 config))
        (fun e =>
           print ("    Configuration (invalid JSON): " +:+ config_json) ;;
           print ("    JSON Error: " +:+ exn_msg e))
  | _ => ret tt
  end.

Definition analyze_sqlite_structure (sqlite_path : string) : M unit :=
  r <- attempt
         (sqlite3_connect sqlite_path ;;
          emit (SqliteExecute sqlite_path
                  "SELECT name FROM sqlite_master WHERE type='table';" []) ;;
          tables <- lift (w_sqlite_tables sqlite_path) ;;
          print ("  Tables: " +:+ repr_list tables) ;;
          (if existsb (String.eqb "collections") tables then
             print (nl +:+ "  Collections table structure:") ;;
             emit (SqliteExecute sqlite_path "PRAGMA table_info(collections);" []) ;;
             columns <- lift (w_sqlite_table_info sqlite_path) ;;
             for_each columns
               (fun column =>
                  print ("    " +:+ fst column +:+ " (" +:+ snd column +:+ ")")) ;;
             emit (SqliteExecute sqlite_path
                     "SELECT id, name, configuration_json_str FROM collections LIMIT 5;"
                     []) ;;
             rows <- lift (w_sqlite_sample sqlite_path) ;;
             print ("  Sample collection data (" +:+ of_nat (length rows)
                    +:+ " rows):") ;;
             for_each rows show_sample_row
           else ret tt) ;;
          sqlite3_close sqlite_path) ;;
  match r with
  | Ok _ => ret tt
  | Raise e => print ("  Error analyzing SQLite: " +:+ exn_msg e)
  end.

Definition show_item (db_path item : string) : M unit :=
  let item_path := path_join db_path item in
  is_file <- os_path_isfile item_path ;;
  if is_file then
    size <- os_path_getsize item_path ;;
    print ("  " +:+ item +:+ " (" +:+ of_Z size +:+ " bytes)")
  else
    print ("  " +:+ item +:+ "/ (directory)").

Definition looks_like_sqlite (f : string) : bool :=
  endswith f ".sqlite" || endswith f ".db" || contains (lower f) "chroma".

(** [for file in ...: if file.endswith('.sqlite3'): ...; break] *)
Fixpoint first_sqlite3 (db_path : string) (files : list string) : option string :=
  match files with
  | [] => None
  | file :: rest =>
      if endswith file ".sqlite3" then Some (path_join db_path file)
      else first_sqlite3 db_path rest
  end.

Definition analyze_chroma_database (db_path : string) : M bool :=
  print ("=== Analyzing ChromaDB at: " +:+ db_path +:+ " ===") ;;
  print ("ChromaDB version: " +:+ chromadb_version) ;;
  found <- os_path_exists db_path ;;
  if negb found then
    print ("ERROR: Database path does not exist: " +:+ db_path) ;;
    ret false
  else
    print (nl +:+ "Database files:") ;;
    items <- os_listdir db_path ;;
    for_each items (show_item db_path) ;;
    files <- os_listdir db_path ;;
    let sqlite_files := List.filter looks_like_sqlite files in
    print (nl +:+ "Potential SQLite files: " +:+ repr_list sqlite_files) ;;
    chroma_db_path <-
      first_existing db_path ["chroma.sqlite3"; "chroma.db"; "database.db"] ;;
    chroma_db_path <-
      match chroma_db_path with
      | Some p => ret (Some p)
      | None =>
          files <- os_listdir db_path ;;
          ret (first_sqlite3 db_path files)
      end ;;
    match chroma_db_path with
    | Some p =>
        print (nl +:+ "Analyzing SQLite database: " +:+ p) ;;
        analyze_sqlite_structure p
    | None => print "WARNING: No SQLite database file found"
    end ;;
    print (nl +:+ "=== Testing ChromaDB Client Connection ===") ;;
    opened <- attempt (PersistentClient (PathOnly db_path)) ;;
    match opened with
    | Raise e =>
        print ("✗ Error connecting to database: " +:+ exn_msg e) ;;
        print ("  Error type: " +:+ exn_kind e) ;;
        ret false
    | Ok c =>
        print "✓ Successfully connected to database" ;;
        listed <- attempt
                    (collections <- list_collections c ;;
                     print ("✓ Successfully listed collections: "
                            +:+ of_nat (length collections) +:+ " found") ;;
                     for_each collections
                       (fun collection =>
                          print ("  - " +:+ col_name collection +:+ " (id: "
                                 +:+ col_id collection +:+ ")"))) ;;
        match listed with
        | Raise e =>
            print ("✗ Error listing collections: " +:+ exn_msg e) ;;
            print ("  Error type: " +:+ exn_kind e) ;;
            ret false
        | Ok _ => ret true
        end
    end.

(** The [for i, config in enumerate(configs)] loop; [true] is the
    [return True] from inside it. *)
Fixpoint try_configs (i : nat) (configs : list kwargs) : M bool :=
  match configs with
  | [] => ret false
  | config :: rest =>
      print ("  Trying configuration " +:+ of_nat (i + 1) +:+ ": "
             +:+ repr_kwargs config) ;;
      r <- attempt
             (c <- PersistentClient (args_of_kwargs config) ;;
              collections <- list_collections c ;;
              print ("    ✓ Success with " +:+ of_nat (length collections)
                     +:+ " collections")) ;;
      match r with
      | Ok _ => ret true
      | Raise e =>
          print ("    ✗ Failed: " +:+ exn_msg e) ;;
          try_configs (S i) rest
      end
  end.

Definition configs_of (db_path : string) : list kwargs :=
  [ {| kw_path := db_path; kw_allow_reset := None |};
    {| kw_path := db_path; kw_allow_reset := Some false |} ].

Definition test_database_migration (db_path : string) : M bool :=
  print (nl +:+ "=== Testing Database Migration ===") ;;
  let backup_path := db_path +:+ "_backup" in
  backed_up <- os_path_exists backup_path ;;
  (if negb backed_up then
     print ("Creating backup at: " +:+ backup_path) ;;
     shutil_copytree db_path backup_path
   else ret tt) ;;
  r <- attempt (try_configs 0 (configs_of db_path)) ;;
  match r with
  | Ok true => ret true
  | Ok false => ret false
  | Raise e =>
      print ("Migration test failed: " +:+ exn_msg e) ;;
      ret false
  end.

(** [main()] with [sys.argv] *)
Definition diagnostic_main (argv : list string) : M unit :=
  match argv with
  | _ :: db_path :: _ =>
      print "ChromaDB Database Diagnostic Tool" ;;
      print (repeat_str "=" 50) ;;
      success <- analyze_chroma_database db_path ;;
      (if negb success then
         print (nl +:+ "=== Attempting Migration/Repair ===") ;;
         _ <- test_database_migration db_path ;;
         ret tt
       else ret tt) ;;
      print (nl +:+ "=== Recommendations ===") ;;
      if success then
        print "✓ Database appears to be compatible with current ChromaDB version"
      else
        print "✗ Database has compatibility issues. Possible solutions:" ;;
        print "  1. Upgrade/downgrade ChromaDB to match the database version" ;;
        print "  2. Migrate the database using ChromaDB migration tools" ;;
        print "  3. Export data from old database and import to new one" ;;
        print "  4. Check if there are any ChromaDB configuration flags to handle legacy databases"
  | _ =>
      print "Usage: python chroma_diagnostic.py <path_to_chroma_database>" ;;
      print "Example: python chroma_diagnostic.py C:/path/to/chroma_data"
  end.

End Diagnostic.


(** ** Notions the statements use *)

(** What [if '_type' not in config: config['_type'] = ...] leaves of a
    dict. *)
Definition with_type (d : dict) : dict :=
  if Dict.contains "_type" d then d
  else Dict.set "_type" CollectionConfigurationInternal d.

(** A reference of an entry has its object. *)
Definition entry_ok (h : heap) (e : entry) : Prop :=
  match snd e with
  | Some l => is_Some (h !! l)
  | None => True
  end.

(** [updated_json] for one entry, on heap [h]. *)
Definition entry_json (h : heap) (e : entry) : string :=
  match snd e with
  | Some l =>
      match h !! l with
      | Some d => Json.dumps (JObj (with_type d))
      | None => ""
      end
  | None => Json.dumps (JObj default_config)
  end.

(** The text appended to the script for one entry, on heap [h]. *)
Definition update_block (h : heap) (e : entry) : string :=
  let '(collection_id, name, config) := e in
  match config with
  | Some _ => Script.fix_collection name (entry_json h e) collection_id
  | None => Script.fix_default name (entry_json h e) collection_id
  end.

(** The heap after the emitter went through the entries. *)
Definition patched (es : list entry) (h : heap) : heap :=
  fold_left
    (fun h e => match snd e with
                | Some l => alter with_type l h
                | None => h
                end) es h.

Definition concat_all (parts : list string) : string :=
  fold_right String.append "" parts.

(** The whole script for the entries [es] on heap [h]. *)
Definition script_text (db_path : string) (h : heap) (es : list entry) : string :=
  (Script.header db_path +:+ concat_all (map (update_block h) es))
  +:+ Script.footer.

(** The name the query filters on: [if collection_name:] *)
Definition name_filter (collection_name : option string) : option string :=
  match collection_name with
  | Some ((String _ _) as name) => Some name
  | _ => None
  end.

(** The file [analyze_configuration_error] settles on. *)
Definition storage_file {W : World} (db_path : string) : option string :=
  if w_path_exists (PyStr.path_join db_path "chroma.sqlite3")
  then Some (PyStr.path_join db_path "chroma.sqlite3")
  else if w_path_exists (PyStr.path_join db_path "chroma.db")
  then Some (PyStr.path_join db_path "chroma.db")
  else None.

(** The table [analyze_configuration_error] reads: the storage file is
    found, opens, and the query answers [rows]. *)
Definition table_read {W : World} (db_path : string)
    (collection_name : option string) (rows : list row) : Prop :=
  exists sqlite_path,
    storage_file db_path = Some sqlite_path /\
    w_sqlite_connect sqlite_path = Ok tt /\
    w_sqlite_collections sqlite_path (name_filter collection_name) = Ok rows.

(** How SQLite reads a string literal: [sql_literal s] takes the text
    after the opening quote and gives the value and the text after the
    closing quote; two quotes in a row stand for one quote of the value. *)
Fixpoint sql_literal (s : string) : option (string * string) :=
  match s with
  | "" => None
  | String c s' =>
      if Ascii.eqb c PyStr.SQUOTE then
        match s' with
        | String c' s'' =>
            if Ascii.eqb c' PyStr.SQUOTE then
              match sql_literal s'' with
              | Some (v, rest) => Some (String PyStr.SQUOTE v, rest)
              | None => None
              end
            else Some ("", s')
        | "" => Some ("", "")
        end
      else
        match sql_literal s' with
        | Some (v, rest) => Some (String c v, rest)
        | None => None
        end
  end.

(** Opening a client and listing its collections, as one answer. *)
Definition connect {W : World} (a : client_args) : res (list collection) :=
  match w_client_open a with
  | Ok c => w_list_collections c
  | Raise e => Raise e
  end.

Definition succeeds {W : World} (a : client_args) : bool :=
  match connect a with
  | Ok _ => true
  | Raise _ => false
  end.

(** The clients a trace opened, in order. *)
Definition opened (t : list event) : list client_args :=
  flat_map (fun e => match e with ClientOpen a => [a] | _ => [] end) t.

(** The lines a trace printed, in order. *)
Definition printed (t : list event) : list string :=
  flat_map (fun e => match e with Print s => [s] | _ => [] end) t.

(** A row the loop of [analyze_configuration_error] gets past: its blob
    is absent, or is refused by the decoder with a [JSONDecodeError], or
    decodes to a dict.  (Any other decoded value has no [keys()], and any
    other exception is not caught in the loop; both end the analysis.) *)
Definition analysable {W : World} (r : row) : bool :=
  match row_config r with
  | Some ((String _ _) as s) =>
      match w_json_loads s with
      | Ok (JObj _) => true
      | Ok _ => false
      | Raise e => String.eqb (exn_kind e) "JSONDecodeError"
      end
  | _ => true
  end.

(** The first line the loop prints for a row. *)
Definition row_banner (r : row) : event :=
  Print (PyStr.nl +:+ "Collection: " +:+ row_name r +:+ " (ID: " +:+ row_id r +:+ ")").

(** The text [json.dumps] writes for [default_config]. *)
Definition default_config_json : string :=
  let q := fun s => PyStr.dq +:+ s +:+ PyStr.dq in
  "{" +:+ q "_type" +:+ ": " +:+ q "CollectionConfigurationInternal" +:+ ", "
  +:+ q "hnsw" +:+ ": {}, " +:+ q "embedding_function" +:+ ": {}}".

(** The same dict with no blank after a colon or a comma, and the
    one-line statement around it. *)
Definition compact_default_json : string :=
  let q := fun s => PyStr.dq +:+ s +:+ PyStr.dq in
  "{" +:+ q "_type" +:+ ":" +:+ q "CollectionConfigurationInternal" +:+ ","
  +:+ q "hnsw" +:+ ":{}," +:+ q "embedding_function" +:+ ":{}}".

Definition one_line_update (json collection_id : string) : string :=
  "UPDATE collections SET configuration_json_str = '" +:+ json
  +:+ "' WHERE id = '" +:+ collection_id +:+ "';".

(** The row of the scenario: [(id="abc", name="docs", NULL)]. *)
Definition abc_docs_null : row :=
  {| row_id := "abc"; row_name := "docs"; row_config := None |}.

(** What a connectivity loop over [variants] did, seen from its result
    [b] and its trace [t]: with [b = true] some variant succeeds, every
    variant before the first such one fails, and the clients opened are
    those of the variants up to and with that one and of no later
    variant; with [b = false] every variant fails and for each one a
    client was opened; and each failed variant left the line
    [fail_line e] for its exception [e]. *)
Definition first_success_run {W : World} {X : Type} (args : X -> client_args)
    (fail_line : exn -> string) (variants : list X) (b : bool)
    (t : list event) : Prop :=
  exists tried untried,
    variants = tried ++ untried /\
    opened t = map args tried /\
    (forall x e, In x tried -> connect (args x) = Raise e ->
                 In (Print (fail_line e)) t) /\
    if b then
      exists failed x,
        tried = failed ++ [x] /\
        succeeds (args x) = true /\
        Forall (fun y => succeeds (args y) = false) failed
    else
      untried = [] /\ Forall (fun y => succeeds (args y) = false) variants.

(** The line each loop prints for a variant that failed. *)
Definition approach_fail_line (e : exn) : string :=
  "  ❌ Failed: " +:+ exn_kind e +:+ ": " +:+ exn_msg e.

Definition config_fail_line (e : exn) : string :=
  "    ✗ Failed: " +:+ exn_msg e.

(** What [test_database_migration] does before its loop. *)
Definition backup_steps {W : World} (db_path : string) : list event :=
  [ Print (PyStr.nl +:+ "=== Testing Database Migration ===");
    PathExists (db_path +:+ "_backup") ]
  ++ (if w_path_exists (db_path +:+ "_backup") then []
      else [ Print ("Creating backup at: " +:+ db_path +:+ "_backup");
             CopyTree db_path (db_path +:+ "_backup") ]).

(** A text with no line break. *)
Definition plain (s : string) : bool := negb (PyStr.has_char PyStr.LF s).




(** ** Sample surroundings *)

Module Sample.
Import PyStr.

Definition refused (kind msg : string) : exn :=
  {| exn_kind := kind; exn_msg := msg |}.

(** A decoder that knows the texts [json.dumps] writes for a few
    values, and refuses every other text. *)
Definition known : list json :=
  [ JObj [];
    JObj [("hnsw", JObj [])];
    JObj [("hnsw", JObj []); ("_type", CollectionConfigurationInternal)];
    JObj [("note", JStr "it's")];
    JArr [] ].

Definition loads (s : string) : res json :=
  match List.find (fun j => String.eqb (Json.dumps j) s) known with
  | Some j => Ok j
  | None =>
      Raise (refused "JSONDecodeError" "Expecting value: line 1 column 1 (char 0)")
  end.

(** Surroundings given by the paths that exist, the rows of the
    collections table and the answer of the client to each call. *)
Definition world (paths : list string) (rows : list row)
    (open : client_args -> res client) : World :=
  {| chromadb_version := "1.0.12";
     w_repr_str := fun s => "'" +:+ s +:+ "'";
     w_str_json := Json.dumps;
     w_json_loads := loads;
     w_path_exists := fun p => existsb (String.eqb p) paths;
     w_listdir := fun p => Ok ["chroma.sqlite3"];
     w_isfile := fun p => true;
     w_getsize := fun p => Ok 4096%Z;
     w_sqlite_connect := fun p => Ok tt;
     w_sqlite_tables := fun p => Ok ["collections"];
     w_sqlite_table_info := fun p => Ok [("id", "TEXT"); ("name", "TEXT")];
     w_sqlite_sample := fun p => Ok (take 5 rows);
     w_sqlite_collections := fun p name =>
       match name with
       | None => Ok rows
       | Some n => Ok (List.filter (fun r => String.eqb (row_name r) n) rows)
       end;
     w_client_open := open;
     w_list_collections := fun c => Ok [];
     w_copytree := fun src dst =>
       if existsb (String.eqb src) paths then Ok tt
       else Raise (refused "FileNotFoundError" "No such file or directory");
     w_file_write := fun p s => Ok tt |}.

(** A client that fails on the missing '_type', as the library does on
    the legacy data. *)
Definition broken (a : client_args) : res client :=
  Raise (refused "KeyError" "'_type'").

Definition hnsw_row : row :=
  {| row_id := "h1"; row_name := "vectors";
     row_config := Some (Json.dumps (JObj [("hnsw", JObj [])])) |}.

Definition typed_row : row :=
  {| row_id := "t1"; row_name := "typed";
     row_config :=
       Some (Json.dumps
               (JObj [("hnsw", JObj []);
                      ("_type", CollectionConfigurationInternal)])) |}.

Definition garbled_row : row :=
  {| row_id := "g1"; row_name := "garbled"; row_config := Some "{not json" |}.

Definition empty_row : row :=
  {| row_id := "e1"; row_name := "blank"; row_config := Some "" |}.

Definition quoted_row : row :=
  {| row_id := "q1"; row_name := "notes";
     row_config := Some (Json.dumps (JObj [("note", JStr "it's")])) |}.

Definition store : list string := ["/data/chroma"; "/data/chroma/chroma.sqlite3"].

(** A client that refuses every call with a ValueError, and one that
    accepts every call but the plain one. *)
Definition refusing (a : client_args) : res client :=
  Raise (refused "ValueError" "boom").

Definition second_only (a : client_args) : res client :=
  match a with
  | PathOnly _ => Raise (refused "ValueError" "boom")
  | _ => Ok 7
  end.

(** A table with one row of each kind. *)
Definition mixed_table : list row :=
  [abc_docs_null; hnsw_row; garbled_row; empty_row; typed_row].

Definition repair_world : World := world store mixed_table broken.
Definition scenario_world : World := world store [abc_docs_null] broken.
Definition quote_world : World := world store [quoted_row] broken.
Definition refusing_world : World := world store [] refusing.
Definition second_world : World := world store [] second_only.

(** Nothing exists; and only a backup directory exists. *)
Definition missing_world : World := world [] [] broken.
Definition backed_up_world : World := world ["/nope_backup"] [] broken.

End Sample.

(** ** Notions the statements on whole runs use *)

(** Every event of a computation is an [allowed] one, from any heap. *)
Definition only_does {A : Type} (allowed : event -> Prop) (m : M A) : Prop :=
  forall h, Forall allowed (snd (m h)).

(** A computation leaves the heap as it found it, raising or not. *)
Definition keeps_heap {A : Type} (m : M A) : Prop :=
  forall h, snd (fst (m h)) = h.

(** A computation raises nothing, leaves the heap as it found it and
    returns a value that satisfies [post]. *)
Definition yields {A : Type} (m : M A) (post : A -> Prop) : Prop :=
  forall h, exists a t, m h = (Ok a, h, t) /\ post a.

(** What [analyze_configuration_error] may do on [db_path]: print, ask
    whether one of the two storage files exists, open and close it, run
    one of the two SELECT statements on it, and decode a text. *)
Definition analysis_event (db_path : string) (e : event) : Prop :=
  let candidates :=
    [ PyStr.path_join db_path "chroma.sqlite3";
      PyStr.path_join db_path "chroma.db" ] in
  match e with
  | Print _ | JsonLoads _ => True
  | PathExists p | SqliteConnect p | SqliteClose p => In p candidates
  | SqliteExecute p sql params =>
      In p candidates /\
      ((sql = select_all /\ params = []) \/
       (sql = select_named /\ exists name, params = [name]))
  | _ => False
  end.

(** The dict the loop of [analyze_configuration_error] gets from a row,
    if it gets one. *)
Definition decoded_dict {W : World} (r : row) : option dict :=
  match row_config r with
  | Some ((String _ _) as s) =>
      match w_json_loads s with
      | Ok (JObj d) => Some d
      | _ => None
      end
  | _ => None
  end.

(** Among the rows the loop gets past, those it lists: every row but
    the ones whose dict has its '_type'. *)
Definition needs_repair {W : World} (r : row) : bool :=
  match decoded_dict r with
  | Some d => negb (Dict.contains "_type" d)
  | None => true
  end.

(** The entry [e] of the list stands for the row [r], on the heap [h]:
    it carries the identifier and the name of the row, and a reference
    to the decoded dict of the row, with '_type' added when the dict has
    an 'hnsw' key, or no reference when the row gave no dict. *)
Definition listed_as {W : World} (h : heap) (e : entry) (r : row) : Prop :=
  fst e = (row_id r, row_name r) /\
  match snd e with
  | Some l =>
      exists d,
        decoded_dict r = Some d /\
        h !! l = Some (if Dict.contains "hnsw" d then with_type d else d)
  | None => decoded_dict r = None
  end.

(** What the search for the storage file and the row loop do: print,
    ask whether a path exists, decode a text. *)
Definition asks_or_decodes (e : event) : Prop :=
  match e with
  | Print _ | PathExists _ | JsonLoads _ => True
  | _ => False
  end.

(** Some entry of the list refers to the object at [l]. *)
Definition refers (es : list entry) (l : loc) : bool :=
  existsb (fun e => match snd e with
                    | Some l' => Nat.eqb l' l
                    | None => false
                    end) es.

(** An event that closes no connection. *)
Definition closes_nothing (e : event) : Prop :=
  match e with
  | SqliteClose _ => False
  | _ => True
  end.

(** A computation on the connection to [p] that leaves the heap as it
    found it and closes the connection as the last thing it does, or
    raises and has not closed it. *)
Definition closes_last {A : Type} (p : string) (m : M A) : Prop :=
  forall h,
    let '(r, h', t) := m h in
    h' = h /\
    match r with
    | Ok _ => exists t0, t = t0 ++ [SqliteClose p] /\ Forall closes_nothing t0
    | Raise _ => Forall closes_nothing t
    end.

(** The line [analyze_sqlite_structure] prints for an exception. *)
Definition sqlite_error_line (e : exn) : string :=
  "  Error analyzing SQLite: " +:+ exn_msg e.

(** What [analyze_sqlite_structure] may do on [sqlite_path]: print,
    open and close the file, run one of its three queries on it, and
    decode a text. *)
Definition inspection_event (sqlite_path : string) (e : event) : Prop :=
  match e with
  | Print _ | JsonLoads _ => True
  | SqliteConnect p | SqliteClose p => p = sqlite_path
  | SqliteExecute p sql params =>
      p = sqlite_path /\ params = [] /\
      In sql [ "SELECT name FROM sqlite_master WHERE type='table';";
               "PRAGMA table_info(collections);";
               "SELECT id, name, configuration_json_str FROM collections LIMIT 5;" ]
  | _ => False
  end.

(** Every entry of the listing of [db_path] that is a file has a size. *)
Definition sizes_known {W : World} (db_path : string) (items : list string)
    : bool :=
  forallb
    (fun item =>
       let item_path := PyStr.path_join db_path item in
       negb (w_isfile item_path)
       || match w_getsize item_path with
          | Ok _ => true
          | Raise _ => false
          end)
    items.

(** An event that changes nothing on the file system. *)
Definition writes_nothing (e : event) : Prop :=
  match e with
  | CopyTree _ _ | FileWrite _ _ => False
  | _ => True
  end.

(** What a run of [chroma_diagnostic.py] on [db_path] may do. *)
Definition diagnostic_event (db_path : string) (e : event) : Prop :=
  match e with
  | Print _ | PathExists _ | IsFile _ | GetSize _ | JsonLoads _
  | ListCollections _ => True
  | ListDir p => p = db_path
  | SqliteConnect _ | SqliteClose _ | SqliteExecute _ _ _ =>
      exists sqlite_path, inspection_event sqlite_path e
  | ClientOpen a => a = PathOnly db_path \/ a = WithAllowReset db_path false
  | CopyTree src dst => src = db_path /\ dst = db_path +:+ "_backup"
  | FileWrite _ _ => False
  end.

(** The last lines of a run of [chroma_diagnostic.py] after a failed
    analysis. *)
Definition issues_lines : list string :=
  [ "✗ Database has compatibility issues. Possible solutions:";
    "  1. Upgrade/downgrade ChromaDB to match the database version";
    "  2. Migrate the database using ChromaDB migration tools";
    "  3. Export data from old database and import to new one";
    "  4. Check if there are any ChromaDB configuration flags to handle legacy databases" ].

(** What [test_database_migration] may do on [db_path]: print a line
    that does not start with the words of its outer handler, ask for
    the backup path, copy the directory to the backup path when nothing
    is there, open a client on [db_path] in one of its two ways, and
    list the collections. *)
Definition migration_test_event {W : World} (db_path : string) (e : event)
    : Prop :=
  match e with
  | Print line => PyStr.startswith line "Migration test failed" = false
  | PathExists p => p = db_path +:+ "_backup"
  | CopyTree src dst =>
      src = db_path /\ dst = db_path +:+ "_backup" /\ w_path_exists dst = false
  | ClientOpen a => a = PathOnly db_path \/ a = WithAllowReset db_path false
  | ListCollections _ => True
  | _ => False
  end.

(** What the connection test of [chroma_version_analysis.py] may do on
    [db_path]. *)
Definition connection_test_event (db_path : string) (e : event) : Prop :=
  match e with
  | Print _ | ListCollections _ => True
  | PathExists p => p = db_path
  | ClientOpen a => a = PathOnly db_path \/ a = WithSettings db_path false
  | _ => False
  end.

(** What a run of [chroma_version_analysis.py] on [db_path] may do: what
    its connection test and its analysis may do, and write the
    migration script. *)
Definition version_analysis_event (db_path : string) (e : event) : Prop :=
  connection_test_event db_path e \/
  analysis_event db_path e \/
  match e with
  | FileWrite p _ => p = script_path_of db_path
  | _ => False
  end.

(** The line of [generate_migration_script] for an empty list. *)
Definition no_issues_line : string :=
  PyStr.nl +:+ "✓ No configuration issues found!".

Definition says_no_issues (e : event) : bool :=
  match e with
  | Print line => String.eqb line no_issues_line
  | _ => false
  end.

(** The last lines of a run of [chroma_version_analysis.py] whose
    connection test failed. *)
Definition recommendation_lines : list string :=
  [ PyStr.nl +:+ "=== Recommendations ===";
    "1. IMMEDIATE FIX: Apply the generated migration script";
    "2. VERSION FIX: Consider upgrading ChromaDB:";
    "   pip install 'chromadb>=1.0.7'";
    "3. COMPATIBILITY: Ensure all ChromaDB clients use the same version";
    "4. BACKUP: Always backup your database before applying migrations" ].

(** ** Notions on serialised JSON *)

(** Some key or text of a value satisfies [g]. *)
Fixpoint occurs (g : string -> bool) (j : json) : bool :=
  match j with
  | JStr s => g s
  | JArr items => existsb (occurs g) items
  | JObj fields => existsb (fun kv => g (fst kv) || occurs g (snd kv)) fields
  | _ => false
  end.

(** Some key or text of a value holds a single quote. *)
Definition has_quote (j : json) : bool :=
  occurs (PyStr.has_char PyStr.SQUOTE) j.

(** The characters of the texts [json.dumps] writes for a float: those
    of a decimal number, of NaN and of Infinity. *)
Definition number_char (c : ascii) : bool :=
  PyStr.has_char c "0123456789.eE+-InfityNa".

Fixpoint all_chars (p : ascii -> bool) (s : string) : bool :=
  match s with
  | "" => true
  | String c s' => p c && all_chars p s'
  end.

(** Every float of a value is kept as such a text. *)
Fixpoint floats_are_numbers (j : json) : bool :=
  match j with
  | JFloat text => all_chars number_char text
  | JArr items => forallb floats_are_numbers items
  | JObj fields => forallb (fun kv => floats_are_numbers (snd kv)) fields
  | _ => true
  end.

(** ** Further sample surroundings *)

Module Cases.
Import PyStr.

(** Surroundings that differ from [w] in one answer. *)
Definition with_version (version : string) (w : World) : World :=
  {| chromadb_version := version;
     w_repr_str := @w_repr_str w;
     w_str_json := @w_str_json w;
     w_json_loads := @w_json_loads w;
     w_path_exists := @w_path_exists w;
     w_listdir := @w_listdir w;
     w_isfile := @w_isfile w;
     w_getsize := @w_getsize w;
     w_sqlite_connect := @w_sqlite_connect w;
     w_sqlite_tables := @w_sqlite_tables w;
     w_sqlite_table_info := @w_sqlite_table_info w;
     w_sqlite_sample := @w_sqlite_sample w;
     w_sqlite_collections := @w_sqlite_collections w;
     w_client_open := @w_client_open w;
     w_list_collections := @w_list_collections w;
     w_copytree := @w_copytree w;
     w_file_write := @w_file_write w |}.

Definition with_listdir (listdir : string -> res (list string)) (w : World)
    : World :=
  {| chromadb_version := @chromadb_version w;
     w_repr_str := @w_repr_str w;
     w_str_json := @w_str_json w;
     w_json_loads := @w_json_loads w;
     w_path_exists := @w_path_exists w;
     w_listdir := listdir;
     w_isfile := @w_isfile w;
     w_getsize := @w_getsize w;
     w_sqlite_connect := @w_sqlite_connect w;
     w_sqlite_tables := @w_sqlite_tables w;
     w_sqlite_table_info := @w_sqlite_table_info w;
     w_sqlite_sample := @w_sqlite_sample w;
     w_sqlite_collections := @w_sqlite_collections w;
     w_client_open := @w_client_open w;
     w_list_collections := @w_list_collections w;
     w_copytree := @w_copytree w;
     w_file_write := @w_file_write w |}.

Definition with_file_write (file_write : string -> string -> res unit)
    (w : World) : World :=
  {| chromadb_version := @chromadb_version w;
     w_repr_str := @w_repr_str w;
     w_str_json := @w_str_json w;
     w_json_loads := @w_json_loads w;
     w_path_exists := @w_path_exists w;
     w_listdir := @w_listdir w;
     w_isfile := @w_isfile w;
     w_getsize := @w_getsize w;
     w_sqlite_connect := @w_sqlite_connect w;
     w_sqlite_tables := @w_sqlite_tables w;
     w_sqlite_table_info := @w_sqlite_table_info w;
     w_sqlite_sample := @w_sqlite_sample w;
     w_sqlite_collections := @w_sqlite_collections w;
     w_client_open := @w_client_open w;
     w_list_collections := @w_list_collections w;
     w_copytree := @w_copytree w;
     w_file_write := file_write |}.

(** A row whose configuration is a JSON list. *)
Definition list_row : row :=
  {| row_id := "l1"; row_name := "listed"; row_config := Some "[]" |}.

Definition list_table : list row :=
  [abc_docs_null; list_row; Sample.hnsw_row].

(** A client that opens in every way. *)
Definition opening (a : client_args) : res client := Ok 7.

Definition accepted_world : World := with_version "1.1.0" Sample.repair_world.
Definition list_world : World :=
  Sample.world Sample.store list_table Sample.broken.
Definition typed_world : World :=
  Sample.world Sample.store [Sample.typed_row] Sample.broken.
Definition open_world : World := Sample.world Sample.store [] opening.
Definition chroma_db_world : World :=
  Sample.world ["/data/chroma"; "/data/chroma/chroma.db"] [Sample.hnsw_row]
    Sample.broken.
Definition unwritable_world : World :=
  with_file_write
    (fun path text =>
       Raise (Sample.refused "PermissionError" "[Errno 13] Permission denied"))
    Sample.repair_world.
Definition unlistable_world : World :=
  with_listdir
    (fun path =>
       Raise (Sample.refused "NotADirectoryError" "[Errno 20] Not a directory"))
    Sample.repair_world.

End Cases.

(** ** Notions on the literals of the script *)

(** A value as a correct emitter writes it into a SQL string literal:
    every single quote twice. *)
Fixpoint sql_escape (v : string) : string :=
  match v with
  | "" => ""
  | String c v' =>
      if Ascii.eqb c PyStr.SQUOTE
      then String PyStr.SQUOTE (String PyStr.SQUOTE (sql_escape v'))
      else String c (sql_escape v')
  end.

(** A text does not start with a single quote. *)
Definition starts_unquoted (s : string) : bool :=
  match s with
  | "" => true
  | String c _ => negb (Ascii.eqb c PyStr.SQUOTE)
  end.


Module Injected.
Import PyStr.

(** A record whose name holds a line break and then a statement. *)
Definition name : string :=
  "docs" +:+ nl +:+ "UPDATE collections SET name = 'pwned';".

Definition injected_row : row :=
  {| row_id := "x1"; row_name := name; row_config := None |}.

Definition world : World :=
  Sample.world Sample.store [injected_row] Sample.broken.

End Injected.

(** * Properties *)

(** ** Text and dicts *)

Lemma append_cons (x : ascii) (a b : string) :
  String x a +:+ b = String x (a +:+ b).
Proof. reflexivity. Qed.

Lemma append_assoc (a b c : string) : (a +:+ b) +:+ c = a +:+ (b +:+ c).
Proof.
  induction a as [|x a IH]; [reflexivity |].
  rewrite !append_cons. now rewrite IH.
Qed.

Lemma append_nil_r (a : string) : a +:+ "" = a.
Proof.
  induction a as [|x a IH]; [reflexivity |].
  rewrite append_cons. now rewrite IH.
Qed.

Lemma concat_all_app (xs ys : list string) :
  concat_all (xs ++ ys) = concat_all xs +:+ concat_all ys.
Proof.
  induction xs as [|x xs IH]; simpl; [reflexivity |].
  now rewrite IH, append_assoc.
Qed.

Lemma dict_set_fresh (k : string) (v : json) (d : dict) :
  Dict.contains k d = false -> Dict.set k v d = d ++ [(k, v)].
Proof.
  induction d as [|[k' v'] d IH]; simpl; [reflexivity |].
  intros H. apply orb_false_elim in H as [Hk Hd].
  rewrite Hk. now rewrite IH.
Qed.

Lemma dict_contains_app (k : string) (d1 d2 : dict) :
  Dict.contains k (d1 ++ d2) = Dict.contains k d1 || Dict.contains k d2.
Proof. unfold Dict.contains. apply existsb_app. Qed.

Lemma dict_get_app_other (k k' : string) (v : json) (d : dict) :
  k <> k' -> Dict.get k (d ++ [(k', v)]) = Dict.get k d.
Proof.
  intros Hne. induction d as [|[k0 v0] d IH]; simpl.
  - destruct (String.eqb_spec k' k); [congruence | reflexivity].
  - now rewrite IH.
Qed.

Lemma dict_get_app_fresh (k : string) (v : json) (d : dict) :
  Dict.contains k d = false -> Dict.get k (d ++ [(k, v)]) = Some v.
Proof.
  induction d as [|[k0 v0] d IH]; simpl.
  - now rewrite String.eqb_refl.
  - intros H. apply orb_false_elim in H as [Hk Hd].
    rewrite Hk. auto.
Qed.

Lemma with_type_has_type (d : dict) : Dict.contains "_type" (with_type d) = true.
Proof.
  unfold with_type. destruct (Dict.contains "_type" d) eqn:E; [exact E |].
  rewrite dict_set_fresh by exact E.
  rewrite dict_contains_app. simpl. apply orb_true_r.
Qed.

Lemma with_type_fixed (d : dict) :
  Dict.contains "_type" d = true -> with_type d = d.
Proof. intros E. unfold with_type. now rewrite E. Qed.

Lemma with_type_idem (d : dict) : with_type (with_type d) = with_type d.
Proof. apply with_type_fixed, with_type_has_type. Qed.

Lemma with_type_missing (d : dict) :
  Dict.contains "_type" d = false ->
  with_type d = d ++ [("_type", CollectionConfigurationInternal)].
Proof. intros E. unfold with_type. rewrite E. now apply dict_set_fresh. Qed.

(** ** The monad *)

Lemma bind_ok_inv {A B : Type} (m : M A) (k : A -> M B) h b h2 t :
  bind m k h = (Ok b, h2, t) ->
  exists a h1 t1 t2,
    m h = (Ok a, h1, t1) /\ k a h1 = (Ok b, h2, t2) /\ t = t1 ++ t2.
Proof.
  unfold bind. destruct (m h) as [[[a|e] h1] t1]; [|discriminate].
  destruct (k a h1) as [[r2 h2'] t2] eqn:E. intros [= -> -> <-].
  now exists a, h1, t1, t2.
Qed.

Lemma bind_run {A B : Type} (m : M A) (k : A -> M B) h a h1 t1 :
  m h = (Ok a, h1, t1) ->
  bind m k h = (let '(r2, h2, t2) := k a h1 in (r2, h2, t1 ++ t2)).
Proof. intros E. unfold bind. now rewrite E. Qed.

(** ** The heap under the emitter *)

Lemma alter_fixed (l : loc) (h : heap) (d : dict) :
  h !! l = Some d -> with_type d = d -> alter with_type l h = h.
Proof.
  revert l. induction h as [|x h IH]; intros [|l]; simpl; try discriminate.
  - intros [= ->] E. now rewrite E.
  - intros Hl E. f_equal. now apply IH.
Qed.

Lemma entry_ok_alter (f : dict -> dict) (l : loc) (h : heap) (e : entry) :
  entry_ok h e -> entry_ok (alter f l h) e.
Proof.
  unfold entry_ok. destruct (snd e) as [l'|]; [|trivial].
  intros H. apply lookup_lt_is_Some. apply lookup_lt_is_Some in H.
  now rewrite length_alter.
Qed.

Lemma entry_json_alter (l : loc) (h : heap) (e : entry) :
  entry_json (alter with_type l h) e = entry_json h e.
Proof.
  unfold entry_json. destruct (snd e) as [l'|]; [|reflexivity].
  rewrite list_lookup_alter. destruct (decide (l = l')) as [->|]; [|reflexivity].
  destruct (h !! l') as [d|]; simpl; [|reflexivity].
  now rewrite with_type_idem.
Qed.

Lemma update_block_alter (l : loc) (h : heap) (e : entry) :
  update_block (alter with_type l h) e = update_block h e.
Proof.
  destruct e as [[cid name] [l'|]]; unfold update_block;
    now rewrite entry_json_alter.
Qed.

Lemma patched_length (es : list entry) (h : heap) :
  length (patched es h) = length h.
Proof.
  revert h. induction es as [|e es IH]; intros h; simpl; [reflexivity |].
  unfold patched in *. simpl. rewrite IH.
  destruct (snd e); [apply length_alter | reflexivity].
Qed.

Lemma patched_lookup_typed (es : list entry) (h : heap) (l : loc) (d : dict) :
  h !! l = Some d -> Dict.contains "_type" d = true ->
  patched es h !! l = Some d.
Proof.
  revert h. induction es as [|e es IH]; intros h Hl Hd; [exact Hl |].
  unfold patched in *. simpl. apply IH; [|exact Hd].
  destruct (snd e) as [l'|]; [|exact Hl].
  rewrite list_lookup_alter. destruct (decide (l' = l)) as [->|]; [|exact Hl].
  rewrite Hl. simpl. now rewrite with_type_fixed.
Qed.

Lemma patched_lookup (es : list entry) (h : heap) (l : loc) (d : dict) :
  h !! l = Some d ->
  patched es h !! l = Some d \/ patched es h !! l = Some (with_type d).
Proof.
  revert h d. induction es as [|e es IH]; intros h d Hl; [now left |].
  unfold patched in *. simpl.
  destruct (snd e) as [l'|]; [|now apply IH].
  destruct (decide (l' = l)) as [->|Hne].
  - right.
    destruct (IH (alter with_type l h) (with_type d)) as [E|E].
    + rewrite list_lookup_alter_eq, Hl. reflexivity.
    + exact E.
    + now rewrite with_type_idem in E.
  - apply IH. now rewrite list_lookup_alter_ne.
Qed.

Section Emitter.
Context {W : World}.

Lemma migrate_entry_run (e : entry) (script : string) (h : heap) :
  entry_ok h e ->
  migrate_entry e script h =
    (Ok (script +:+ update_block h e), patched [e] h, []).
Proof.
  destruct e as [[cid name] [l|]]; unfold entry_ok; simpl; [|reflexivity].
  intros [d Hd]. unfold patched, entry_json; simpl.
  unfold bind, load, setitem, ret. rewrite Hd.
  destruct (Dict.contains "_type" d) eqn:E; simpl.
  - rewrite Hd. simpl.
    rewrite (with_type_fixed d E).
    now rewrite (alter_fixed l h d Hd (with_type_fixed d E)).
  - assert (Ha : alter (Dict.set "_type" CollectionConfigurationInternal) l h
                 = alter with_type l h).
    { apply list_alter_ext; [|reflexivity].
      intros x Hx. rewrite Hd in Hx. injection Hx as <-.
      now rewrite (with_type_missing d E), (dict_set_fresh _ _ _ E). }
    rewrite Ha, list_lookup_alter_eq, Hd. reflexivity.
Qed.

Lemma migrate_entries_run (es : list entry) (script : string) (h : heap) :
  Forall (entry_ok h) es ->
  migrate_entries es script h =
    (Ok (script +:+ concat_all (map (update_block h) es)), patched es h, []).
Proof.
  revert script h. induction es as [|e es IH]; intros script h Hok.
  - simpl. unfold ret. now rewrite append_nil_r.
  - apply Forall_cons in Hok as [He Hes].
    simpl. rewrite (bind_run _ _ _ _ _ _ (migrate_entry_run e script h He)).
    rewrite IH.
    + assert (Hm : map (update_block (patched [e] h)) es
                   = map (update_block h) es).
      { unfold patched; simpl.
        destruct (snd e) as [l|]; [|reflexivity].
        apply map_ext. intros e'. apply update_block_alter. }
      rewrite Hm. simpl. now rewrite append_assoc.
    + unfold patched; simpl.
      destruct (snd e) as [l|]; [|exact Hes].
      eapply Forall_impl; [exact Hes |].
      intros e'. apply entry_ok_alter.
Qed.

Lemma generate_migration_script_run (db_path : string) (es : list entry)
    (h : heap) :
  es <> [] -> Forall (entry_ok h) es ->
  let path := script_path_of db_path in
  let text := script_text db_path h es in
  generate_migration_script db_path es h =
    match w_file_write path text with
    | Ok _ =>
        (Ok tt, patched es h,
         [ Print (PyStr.nl +:+ "=== Generating Migration Script ===");
           FileWrite path text;
           Print ("Migration script written to: " +:+ path);
           Print (PyStr.nl +:+ "To apply the migration:");
           Print ("  1. Backup your database: cp -r '" +:+ db_path +:+ "' '"
                  +:+ db_path +:+ "_backup'");
           Print ("  2. Apply the script: sqlite3 '"
                  +:+ PyStr.path_join db_path "chroma.sqlite3" +:+ "' < '"
                  +:+ path +:+ "'");
           Print "  3. Test the database with ChromaDB" ])
    | Raise e =>
        (Raise e, patched es h,
         [ Print (PyStr.nl +:+ "=== Generating Migration Script ===");
           FileWrite path text ])
    end.
Proof.
  intros Hne Hok path text.
  destruct es as [|e0 es0]; [congruence |].
  unfold generate_migration_script.
  remember (e0 :: es0) as es eqn:Ees.
  unfold bind at 1. unfold print at 1, emit at 1.
  rewrite (bind_run _ _ _ _ _ _ (migrate_entries_run es _ h Hok)).
  unfold write_file, bind, emit, lift, print, ret.
  fold path. change (_ +:+ Script.footer) with text.
  destruct (w_file_write path text) as [[]|e]; reflexivity.
Qed.

End Emitter.

(** ** The classifier *)

Section Classifier.
Context {W : World}.
Import PyStr.

Ltac run_row :=
  unfold analyze_row, catch_kind, attempt, json_loads, bind, emit, lift,
    raise, ret, print, alloc, setitem.

Lemma analyze_row_absent (r : row) (acc : list entry) (h : heap) :
  row_config r = None \/ row_config r = Some "" ->
  analyze_row r acc h =
    (Ok (acc ++ [(row_id r, row_name r, None)]), h,
     [row_banner r; Print "  ❌ PROBLEM: No configuration JSON found"]).
Proof. intros [E|E]; unfold analyze_row; rewrite E; reflexivity. Qed.

Lemma analyze_row_undecodable (r : row) (acc : list entry) (h : heap)
    (c : ascii) (s : string) (e : exn) :
  row_config r = Some (String c s) ->
  w_json_loads (String c s) = Raise e ->
  exn_kind e = "JSONDecodeError" ->
  analyze_row r acc h =
    (Ok (acc ++ [(row_id r, row_name r, None)]), h,
     [row_banner r; JsonLoads (String c s);
      Print ("  ❌ PROBLEM: Invalid JSON in configuration: " +:+ exn_msg e)]).
Proof.
  intros E L K. run_row. rewrite E. cbn. rewrite L. cbn. rewrite K. reflexivity.
Qed.

Lemma analyze_row_untyped (r : row) (acc : list entry) (h : heap)
    (c : ascii) (s : string) (d : dict) :
  row_config r = Some (String c s) ->
  w_json_loads (String c s) = Ok (JObj d) ->
  Dict.contains "_type" d = false ->
  analyze_row r acc h =
    (Ok (acc ++ [(row_id r, row_name r, Some (length h))]),
     h ++ [if Dict.contains "hnsw" d then with_type d else d],
     [row_banner r; JsonLoads (String c s);
      Print ("  Configuration keys: " +:+ repr_list (Dict.keys d));
      Print "  ❌ PROBLEM: Missing '_type' field in configuration"]
     ++ (if Dict.contains "hnsw" d
         then [Print "  💡 SUGGESTION: This appears to be an HNSW configuration"]
         else [])).
Proof.
  intros E L T. run_row. rewrite E. cbn. rewrite L. cbn. rewrite T. cbn.
  destruct (Dict.contains "hnsw" d); cbn; [|reflexivity].
  replace (length h) with (length h + 0) at 2 by lia.
  rewrite alter_app_r. cbn.
  now rewrite (with_type_missing d T), (dict_set_fresh _ _ _ T).
Qed.

Lemma analyze_row_typed (r : row) (acc : list entry) (h : heap)
    (c : ascii) (s : string) (d : dict) :
  row_config r = Some (String c s) ->
  w_json_loads (String c s) = Ok (JObj d) ->
  Dict.contains "_type" d = true ->
  exists v,
    Dict.get "_type" d = Some v /\
    analyze_row r acc h =
      (Ok acc, h ++ [d],
       [row_banner r; JsonLoads (String c s);
        Print ("  Configuration keys: " +:+ repr_list (Dict.keys d));
        Print ("  ✓ Configuration has '_type': " +:+ w_str_json v)]).
Proof.
  intros E L T.
  assert (Hv : exists v, Dict.get "_type" d = Some v).
  { clear -T. induction d as [|[k v] d IH]; simpl in *; [discriminate |].
    destruct (String.eqb k "_type"); [now exists v | auto]. }
  destruct Hv as [v Hv]. exists v. split; [exact Hv |].
  run_row. rewrite E. cbn. rewrite L. cbn. rewrite T. cbn. rewrite Hv.
  reflexivity.
Qed.

(** Whatever a row is, the loop body only appends: to the list and to
    the heap. *)
Lemma analyze_row_grows (r : row) (acc : list entry) (h : heap) es h' t :
  analyze_row r acc h = (Ok es, h', t) ->
  exists ex hx,
    es = acc ++ ex /\ h' = h ++ hx /\ Forall (entry_ok h') ex.
Proof.
  destruct (row_config r) as [[|c s]|] eqn:E.
  - rewrite analyze_row_absent by auto. intros [= <- <- <-].
    exists [(row_id r, row_name r, None)], []. rewrite app_nil_r.
    repeat split. constructor; [exact I | constructor].
  - destruct (w_json_loads (String c s)) as [j|e] eqn:L.
    + destruct j as [| | | | | |d];
        try (run_row; rewrite E; cbn; rewrite L; cbn; discriminate).
      destruct (Dict.contains "_type" d) eqn:T.
      * destruct (analyze_row_typed r acc h c s d E L T) as (v & _ & ->).
        intros [= <- <- <-]. exists [], [d]. rewrite app_nil_r.
        repeat split. constructor.
      * rewrite (analyze_row_untyped r acc h c s d E L T).
        intros [= <- <- <-].
        eexists [_], [_]. repeat split.
        constructor; [|constructor]. unfold entry_ok. simpl.
        rewrite list_lookup_middle by reflexivity. eauto.
    + destruct (String.eqb (exn_kind e) "JSONDecodeError") eqn:K.
      * apply String.eqb_eq in K.
        rewrite (analyze_row_undecodable r acc h c s e E L K).
        intros [= <- <- <-].
        exists [(row_id r, row_name r, None)], []. rewrite app_nil_r.
        repeat split. constructor; [exact I | constructor].
      * run_row. rewrite E. cbn. rewrite L. cbn. rewrite K. discriminate.
  - rewrite analyze_row_absent by auto. intros [= <- <- <-].
    exists [(row_id r, row_name r, None)], []. rewrite app_nil_r.
    repeat split. constructor; [exact I | constructor].
Qed.

Lemma analyze_row_completes (r : row) (acc : list entry) (h : heap) :
  analysable r = true ->
  exists es h' t, analyze_row r acc h = (Ok es, h', t).
Proof.
  unfold analysable.
  destruct (row_config r) as [[|c s]|] eqn:E.
  - intros _. rewrite analyze_row_absent by auto. eauto.
  - destruct (w_json_loads (String c s)) as [j|e] eqn:L.
    + destruct j as [| | | | | |d]; try discriminate. intros _.
      destruct (Dict.contains "_type" d) eqn:T.
      * destruct (analyze_row_typed r acc h c s d E L T) as (v & _ & ->). eauto.
      * rewrite (analyze_row_untyped r acc h c s d E L T). eauto.
    + intros K. apply String.eqb_eq in K.
      rewrite (analyze_row_undecodable r acc h c s e E L K). eauto.
  - intros _. rewrite analyze_row_absent by auto. eauto.
Qed.

(** The decoder is never handed the empty text. *)
Lemma analyze_row_never_loads_empty (r : row) (acc : list entry) (h : heap) :
  ~ In (JsonLoads "") (snd (analyze_row r acc h)).
Proof.
  destruct (row_config r) as [[|c s]|] eqn:E.
  - rewrite analyze_row_absent by auto. simpl. intuition discriminate.
  - run_row. rewrite E. cbn.
    destruct (w_json_loads (String c s)) as [j|e]; cbn.
    + destruct j as [| | | | | |d]; cbn; try (intuition discriminate).
      destruct (negb (Dict.contains "_type" d)); cbn.
      * destruct (Dict.contains "hnsw" d); cbn; intuition discriminate.
      * destruct (Dict.get "_type" d); cbn; intuition discriminate.
    + destruct (String.eqb (exn_kind e) "JSONDecodeError"); cbn;
        intuition discriminate.
  - rewrite analyze_row_absent by auto. simpl. intuition discriminate.
Qed.

Lemma analyze_rows_grows (rows : list row) (acc : list entry) (h : heap)
    es h' t :
  Forall (entry_ok h) acc ->
  analyze_rows rows acc h = (Ok es, h', t) ->
  exists ex hx,
    es = acc ++ ex /\ h' = h ++ hx /\ Forall (entry_ok h') es.
Proof.
  revert acc h t. induction rows as [|r rows IH]; intros acc h t Hacc.
  - simpl. unfold ret. intros [= <- <- <-]. exists [], [].
    now rewrite !app_nil_r.
  - simpl. intros Hrun.
    apply bind_ok_inv in Hrun as (a & h1 & t1 & t2 & Hr & Hrest & ->).
    apply analyze_row_grows in Hr as (ex1 & hx1 & -> & -> & Hex1).
    apply IH in Hrest as (ex2 & hx2 & -> & -> & Hok).
    + exists (ex1 ++ ex2), (hx1 ++ hx2). now rewrite !app_assoc.
    + apply Forall_app. split; [|exact Hex1].
      eapply Forall_impl; [exact Hacc |].
      intros [[i n] [l|]]; unfold entry_ok; simpl; [|trivial].
      intros [d Hd]. exists d. now apply lookup_app_l_Some.
Qed.

Lemma analyze_rows_completes (rows : list row) (acc : list entry) (h : heap) :
  forallb analysable rows = true ->
  exists es h' t, analyze_rows rows acc h = (Ok es, h', t).
Proof.
  revert acc h. induction rows as [|r rows IH]; intros acc h Hall.
  - simpl. unfold ret. eauto.
  - simpl in Hall. apply andb_prop in Hall as [Hr Hrows].
    destruct (analyze_row_completes r acc h Hr) as (a & h1 & t1 & Ha).
    destruct (IH a h1 Hrows) as (es & h' & t2 & Hes).
    simpl. rewrite (bind_run _ _ _ _ _ _ Ha), Hes. eauto.
Qed.

Lemma analyze_rows_never_loads_empty (rows : list row) (acc : list entry)
    (h : heap) :
  ~ In (JsonLoads "") (snd (analyze_rows rows acc h)).
Proof.
  revert acc h. induction rows as [|r rows IH]; intros acc h.
  - simpl. tauto.
  - simpl. unfold bind.
    pose proof (analyze_row_never_loads_empty r acc h) as Hr.
    destruct (analyze_row r acc h) as [[[a|e] h1] t1]; [|exact Hr].
    pose proof (IH a h1) as Hrest.
    destruct (analyze_rows rows a h1) as [[r2 h2] t2]. simpl in *.
    rewrite in_app_iff. tauto.
Qed.

(** A row whose loop body appends one entry and the cells [cell] has
    that entry in the list of a completed analysis, its cells in the
    final heap, and its trace in the final trace. *)
Lemma analyze_rows_member (r : row) (config : nat -> option loc)
    (cell : list dict) (tr : list event) :
  (forall acc h,
      analyze_row r acc h =
        (Ok (acc ++ [(row_id r, row_name r, config (length h))]),
         h ++ cell, tr)) ->
  forall rows acc h es h' t,
    Forall (entry_ok h) acc ->
    analyze_rows rows acc h = (Ok es, h', t) ->
    In r rows ->
    exists hpre hpost,
      h' = hpre ++ cell ++ hpost /\
      In (row_id r, row_name r, config (length hpre)) es /\
      (forall e, In e tr -> In e t).
Proof.
  intros Hbody. induction rows as [|r0 rows IH]; intros acc h es h' t Hacc Hrun Hin.
  - destruct Hin.
  - simpl in Hrun.
    apply bind_ok_inv in Hrun as (a & h1 & t1 & t2 & Hr & Hrest & ->).
    pose proof Hr as Hg. apply analyze_row_grows in Hg as (ex1 & hx1 & -> & -> & Hex1).
    assert (Hacc1 : Forall (entry_ok (h ++ hx1)) (acc ++ ex1)).
    { apply Forall_app. split; [|exact Hex1].
      eapply Forall_impl; [exact Hacc |].
      intros [[i n] [l|]]; unfold entry_ok; simpl; [|trivial].
      intros [d Hd]. exists d. now apply lookup_app_l_Some. }
    destruct Hin as [->|Hin].
    + rewrite Hbody in Hr. injection Hr as Hes Hh Ht.
      apply app_inv_head in Hes. apply app_inv_head in Hh. subst ex1 hx1 t1.
      apply analyze_rows_grows in Hrest as (ex2 & hx2 & -> & -> & _);
        [|exact Hacc1].
      exists h, hx2. rewrite <- app_assoc. split; [reflexivity |].
      split.
      * rewrite !in_app_iff. left. right. now left.
      * intros e He. rewrite in_app_iff. now left.
    + destruct (IH _ _ _ _ _ Hacc1 Hrest Hin) as (hpre & hpost & Hh & He & Ht).
      exists hpre, hpost. repeat split; try assumption.
      intros e Hin'. rewrite in_app_iff. right. now apply Ht.
Qed.

End Classifier.

(** ** From the storage file to the list *)

Section Analysis.
Context {W : World}.
Import PyStr.

Lemma first_existing_storage (db_path : string) (h : heap) :
  exists t,
    first_existing db_path ["chroma.sqlite3"; "chroma.db"] h
      = (Ok (storage_file db_path), h, t) /\
    ~ In (JsonLoads "") t.
Proof.
  unfold storage_file. simpl.
  unfold bind, os_path_exists, bind, emit, ret. cbn.
  destruct (w_path_exists (path_join db_path "chroma.sqlite3")); cbn.
  - eexists. split; [reflexivity |]. simpl. intuition discriminate.
  - destruct (w_path_exists (path_join db_path "chroma.db")); cbn;
      (eexists; split; [reflexivity |]; simpl; intuition discriminate).
Qed.

Lemma select_collections_run (sqlite_path : string)
    (collection_name : option string) (h : heap) :
  exists sql params,
    select_collections sqlite_path collection_name h =
      (w_sqlite_collections sqlite_path (name_filter collection_name), h,
       [SqliteExecute sqlite_path sql params]).
Proof.
  unfold select_collections, name_filter.
  destruct collection_name as [[|c s]|]; unfold bind, emit, lift; cbn;
    match goal with
    | |- context [w_sqlite_collections ?p ?f] =>
        destruct (w_sqlite_collections p f)
    end; eauto.
Qed.

(** When the table is read, the function is its row loop: it returns
    the list of the loop, on the heap of the loop, and the trace of the
    loop is part of its trace. *)
Lemma analyze_configuration_error_run (db_path : string)
    (collection_name : option string) (rows : list row) (h : heap)
    es h' t :
  table_read db_path collection_name rows ->
  analyze_rows rows [] h = (Ok es, h', t) ->
  exists t',
    analyze_configuration_error db_path collection_name h
      = (Ok (AList es), h', t') /\
    (forall e, In e t -> In e t').
Proof.
  intros (p & Hp & Hc & Hq) Hrows.
  destruct (first_existing_storage db_path h) as (tf & Hf & _).
  destruct (select_collections_run p collection_name h) as (sql & params & Hs).
  rewrite Hq in Hs.
  unfold analyze_configuration_error.
  unfold bind at 1. unfold print at 1, emit at 1.
  rewrite (bind_run _ _ _ _ _ _ Hf), Hp.
  unfold bind at 1. unfold print at 1, emit at 1.
  unfold attempt, sqlite3_connect, sqlite3_close.
  unfold bind, emit, lift, print, ret.
  rewrite Hc; cbn. rewrite Hs; cbn. rewrite Hrows; cbn.
  eexists. split; [reflexivity |].
  intros e He. simpl. rewrite !in_app_iff. simpl. rewrite !in_app_iff.
  tauto.
Qed.

Lemma analyze_configuration_error_never_loads_empty (db_path : string)
    (collection_name : option string) (h : heap) :
  ~ In (JsonLoads "") (snd (analyze_configuration_error db_path collection_name h)).
Proof.
  destruct (first_existing_storage db_path h) as (tf & Hf & Htf).
  unfold analyze_configuration_error.
  unfold bind at 1. unfold print at 1, emit at 1.
  rewrite (bind_run _ _ _ _ _ _ Hf).
  destruct (storage_file db_path) as [p|].
  - destruct (select_collections_run p collection_name h) as (sql & params & Hs).
    unfold bind at 1. unfold print at 1, emit at 1.
    unfold attempt, sqlite3_connect, sqlite3_close.
    unfold bind, emit, lift, print, ret.
    destruct (w_sqlite_connect p) as [[]|e]; cbn.
    + rewrite Hs.
      destruct (w_sqlite_collections p (name_filter collection_name)) as [rows|e]; cbn.
      * pose proof (analyze_rows_never_loads_empty rows [] h) as Hr.
        destruct (analyze_rows rows [] h) as [[[es|e] h1] t1]; cbn in *;
          rewrite ?in_app_iff; simpl; rewrite ?in_app_iff; simpl;
          intuition discriminate.
      * rewrite ?in_app_iff; simpl. intuition discriminate.
    + rewrite ?in_app_iff; simpl. intuition discriminate.
  - unfold bind, emit, print, ret. cbn.
    rewrite ?in_app_iff; simpl. intuition discriminate.
Qed.

End Analysis.

(** ** Repair of one record of a table *)

Lemma concat_all_member {A : Type} (f : A -> string) (x : A) (xs : list A) :
  In x xs ->
  exists before after, concat_all (map f xs) = before +:+ f x +:+ after.
Proof.
  intros Hin. apply in_split in Hin as (l1 & l2 & ->).
  exists (concat_all (map f l1)), (concat_all (map f l2)).
  now rewrite map_app, concat_all_app.
Qed.

Section Repair.
Context {W : World}.

(** The two steps on a table that is read and whose rows the loop gets
    past, for a row whose loop body is known. *)
Lemma repair_member (db_path : string) (collection_name : option string)
    (rows : list row) (h0 : heap) (r : row) (config : nat -> option loc)
    (cell : list dict) (tr : list event) :
  table_read db_path collection_name rows ->
  forallb analysable rows = true ->
  In r rows ->
  (forall acc h,
      analyze_row r acc h =
        (Ok (acc ++ [(row_id r, row_name r, config (length h))]),
         h ++ cell, tr)) ->
  exists es h1 t1 hpre hpost outcome t2 before after,
    analyze_configuration_error db_path collection_name h0
      = (Ok (AList es), h1, t1) /\
    h1 = hpre ++ cell ++ hpost /\
    In (row_id r, row_name r, config (length hpre)) es /\
    (forall e, In e tr -> In e t1) /\
    generate_migration_script db_path es h1 = (outcome, patched es h1, t2) /\
    In (FileWrite (script_path_of db_path)
          (before
           +:+ update_block h1 (row_id r, row_name r, config (length hpre))
           +:+ after)) t2.
Proof.
  intros Hread Hall Hin Hbody.
  destruct (analyze_rows_completes rows [] h0 Hall) as (es & h1 & t & Hrows).
  destruct (analyze_rows_grows rows [] h0 es h1 t (List.Forall_nil _) Hrows)
    as (_ & _ & _ & _ & Hok).
  destruct (analyze_rows_member r config cell tr Hbody rows [] h0 es h1 t
              (List.Forall_nil _) Hrows Hin) as (hpre & hpost & Hh & He & Ht).
  destruct (analyze_configuration_error_run db_path collection_name rows h0
              es h1 t Hread Hrows) as (t1 & Hrun & Hsub).
  assert (Hne : es <> []) by (intros ->; destruct He).
  pose proof (generate_migration_script_run db_path es h1 Hne Hok) as Hgen.
  cbv zeta in Hgen.
  destruct (concat_all_member (update_block h1) _ es He) as (b & a & Hsplit).
  assert (Htext : script_text db_path h1 es
                  = (Script.header db_path +:+ b)
                    +:+ update_block h1 (row_id r, row_name r, config (length hpre))
                    +:+ (a +:+ Script.footer)).
  { unfold script_text. rewrite Hsplit. now rewrite !append_assoc. }
  rewrite Htext in Hgen.
  destruct (w_file_write _ _) as [[]|e] in Hgen;
    (do 9 eexists; split; [exact Hrun |]; split; [exact Hh |];
     split; [exact He |]; split; [auto |]; split; [exact Hgen |];
     simpl; auto).
Qed.

End Repair.

(** ** The claims on the repair heuristic *)

Section Records.
Context {W : World}.

(** The script step on an entry whose dict has its '_type'. *)
Lemma migrate_entry_typed (collection_id name : string) (l : loc)
    (script : string) (h : heap) (d : dict) :
  h !! l = Some d ->
  Dict.contains "_type" d = true ->
  migrate_entry (collection_id, name, Some l) script h =
    (Ok (script +:+ Script.fix_collection name (Json.dumps (JObj d)) collection_id),
     h, []).
Proof.
  intros Hl Hd.
  rewrite migrate_entry_run by (unfold entry_ok; simpl; eauto).
  unfold update_block, entry_json, patched. cbn [snd fold_left].
  rewrite Hl, (with_type_fixed _ Hd).
  now rewrite (alter_fixed l h d Hl (with_type_fixed _ Hd)).
Qed.

Lemma hnsw_record_in_table (db_path : string)
    (collection_name : option string) (rows : list row) (h0 : heap)
    (r : row) (c : ascii) (s : string) (d : dict) :
  table_read db_path collection_name rows ->
  forallb analysable rows = true ->
  In r rows ->
  row_config r = Some (String c s) ->
  w_json_loads (String c s) = Ok (JObj d) ->
  Dict.contains "hnsw" d = true ->
  Dict.contains "_type" d = false ->
  let corrected := d ++ [("_type", JStr "CollectionConfigurationInternal")] in
  exists es h1 t1 l outcome h2 t2 before after,
    analyze_configuration_error db_path collection_name h0
      = (Ok (AList es), h1, t1) /\
    In (row_id r, row_name r, Some l) es /\
    h1 !! l = Some corrected /\
    generate_migration_script db_path es h1 = (outcome, h2, t2) /\
    h2 !! l = Some corrected /\
    In (FileWrite (script_path_of db_path)
          (before
           +:+ Script.fix_collection (row_name r) (Json.dumps (JObj corrected))
                 (row_id r)
           +:+ after)) t2.
Proof.
  intros Hread Hall Hin E L Hh T corrected.
  assert (Hc : with_type d = corrected) by now apply with_type_missing.
  assert (Hct : Dict.contains "_type" corrected = true)
    by (rewrite <- Hc; apply with_type_has_type).
  destruct (repair_member db_path collection_name rows h0 r Some [corrected]
              ([row_banner r; JsonLoads (String c s);
                Print ("  Configuration keys: " +:+ repr_list (Dict.keys d));
                Print "  ❌ PROBLEM: Missing '_type' field in configuration";
                Print "  💡 SUGGESTION: This appears to be an HNSW configuration"])
              Hread Hall Hin)
    as (es & h1 & t1 & hpre & hpost & outcome & t2 & before & after
        & Hrun & Hh1 & He & _ & Hgen & Hw).
  { intros acc h. rewrite (analyze_row_untyped r acc h c s d E L T).
    rewrite Hh, Hc. reflexivity. }
  assert (Hl : h1 !! length hpre = Some corrected).
  { rewrite Hh1. now apply list_lookup_middle. }
  exists es, h1, t1, (length hpre), outcome, (patched es h1), t2, before, after.
  split; [exact Hrun |]. split; [exact He |]. split; [exact Hl |].
  split; [exact Hgen |].
  split; [now apply patched_lookup_typed |].
  replace (update_block h1 (row_id r, row_name r, Some (length hpre)))
    with (Script.fix_collection (row_name r) (Json.dumps (JObj corrected))
            (row_id r)) in Hw; [exact Hw |].
  unfold update_block, entry_json. cbn [snd].
  now rewrite Hl, (with_type_fixed _ Hct).
Qed.

(** A record whose loop body lists it without a dict, in a table. *)
Lemma dictless_record_in_table (db_path : string)
    (collection_name : option string) (rows : list row) (h0 : heap)
    (r : row) (tr : list event) :
  (forall acc h,
      analyze_row r acc h = (Ok (acc ++ [(row_id r, row_name r, None)]), h, tr)) ->
  table_read db_path collection_name rows ->
  forallb analysable rows = true ->
  In r rows ->
  exists es h1 t1 outcome h2 t2 before after,
    analyze_configuration_error db_path collection_name h0
      = (Ok (AList es), h1, t1) /\
    ~ In (JsonLoads "") t1 /\
    (forall e, In e tr -> In e t1) /\
    In (row_id r, row_name r, None) es /\
    generate_migration_script db_path es h1 = (outcome, h2, t2) /\
    In (FileWrite (script_path_of db_path)
          (before
           +:+ Script.fix_default (row_name r) (Json.dumps (JObj default_config))
                 (row_id r)
           +:+ after)) t2.
Proof.
  intros Hbody Hread Hall Hin.
  destruct (repair_member db_path collection_name rows h0 r (fun _ => None) []
              tr Hread Hall Hin)
    as (es & h1 & t1 & hpre & hpost & outcome & t2 & before & after
        & Hrun & _ & He & Ht & Hgen & Hw).
  { intros acc h. rewrite app_nil_r. apply Hbody. }
  exists es, h1, t1, outcome, (patched es h1), t2, before, after.
  split; [exact Hrun |].
  split.
  { pose proof (analyze_configuration_error_never_loads_empty
                  db_path collection_name h0) as Hn.
    now rewrite Hrun in Hn. }
  now repeat split.
Qed.

End Records.

(** C1. A record whose blob decodes to a dict with an 'hnsw' block and
    no '_type' key.  The loop body of the analysis lists the record with
    its dict and adds '_type' to it, and the script step leaves the dict
    as it is and serialises it: the corrected dict is the decoded dict
    with the one key '_type' = 'CollectionConfigurationInternal' added
    after the others, every other key and value as it was.  In a table
    that is read and whose rows the loop gets past, the two functions
    list the record, leave this dict behind, and write it into the
    UPDATE of the record. *)
Theorem hnsw_config_gets_type_added {W : World} (r : row) (c : ascii)
    (s : string) (d : dict) :
  row_config r = Some (String c s) ->
  w_json_loads (String c s) = Ok (JObj d) ->
  Dict.contains "hnsw" d = true ->
  Dict.contains "_type" d = false ->
  let corrected := d ++ [("_type", JStr "CollectionConfigurationInternal")] in
  (forall acc h script,
      exists t1,
        analyze_row r acc h =
          (Ok (acc ++ [(row_id r, row_name r, Some (length h))]),
           h ++ [corrected], t1) /\
        migrate_entry (row_id r, row_name r, Some (length h)) script
          (h ++ [corrected]) =
          (Ok (script
               +:+ Script.fix_collection (row_name r)
                     (Json.dumps (JObj corrected)) (row_id r)),
           h ++ [corrected], [])) /\
  Dict.keys corrected = Dict.keys d ++ ["_type"] /\
  Dict.get "_type" corrected = Some (JStr "CollectionConfigurationInternal") /\
  (forall k, k <> "_type" -> Dict.get k corrected = Dict.get k d) /\
  (forall db_path collection_name rows h0,
      table_read db_path collection_name rows ->
      forallb analysable rows = true ->
      In r rows ->
      exists es h1 t1 l outcome h2 t2 before after,
        analyze_configuration_error db_path collection_name h0
          = (Ok (AList es), h1, t1) /\
        In (row_id r, row_name r, Some l) es /\
        h1 !! l = Some corrected /\
        generate_migration_script db_path es h1 = (outcome, h2, t2) /\
        h2 !! l = Some corrected /\
        In (FileWrite (script_path_of db_path)
              (before
               +:+ Script.fix_collection (row_name r)
                     (Json.dumps (JObj corrected)) (row_id r)
               +:+ after)) t2).
Proof.
  intros E L Hh T corrected.
  assert (Hc : with_type d = corrected) by now apply with_type_missing.
  assert (Hct : Dict.contains "_type" corrected = true)
    by (rewrite <- Hc; apply with_type_has_type).
  split.
  { intros acc h script. eexists. split.
    - rewrite (analyze_row_untyped r acc h c s d E L T). rewrite Hh, Hc.
      reflexivity.
    - apply migrate_entry_typed; [now apply list_lookup_middle | exact Hct]. }
  split; [unfold corrected, Dict.keys; now rewrite map_app |].
  split; [now apply dict_get_app_fresh |].
  split; [intros k Hk; now apply dict_get_app_other |].
  intros db_path collection_name rows h0 Hread Hall Hin.
  exact (hnsw_record_in_table db_path collection_name rows h0 r c s d
           Hread Hall Hin E L Hh T).
Qed.

(** The block [generate_migration_script] appends for an entry without
    a dict, as text. *)
Lemma default_block_text (name collection_id : string) :
  Script.fix_default name (Json.dumps (JObj default_config)) collection_id
  = "-- Fix collection with default config: " +:+ name +:+ "
UPDATE collections 
SET configuration_json_str = '"
    +:+ ("{" +:+ (PyStr.dq +:+ "_type" +:+ PyStr.dq) +:+ ": "
         +:+ (PyStr.dq +:+ "CollectionConfigurationInternal" +:+ PyStr.dq) +:+ ", "
         +:+ (PyStr.dq +:+ "hnsw" +:+ PyStr.dq) +:+ ": {}, "
         +:+ (PyStr.dq +:+ "embedding_function" +:+ PyStr.dq) +:+ ": {}}")
    +:+ "'
WHERE id = '" +:+ collection_id +:+ "';

".
Proof. reflexivity. Qed.

(** The sample of [analyze_sqlite_structure] treats the empty text the
    same way: the row is shown and the decoder is not called. *)
Lemma show_sample_row_empty {W : World} (r : row) (h : heap) :
  row_config r = None \/ row_config r = Some "" ->
  show_sample_row r h
  = (Ok tt, h, [Print ("    ID: " +:+ row_id r +:+ ", Name: " +:+ row_name r)]).
Proof. intros [E|E]; unfold show_sample_row; rewrite E; reflexivity. Qed.

(** C2. A record whose blob is NULL, or is refused by the decoder.  The
    loop body of the analysis lists it without a dict, and the script
    step appends for it the block written out below: the comment line
    with the name, and the UPDATE whose literal is the text [json.dumps]
    writes for the dict of the three keys '_type' =
    'CollectionConfigurationInternal', 'hnsw' = {} and
    'embedding_function' = {}, whatever the refused text was.  In a
    table that is read and whose rows the loop gets past, the two
    functions list the record and write that block into the script. *)
Theorem undecodable_or_null_gets_default {W : World} (r : row) :
  (row_config r = None \/
   exists c s e,
     row_config r = Some (String c s) /\
     w_json_loads (String c s) = Raise e /\
     exn_kind e = "JSONDecodeError") ->
  let quoted := fun s => PyStr.dq +:+ s +:+ PyStr.dq in
  let default_json :=
    "{" +:+ quoted "_type" +:+ ": " +:+ quoted "CollectionConfigurationInternal"
    +:+ ", " +:+ quoted "hnsw" +:+ ": {}, "
    +:+ quoted "embedding_function" +:+ ": {}}" in
  let block :=
    "-- Fix collection with default config: " +:+ row_name r +:+ "
UPDATE collections 
SET configuration_json_str = '" +:+ default_json +:+ "'
WHERE id = '" +:+ row_id r +:+ "';

" in
  Json.dumps
    (JObj [ ("_type", JStr "CollectionConfigurationInternal");
            ("hnsw", JObj []);
            ("embedding_function", JObj []) ]) = default_json /\
  (forall acc h script,
      exists t1,
        analyze_row r acc h
          = (Ok (acc ++ [(row_id r, row_name r, None)]), h, t1) /\
        migrate_entry (row_id r, row_name r, None) script h =
          (Ok (script +:+ block), h, [])) /\
  (forall db_path collection_name rows h0,
      table_read db_path collection_name rows ->
      forallb analysable rows = true ->
      In r rows ->
      exists es h1 t1 outcome h2 t2 before after,
        analyze_configuration_error db_path collection_name h0
          = (Ok (AList es), h1, t1) /\
        In (row_id r, row_name r, None) es /\
        generate_migration_script db_path es h1 = (outcome, h2, t2) /\
        In (FileWrite (script_path_of db_path) (before +:+ block +:+ after)) t2).
Proof.
  intros Hr quoted default_json block.
  assert (Hblock : Script.fix_default (row_name r)
                     (Json.dumps (JObj default_config)) (row_id r) = block)
    by apply default_block_text.
  assert (Hbody : exists tr, forall acc h,
             analyze_row r acc h
             = (Ok (acc ++ [(row_id r, row_name r, None)]), h, tr)).
  { destruct Hr as [E | (c & s & e & E & L & K)].
    - eexists. intros acc h. apply analyze_row_absent. now left.
    - eexists. intros acc h. exact (analyze_row_undecodable r acc h c s e E L K). }
  destruct Hbody as [tr Hbody]. split; [reflexivity |]. split.
  - intros acc h script. exists tr. split; [apply Hbody |].
    cbn [migrate_entry]. unfold ret. now rewrite Hblock.
  - intros db_path collection_name rows h0 Hread Hall Hin.
    destruct (dictless_record_in_table db_path collection_name rows h0 r tr
                Hbody Hread Hall Hin)
      as (es & h1 & t1 & outcome & h2 & t2 & before & after
          & Hrun & _ & _ & He & Hgen & Hw).
    rewrite Hblock in Hw.
    now exists es, h1, t1, outcome, h2, t2, before, after.
Qed.

(** C10. A record whose blob is the empty text is handled as one whose
    blob is NULL.  The loop body of the analysis does not call the
    decoder: it prints that no configuration was found and lists the
    record without a dict; the sample of [analyze_sqlite_structure]
    shows the row and does not call the decoder either; and the script
    step appends for the record the block written out below, whose
    literal is the text [json.dumps] writes for the dict of the three
    keys '_type' = 'CollectionConfigurationInternal', 'hnsw' = {} and
    'embedding_function' = {}.  In a table that is read and whose rows
    the loop gets past, the analysis never hands the empty text to the
    decoder, and the two functions list the record and write that block
    into the script. *)
Theorem empty_blob_is_absent {W : World} (r : row) :
  row_config r = Some "" ->
  let quoted := fun s => PyStr.dq +:+ s +:+ PyStr.dq in
  let default_json :=
    "{" +:+ quoted "_type" +:+ ": " +:+ quoted "CollectionConfigurationInternal"
    +:+ ", " +:+ quoted "hnsw" +:+ ": {}, "
    +:+ quoted "embedding_function" +:+ ": {}}" in
  let block :=
    "-- Fix collection with default config: " +:+ row_name r +:+ "
UPDATE collections 
SET configuration_json_str = '" +:+ default_json +:+ "'
WHERE id = '" +:+ row_id r +:+ "';

" in
  Json.dumps
    (JObj [ ("_type", JStr "CollectionConfigurationInternal");
            ("hnsw", JObj []);
            ("embedding_function", JObj []) ]) = default_json /\
  (forall acc h script,
      analyze_row r acc h
        = (Ok (acc ++ [(row_id r, row_name r, None)]), h,
           [ Print (PyStr.nl +:+ "Collection: " +:+ row_name r +:+ " (ID: "
                    +:+ row_id r +:+ ")");
             Print "  ❌ PROBLEM: No configuration JSON found" ]) /\
      show_sample_row r h
        = (Ok tt, h,
           [ Print ("    ID: " +:+ row_id r +:+ ", Name: " +:+ row_name r) ]) /\
      migrate_entry (row_id r, row_name r, None) script h =
        (Ok (script +:+ block), h, [])) /\
  (forall db_path collection_name rows h0,
      table_read db_path collection_name rows ->
      forallb analysable rows = true ->
      In r rows ->
      exists es h1 t1 outcome h2 t2 before after,
        analyze_configuration_error db_path collection_name h0
          = (Ok (AList es), h1, t1) /\
        ~ In (JsonLoads "") t1 /\
        In (Print "  ❌ PROBLEM: No configuration JSON found") t1 /\
        In (row_id r, row_name r, None) es /\
        generate_migration_script db_path es h1 = (outcome, h2, t2) /\
        In (FileWrite (script_path_of db_path) (before +:+ block +:+ after)) t2).
Proof.
  intros E quoted default_json block.
  assert (Hblock : Script.fix_default (row_name r)
                     (Json.dumps (JObj default_config)) (row_id r) = block)
    by apply default_block_text.
  split; [reflexivity |]. split.
  - intros acc h script. split; [|split].
    + rewrite analyze_row_absent by now right. reflexivity.
    + apply show_sample_row_empty. now right.
    + cbn [migrate_entry]. unfold ret. now rewrite Hblock.
  - intros db_path collection_name rows h0 Hread Hall Hin.
    destruct (dictless_record_in_table db_path collection_name rows h0 r
                [row_banner r; Print "  ❌ PROBLEM: No configuration JSON found"])
      as (es & h1 & t1 & outcome & h2 & t2 & before & after
          & Hrun & Hn & Ht & He & Hgen & Hw); try assumption.
    { intros acc h. apply analyze_row_absent. now right. }
    rewrite Hblock in Hw.
    exists es, h1, t1, outcome, h2, t2, before, after.
    split; [exact Hrun |]. split; [exact Hn |].
    split; [apply Ht; simpl; auto |]. now repeat split.
Qed.

(** C9. With no entry, [generate_migration_script] prints that no issue
    was found and returns: no file is written, nothing else is done. *)
Theorem no_entries_no_script {W : World} (db_path : string) (h : heap) :
  generate_migration_script db_path [] h
    = (Ok tt, h, [Print (PyStr.nl +:+ "✓ No configuration issues found!")])
  /\ forall path text,
       ~ In (FileWrite path text) (snd (generate_migration_script db_path [] h)).
Proof.
  split; [reflexivity |].
  intros path text. simpl. intuition discriminate.
Qed.

(** C6. Applied to a dict it has corrected, the heuristic changes
    nothing.  A first record decodes to any dict [d]; the two steps leave
    its dict as [corrected]: [d] itself when it has '_type', else [d]
    with '_type' added, so [corrected] has '_type'.  A record that
    decodes to [corrected] is then reported as having its '_type', is not
    listed, and its dict stays as it is; and the script step, handed an
    entry with this dict, adds no key and changes none. *)
Theorem corrected_config_is_left_alone {W : World} (r r' : row)
    (c c' : ascii) (s s' : string) (d : dict)
    (acc acc' : list entry) (h h' : heap) (script : string) :
  row_config r = Some (String c s) ->
  w_json_loads (String c s) = Ok (JObj d) ->
  let corrected :=
    if Dict.contains "_type" d then d
    else d ++ [("_type", JStr "CollectionConfigurationInternal")] in
  row_config r' = Some (String c' s') ->
  w_json_loads (String c' s') = Ok (JObj corrected) ->
  exists listed h1 t1 script1 h2 t',
    analyze_row r acc h = (Ok (acc ++ listed), h1, t1) /\
    migrate_entries listed script h1 = (Ok script1, h2, []) /\
    h2 !! length h = Some corrected /\
    Dict.contains "_type" corrected = true /\
    analyze_row r' acc' h' = (Ok acc', h' ++ [corrected], t') /\
    forall collection_id name l' script' h'',
      h'' !! l' = Some corrected ->
      migrate_entry (collection_id, name, Some l') script' h'' =
        (Ok (script'
             +:+ Script.fix_collection name (Json.dumps (JObj corrected))
                   collection_id),
         h'', []).
Proof.
  intros E L corrected E' L'.
  assert (Hc : with_type d = corrected).
  { unfold corrected, with_type. destruct (Dict.contains "_type" d) eqn:T;
      [reflexivity | now apply dict_set_fresh]. }
  assert (Hct : Dict.contains "_type" corrected = true)
    by (rewrite <- Hc; apply with_type_has_type).
  assert (Hstay : forall collection_id name l' script' h'',
             h'' !! l' = Some corrected ->
             migrate_entry (collection_id, name, Some l') script' h'' =
               (Ok (script'
                    +:+ Script.fix_collection name (Json.dumps (JObj corrected))
                          collection_id),
                h'', [])).
  { intros cid name l' script' h'' Hl. now apply migrate_entry_typed. }
  destruct (analyze_row_typed r' acc' h' c' s' corrected E' L' Hct)
    as (v & _ & Hsecond).
  destruct (Dict.contains "_type" d) eqn:T.
  - (* [d] has its '_type': nothing is listed *)
    destruct (analyze_row_typed r acc h c s d E L T) as (v0 & _ & Hfirst).
    exists [], (h ++ [d]). do 2 eexists. exists (h ++ [d]). eexists.
    split; [rewrite app_nil_r; exact Hfirst |].
    split; [reflexivity |].
    split; [now apply list_lookup_middle |].
    split; [exact Hct |].
    split; [exact Hsecond | exact Hstay].
  - pose proof (analyze_row_untyped r acc h c s d E L T) as Hfirst.
    set (cell := if Dict.contains "hnsw" d then with_type d else d) in Hfirst.
    assert (Hcell : with_type cell = corrected).
    { unfold cell. destruct (Dict.contains "hnsw" d); [|exact Hc].
      now rewrite with_type_idem. }
    assert (Hok : Forall (entry_ok (h ++ [cell]))
                    [(row_id r, row_name r, Some (length h))]).
    { repeat constructor. unfold entry_ok. simpl.
      rewrite list_lookup_middle by reflexivity. eauto. }
    exists [(row_id r, row_name r, Some (length h))], (h ++ [cell]).
    do 2 eexists.
    exists (patched [(row_id r, row_name r, Some (length h))] (h ++ [cell])).
    eexists.
    split; [exact Hfirst |].
    split; [now apply migrate_entries_run |].
    split.
    { unfold patched. cbn [snd fold_left].
      rewrite list_lookup_alter_eq, list_lookup_middle by reflexivity.
      simpl. now rewrite Hcell. }
    split; [exact Hct |].
    split; [exact Hsecond | exact Hstay].
Qed.

(** ** The script *)

Lemma sql_literal_plain (v : string) (y : ascii) (rest' : string) :
  PyStr.has_char PyStr.SQUOTE v = false ->
  Ascii.eqb y PyStr.SQUOTE = false ->
  sql_literal (v +:+ String PyStr.SQUOTE (String y rest'))
    = Some (v, String y rest').
Proof.
  intros Hv Hy. set (rest := String y rest'). induction v as [|x v IH].
  - change (sql_literal ("" +:+ String PyStr.SQUOTE rest))
      with (if Ascii.eqb y PyStr.SQUOTE
            then match sql_literal rest' with
                 | Some (v, r) => Some (String PyStr.SQUOTE v, r)
                 | None => None
                 end
            else Some ("", String y rest')).
    now rewrite Hy.
  - assert (Hx : Ascii.eqb x PyStr.SQUOTE = false /\
                 PyStr.has_char PyStr.SQUOTE v = false).
    { change (Ascii.eqb x PyStr.SQUOTE || PyStr.has_char PyStr.SQUOTE v = false)
        in Hv.
      now apply orb_false_elim in Hv. }
    destruct Hx as [Hx Hv'].
    rewrite append_cons.
    change (sql_literal (String x (v +:+ String PyStr.SQUOTE rest)))
      with (if Ascii.eqb x PyStr.SQUOTE
            then match v +:+ String PyStr.SQUOTE rest with
                 | String c' s'' =>
                     if Ascii.eqb c' PyStr.SQUOTE
                     then match sql_literal s'' with
                          | Some (v0, rest') => Some (String PyStr.SQUOTE v0, rest')
                          | None => None
                          end
                     else Some ("", v +:+ String PyStr.SQUOTE rest)
                 | "" => Some ("", "")
                 end
            else match sql_literal (v +:+ String PyStr.SQUOTE rest) with
                 | Some (v0, rest') => Some (String x v0, rest')
                 | None => None
                 end).
    now rewrite Hx, (IH Hv').
Qed.


(** ** The script line by line *)

Lemma lines_nonempty (s : string) : exists l ls, PyStr.lines s = l :: ls.
Proof.
  induction s as [|c s (l & ls & IH)]; [now exists "", [] |].
  cbn [PyStr.lines]. rewrite IH. destruct (Ascii.eqb c PyStr.LF); eauto.
Qed.






Section Emitted.
Context {W : World}.
Import PyStr.

(** C3 as the code has it.  For the table with the one row
    [(id="abc", name="docs", NULL)], the analysis lists the record
    without a dict and the script is the header, one UPDATE statement
    over three lines whose literal is the default configuration as
    [json.dumps] writes it, a blank after each colon and comma, and the
    footer. *)
Theorem scenario_script (db_path : string) (collection_name : option string)
    (h0 : heap) :
  table_read db_path collection_name [abc_docs_null] ->
  exists t1 outcome t2,
    analyze_configuration_error db_path collection_name h0
      = (Ok (AList [("abc", "docs", None)]), h0, t1) /\
    generate_migration_script db_path [("abc", "docs", None)] h0
      = (outcome, h0, t2) /\
    In (FileWrite (script_path_of db_path)
          ((Script.header db_path
            +:+ ("-- Fix collection with default config: docs
UPDATE collections 
SET configuration_json_str = '" +:+ default_config_json +:+ "'
WHERE id = 'abc';

"))
           +:+ Script.footer)) t2.
Proof.
  intros Hread.
  assert (Hrows : analyze_rows [abc_docs_null] [] h0
                  = (Ok [("abc", "docs", None)], h0,
                     [row_banner abc_docs_null;
                      Print "  ❌ PROBLEM: No configuration JSON found"])).
  { simpl. rewrite (bind_run _ _ _ _ _ _
                      (analyze_row_absent abc_docs_null [] h0 (or_introl eq_refl))).
    reflexivity. }
  destruct (analyze_configuration_error_run db_path collection_name _ h0 _ _ _
              Hread Hrows) as (t1 & Hrun & _).
  pose proof (generate_migration_script_run db_path [("abc", "docs", None)] h0
                ltac:(discriminate) ltac:(repeat constructor)) as Hgen.
  cbv zeta in Hgen.
  assert (Htext : script_text db_path h0 [("abc", "docs", None)]
                  = (Script.header db_path
                     +:+ ("-- Fix collection with default config: docs
UPDATE collections 
SET configuration_json_str = '" +:+ default_config_json +:+ "'
WHERE id = 'abc';

"))
                    +:+ Script.footer).
  { unfold script_text. simpl concat_all. now rewrite append_nil_r. }
  rewrite Htext in Hgen.
  destruct (w_file_write _ _) as [[]|e] in Hgen;
    (do 3 eexists; split; [exact Hrun |]; split; [exact Hgen |]; simpl; auto).
Qed.

End Emitted.

(** ** The connectivity loops *)

Lemma opened_app (t1 t2 : list event) : opened (t1 ++ t2) = opened t1 ++ opened t2.
Proof. unfold opened. apply flat_map_app. Qed.

Lemma opened_prints (lines : list string) : opened (map Print lines) = [].
Proof. induction lines as [|x lines IH]; [reflexivity | exact IH]. Qed.

Section Loops.
Context {W : World}.
Import PyStr.

Lemma for_each_print {A : Type} (f : A -> string) (xs : list A) (h : heap) :
  for_each xs (fun x => print (f x)) h = (Ok tt, h, map Print (map f xs)).
Proof.
  induction xs as [|x xs IH]; [reflexivity |].
  cbn [for_each map]. unfold bind.
  change (print (f x) h) with (Ok tt, h, [Print (f x)]).
  cbv beta iota. rewrite IH. reflexivity.
Qed.

(** One pass of a loop body: the result of the [try] block and its
    trace, for a body that only prints once the collections are
    listed. *)
Lemma connect_attempt (a : client_args) (k : list collection -> M unit)
    (lines : list collection -> list string) (h : heap) :
  (forall cols, k cols h = (Ok tt, h, map Print (lines cols))) ->
  exists t,
    attempt
      (c <- PersistentClient a ;;
       collections <- list_collections c ;;
       k collections) h
    = (Ok match connect a with Ok _ => Ok tt | Raise e => Raise e end, h, t) /\
    opened t = [a] /\
    (forall line, In (Print line) t ->
                  exists cols, connect a = Ok cols /\ In line (lines cols)).
Proof.
  intros Hk.
  unfold attempt, connect, PersistentClient, list_collections, bind, emit, lift.
  destruct (w_client_open a) as [c|e]; cbn.
  2: { eexists. split; [reflexivity |]. split; [reflexivity |].
       intros line [Hl|[]]. discriminate. }
  destruct (w_list_collections c) as [cols|e]; cbn.
  2: { eexists. split; [reflexivity |]. split; [reflexivity |].
       intros line [Hl|[Hl|[]]]; discriminate. }
  rewrite Hk.
  eexists. split; [reflexivity |]. split.
  - change (ClientOpen a :: ListCollections c :: map Print (lines cols))
      with ([ClientOpen a; ListCollections c] ++ map Print (lines cols)).
    rewrite !opened_app, opened_prints. reflexivity.
  - intros line [Hl|[Hl|Hl]]; try discriminate.
    exists cols. split; [reflexivity |].
    apply in_map_iff in Hl as (x & [= ->] & Hx). exact Hx.
Qed.

Lemma first_success_run_nil {X : Type} (args : X -> client_args)
    (fail_line : exn -> string) :
  first_success_run args fail_line [] false [].
Proof.
  exists [], []. repeat split; try constructor. intros x e [].
Qed.

Lemma first_success_run_now {X : Type} (args : X -> client_args)
    (fail_line : exn -> string) (x : X) (rest : list X) (t : list event)
    (cols : list collection) :
  connect (args x) = Ok cols ->
  opened t = [args x] ->
  first_success_run args fail_line (x :: rest) true t.
Proof.
  intros Hc Ho. exists [x], rest. split; [reflexivity |].
  split; [exact Ho |]. split.
  - intros y e [<-|[]] He. congruence.
  - exists [], x. repeat split; [|constructor].
    unfold succeeds. now rewrite Hc.
Qed.

Lemma first_success_run_later {X : Type} (args : X -> client_args)
    (fail_line : exn -> string) (x : X) (rest : list X) (b : bool)
    (t1 t2 : list event) (e : exn) :
  connect (args x) = Raise e ->
  opened t1 = [args x] ->
  In (Print (fail_line e)) t1 ->
  first_success_run args fail_line rest b t2 ->
  first_success_run args fail_line (x :: rest) b (t1 ++ t2).
Proof.
  intros Hc Ho Hline (tried & untried & -> & Hopen & Hrep & Hb).
  assert (Hx : succeeds (args x) = false) by (unfold succeeds; now rewrite Hc).
  exists (x :: tried), untried. split; [reflexivity |].
  split; [rewrite opened_app, Ho, Hopen; reflexivity |].
  split.
  - intros y e' [<-|Hy] He'; apply in_or_app.
    + left. congruence.
    + right. eauto.
  - destruct b.
    + destruct Hb as (failed & y & -> & Hy & Hf).
      exists (x :: failed), y. repeat split; [exact Hy |].
      now constructor.
    + destruct Hb as [-> Hf]. split; [reflexivity |]. now constructor.
Qed.

Lemma try_approaches_run (approaches : list (string * client_args)) (h : heap) :
  exists b t,
    try_approaches approaches h = (Ok b, h, t) /\
    first_success_run snd approach_fail_line approaches b t.
Proof.
  induction approaches as [|[name a] rest IH].
  - exists false, []. split; [reflexivity | apply first_success_run_nil].
  - destruct (connect_attempt a
                (fun collections =>
                   print ("  ✓ Success! Found " +:+ of_nat (length collections)
                          +:+ " collections") ;;
                   for_each collections
                     (fun collection => print ("    - " +:+ col_name collection)))
                (fun collections =>
                   ("  ✓ Success! Found " +:+ of_nat (length collections)
                    +:+ " collections")
                   :: map (fun collection => "    - " +:+ col_name collection)
                        collections)
                h) as (ta & Ha & Hopen & _).
    { intros cols. unfold bind.
      change (print ?s h) with (Ok tt, h, [Print s]). cbv beta iota.
      now rewrite for_each_print. }
    cbv beta in Ha.
    cbn [try_approaches]. unfold bind at 1.
    change (print ?s h) with (Ok tt, h, [Print s]). cbv beta iota.
    rewrite (bind_run _ _ _ _ _ _ Ha).
    destruct (connect a) as [cols|e] eqn:Hc.
    + exists true. eexists. split; [reflexivity |].
      apply (first_success_run_now snd approach_fail_line (name, a) rest _ cols Hc).
      cbn. rewrite app_nil_r. exact Hopen.
    + destruct IH as (b & t & Hrest & Hrun).
      unfold bind at 1.
      change (print ?s h) with (Ok tt, h, [Print s]). cbv beta iota.
      rewrite Hrest.
      exists b. eexists. split; [reflexivity |].
      rewrite !app_assoc.
      apply (first_success_run_later snd approach_fail_line (name, a) rest b
               _ t e Hc); [| |exact Hrun].
      * rewrite !opened_app, Hopen. reflexivity.
      * apply in_or_app. right. now left.
Qed.

Lemma try_configs_run (configs : list kwargs) (i : nat) (h : heap) :
  exists b t,
    try_configs i configs h = (Ok b, h, t) /\
    first_success_run args_of_kwargs config_fail_line configs b t /\
    (forall line, In (Print line) t ->
       (exists j config, line = "  Trying configuration " +:+ of_nat j +:+ ": "
                                +:+ repr_kwargs config) \/
       (exists n, line = "    ✓ Success with " +:+ of_nat n +:+ " collections") \/
       (exists e config, In config configs /\
                         connect (args_of_kwargs config) = Raise e /\
                         line = config_fail_line e)).
Proof.
  revert i. induction configs as [|config rest IH]; intros i.
  - exists false, []. split; [reflexivity |].
    split; [apply first_success_run_nil | intros line []].
  - destruct (connect_attempt (args_of_kwargs config)
                (fun collections =>
                   print ("    ✓ Success with " +:+ of_nat (length collections)
                          +:+ " collections"))
                (fun collections =>
                   ["    ✓ Success with " +:+ of_nat (length collections)
                    +:+ " collections"])
                h) as (ta & Ha & Hopen & Hlines).
    { intros cols. reflexivity. }
    cbv beta in Ha.
    cbn [try_configs]. unfold bind at 1.
    change (print ?s h) with (Ok tt, h, [Print s]). cbv beta iota.
    rewrite (bind_run _ _ _ _ _ _ Ha).
    destruct (connect (args_of_kwargs config)) as [cols|e] eqn:Hc.
    + exists true. eexists. split; [reflexivity |]. split.
      * apply (first_success_run_now args_of_kwargs config_fail_line config rest
                 _ cols Hc).
        cbn. rewrite app_nil_r. exact Hopen.
      * intros line [Hl|Hl]; [left; injection Hl as <-; eauto |].
        rewrite app_nil_r in Hl. apply Hlines in Hl as (cols' & _ & [<-|[]]).
        right. left. eauto.
    + destruct (IH (S i)) as (b & t & Hrest & Hrun & Hprints).
      unfold bind at 1.
      change (print ?s h) with (Ok tt, h, [Print s]). cbv beta iota.
      rewrite Hrest.
      exists b. eexists. split; [reflexivity |]. split.
      * rewrite !app_assoc.
        apply (first_success_run_later args_of_kwargs config_fail_line config
                 rest b _ t e Hc); [| |exact Hrun].
        -- rewrite !opened_app, Hopen. reflexivity.
        -- apply in_or_app. right. now left.
      * intros line Hl. rewrite !in_app_iff in Hl.
        destruct Hl as [[Hl|[]]|[Hl|[[Hl|[]]|Hl]]].
        -- left. injection Hl as <-. eauto.
        -- apply Hlines in Hl as (cols' & Hcols & _). congruence.
        -- right. right. injection Hl as <-. exists e, config.
           split; [now left | now split].
        -- destruct (Hprints line Hl) as [H1|[H2|(e' & c' & Hin & He' & ->)]];
             [now left | now right; left |].
           right. right. exists e', c'. split; [now right | now split].
Qed.

End Loops.

Section Testers.
Context {W : World}.
Import PyStr.

Lemma first_success_run_after {X : Type} (args : X -> client_args)
    (fail_line : exn -> string) (variants : list X) (b : bool)
    (pre t : list event) :
  opened pre = [] ->
  first_success_run args fail_line variants b t ->
  first_success_run args fail_line variants b (pre ++ t).
Proof.
  intros Hpre (tried & untried & Hv & Hopen & Hrep & Hb).
  exists tried, untried. split; [exact Hv |].
  split; [now rewrite opened_app, Hpre |].
  split; [|exact Hb].
  intros x e Hx He. apply in_or_app. right. eauto.
Qed.

Lemma first_success_run_verdict {X : Type} (args : X -> client_args)
    (fail_line : exn -> string) (variants : list X) (b : bool)
    (t : list event) :
  first_success_run args fail_line variants b t ->
  (b = false <-> Forall (fun y => succeeds (args y) = false) variants).
Proof.
  intros (tried & untried & -> & _ & _ & Hb). destruct b.
  - destruct Hb as (failed & x & -> & Hx & _). split; [discriminate |].
    intros Hall. rewrite !Forall_app in Hall.
    destruct Hall as [[_ Hx'] _]. apply Forall_cons in Hx' as [Hx' _].
    congruence.
  - tauto.
Qed.

Lemma test_chromadb_connection_with_fixes_run (db_path : string) (h : heap) :
  exists b t,
    test_chromadb_connection_with_fixes db_path h = (Ok b, h, t) /\
    first_success_run snd approach_fail_line (approaches_of db_path) b t.
Proof.
  destruct (try_approaches_run (approaches_of db_path) h) as (b & t & Hrun & Hok).
  unfold test_chromadb_connection_with_fixes, bind.
  change (print ?s h) with (Ok tt, h, [Print s]). cbv beta iota.
  rewrite Hrun. exists b. eexists. split; [reflexivity |].
  now apply first_success_run_after.
Qed.

Lemma test_database_migration_run (db_path : string) (h : heap) :
  w_path_exists (db_path +:+ "_backup") = true \/
  w_copytree db_path (db_path +:+ "_backup") = Ok tt ->
  exists b t pre,
    t = pre ++ snd (try_configs 0 (configs_of db_path) h) /\
    test_database_migration db_path h = (Ok b, h, t) /\
    (forall e, In e (backup_steps db_path) -> In e pre) /\
    first_success_run args_of_kwargs config_fail_line (configs_of db_path) b t /\
    (forall line, In (Print line) t ->
       line = nl +:+ "=== Testing Database Migration ===" \/
       line = "Creating backup at: " +:+ db_path +:+ "_backup" \/
       (exists j config, line = "  Trying configuration " +:+ of_nat j +:+ ": "
                                +:+ repr_kwargs config) \/
       (exists n, line = "    ✓ Success with " +:+ of_nat n +:+ " collections") \/
       (exists e config, In config (configs_of db_path) /\
                         connect (args_of_kwargs config) = Raise e /\
                         line = config_fail_line e)).
Proof.
  intros Hbackup.
  destruct (try_configs_run (configs_of db_path) 0 h)
    as (b & t & Hrun & Hok & Hlines).
  unfold test_database_migration, backup_steps.
  remember (configs_of db_path) as configs.
  unfold os_path_exists, shutil_copytree, attempt, bind, emit, lift, ret.
  change (print ?s h) with (Ok tt, h, [Print s]). cbv beta iota.
  rewrite Hrun. cbn [snd].
  destruct (w_path_exists (db_path +:+ "_backup")) eqn:Hex; cbn [negb].
  - cbv beta iota.
    exists b,
      ([ Print (nl +:+ "=== Testing Database Migration ===");
         PathExists (db_path +:+ "_backup") ] ++ t),
      [ Print (nl +:+ "=== Testing Database Migration ===");
        PathExists (db_path +:+ "_backup") ].
    split; [reflexivity |].
    split; [rewrite ?Hrun; cbv beta iota; destruct b; cbn; rewrite ?app_nil_r; reflexivity |].
    split; [auto |]. split.
    + apply (first_success_run_after _ _ _ _ [_; _]); auto.
    + intros line Hl.
      apply in_app_or in Hl as [[Hl|[Hl|[]]]|Hl]; try discriminate.
      * left. now injection Hl as <-.
      * right. right. now apply Hlines.
  - destruct Hbackup as [Hb|Hb]; [discriminate |].
    change (print ?s h) with (Ok tt, h, [Print s]). cbv beta iota.
    rewrite Hb. cbv beta iota.
    exists b,
      ([ Print (nl +:+ "=== Testing Database Migration ===");
         PathExists (db_path +:+ "_backup");
         Print ("Creating backup at: " +:+ db_path +:+ "_backup");
         CopyTree db_path (db_path +:+ "_backup") ] ++ t),
      [ Print (nl +:+ "=== Testing Database Migration ===");
        PathExists (db_path +:+ "_backup");
        Print ("Creating backup at: " +:+ db_path +:+ "_backup");
        CopyTree db_path (db_path +:+ "_backup") ].
    split; [reflexivity |].
    split; [rewrite ?Hrun; cbv beta iota; destruct b; cbn; rewrite ?app_nil_r; reflexivity |].
    split; [auto |]. split.
    + apply (first_success_run_after _ _ _ _ [_; _; _; _]); auto.
    + intros line Hl.
      apply in_app_or in Hl as [[Hl|[Hl|[Hl|[Hl|[]]]]]|Hl]; try discriminate.
      * left. now injection Hl as <-.
      * right. left. now injection Hl as <-.
      * right. right. now apply Hlines.
Qed.

End Testers.

(** C7 as the code has it.  Both connectivity loops go through their
    variants in order, return success at the first variant whose client
    opens and lists its collections, open no client for a later variant,
    and return failure exactly when every variant fails.  For a failed
    variant [test_chromadb_connection_with_fixes] prints the kind and the
    message of the exception; [test_database_migration] prints the
    message only, and runs its loop once its backup step is through. *)
Theorem connectivity_loops_stop_at_first_success {W : World}
    (approaches : list (string * client_args)) (configs : list kwargs)
    (i : nat) (db_path : string) (h : heap) :
  (exists b t,
     try_approaches approaches h = (Ok b, h, t) /\
     first_success_run snd approach_fail_line approaches b t /\
     (b = false <-> Forall (fun y => succeeds (snd y) = false) approaches)) /\
  (exists b t,
     test_chromadb_connection_with_fixes db_path h = (Ok b, h, t) /\
     first_success_run snd approach_fail_line (approaches_of db_path) b t) /\
  (exists b t,
     try_configs i configs h = (Ok b, h, t) /\
     first_success_run args_of_kwargs config_fail_line configs b t /\
     (b = false <-> Forall (fun y => succeeds (args_of_kwargs y) = false) configs)) /\
  (w_path_exists (db_path +:+ "_backup") = true \/
   w_copytree db_path (db_path +:+ "_backup") = Ok tt ->
   exists b t,
     test_database_migration db_path h = (Ok b, h, t) /\
     first_success_run args_of_kwargs config_fail_line (configs_of db_path) b t).
Proof.
  split; [|split; [|split]].
  - destruct (try_approaches_run approaches h) as (b & t & Hrun & Hok).
    exists b, t. split; [exact Hrun |]. split; [exact Hok |].
    exact (first_success_run_verdict _ _ _ _ _ Hok).
  - apply test_chromadb_connection_with_fixes_run.
  - destruct (try_configs_run configs i h) as (b & t & Hrun & Hok & _).
    exists b, t. split; [exact Hrun |]. split; [exact Hok |].
    exact (first_success_run_verdict _ _ _ _ _ Hok).
  - intros Hbackup.
    destruct (test_database_migration_run db_path h Hbackup)
      as (b & t & pre & _ & Hrun & _ & Hok & _).
    now exists b, t.
Qed.

(** ** A path that does not exist *)

Section MissingPath.
Context {W : World}.
Import PyStr.

Lemma analyze_chroma_database_missing_path (db_path : string) (h : heap) :
  w_path_exists db_path = false ->
  analyze_chroma_database db_path h =
    (Ok false, h,
     [ Print ("=== Analyzing ChromaDB at: " +:+ db_path +:+ " ===");
       Print ("ChromaDB version: " +:+ chromadb_version);
       PathExists db_path;
       Print ("ERROR: Database path does not exist: " +:+ db_path) ]).
Proof.
  intros Hex. unfold analyze_chroma_database, os_path_exists, bind, emit, ret.
  change (print ?s h) with (Ok tt, h, [Print s]). cbv beta iota.
  rewrite Hex. reflexivity.
Qed.

Lemma check_chromadb_version_info_run (h : heap) :
  exists lines,
    check_chromadb_version_info h = (Ok chromadb_version, h, map Print lines).
Proof.
  unfold check_chromadb_version_info, bind, ret.
  change (print ?s h) with (Ok tt, h, [Print s]). cbv beta iota.
  destruct (startswith chromadb_version "0.6").
  { change (print ?s h) with (Ok tt, h, [Print s]). cbv beta iota.
    eexists [_; _; _; _]. reflexivity. }
  destruct (startswith chromadb_version "1.0" && String.ltb chromadb_version "1.0.7").
  { change (print ?s h) with (Ok tt, h, [Print s]). cbv beta iota.
    eexists [_; _; _; _]. reflexivity. }
  destruct (String.leb "1.0.7" chromadb_version).
  { change (print ?s h) with (Ok tt, h, [Print s]). cbv beta iota.
    eexists [_; _; _]. reflexivity. }
  eexists [_; _]. reflexivity.
Qed.

(** [chroma_version_analysis.py]: for a path that does not exist the
    run prints its banner, the version lines and the error, asks
    whether the path exists, and does nothing else. *)
Lemma version_analysis_main_missing_path (prog db_path : string)
    (more : list string) (h : heap) :
  w_path_exists db_path = false ->
  exists lines,
    version_analysis_main (prog :: db_path :: more) h =
      (Ok tt, h,
       map Print lines
       ++ [ PathExists db_path;
            Print ("ERROR: Database path does not exist: " +:+ db_path) ]).
Proof.
  intros Hex. destruct (check_chromadb_version_info_run h) as (lines & Hv).
  unfold version_analysis_main, bind.
  do 2 (change (print ?s h) with (Ok tt, h, [Print s]); cbv beta iota).
  rewrite Hv. unfold os_path_exists, bind, emit, ret. cbv beta iota.
  rewrite Hex. cbn [negb].
  change (print ?s h) with (Ok tt, h, [Print s]). cbv beta iota.
  exists ("ChromaDB Version Compatibility Analysis" :: repeat_str "=" 50 :: lines).
  cbn [map app]. reflexivity.
Qed.

Lemma opened_In (a : client_args) (t : list event) :
  In a (opened t) -> In (ClientOpen a) t.
Proof.
  unfold opened. rewrite in_flat_map. intros (e & He & Ha).
  destruct e; cbn in Ha; try contradiction.
  destruct Ha as [<-|[]]. exact He.
Qed.

(** [test_database_migration] asks for the backup path, and then
    starts the copy or opens a client on [db_path]; a copy that fails
    ends it. *)
Lemma test_database_migration_touches (db_path : string) (h : heap) :
  let run := test_database_migration db_path h in
  In (PathExists (db_path +:+ "_backup")) (snd run) /\
  (In (CopyTree db_path (db_path +:+ "_backup")) (snd run) \/
   In (ClientOpen (PathOnly db_path)) (snd run)) /\
  (forall e,
      w_path_exists (db_path +:+ "_backup") = false ->
      w_copytree db_path (db_path +:+ "_backup") = Raise e ->
      fst (fst run) = Raise e).
Proof.
  cbv zeta.
  destruct (w_path_exists (db_path +:+ "_backup")) eqn:Hb.
  - destruct (test_database_migration_run db_path h (or_introl Hb))
      as (b & t & pre & Ht & Hrun & Hpre & Hok & _).
    rewrite Hrun. cbn [fst snd].
    split.
    { rewrite Ht. apply in_or_app. left. apply Hpre.
      unfold backup_steps. cbn. auto. }
    split; [|discriminate].
    right. apply opened_In.
    destruct Hok as (tried & untried & Hv & Ho & _ & Hcase).
    assert (Hne : exists x rest, tried = x :: rest).
    { destruct b.
      - destruct Hcase as (failed & x & -> & _).
        destruct failed; simpl; eauto.
      - destruct Hcase as [-> _]. rewrite app_nil_r in Hv.
        rewrite <- Hv. simpl. eauto. }
    destruct Hne as (x & rest & ->).
    rewrite Ho. injection Hv as <- _. now left.
  - destruct (w_copytree db_path (db_path +:+ "_backup")) as [[]|e] eqn:Hc.
    + destruct (test_database_migration_run db_path h (or_intror Hc))
        as (b & t & pre & Ht & Hrun & Hpre & _).
      rewrite Hrun. cbn [fst snd]. rewrite Ht, !in_app_iff.
      split; [left; apply Hpre; unfold backup_steps; cbn; auto |].
      split; [|discriminate].
      left. left. apply Hpre. unfold backup_steps. rewrite Hb. cbn. auto.
    + unfold test_database_migration, os_path_exists, shutil_copytree, attempt,
        bind, emit, lift, ret.
      change (print ?s h) with (Ok tt, h, [Print s]). cbv beta iota.
      rewrite Hb. cbn [negb].
      change (print ?s h) with (Ok tt, h, [Print s]). cbv beta iota.
      rewrite Hc. cbn.
      split; [now auto 10 |]. split; [now auto 10 |].
      intros e' _ [= <-]. reflexivity.
Qed.

(** C8 on [chroma_diagnostic.py].  For a path that does not exist,
    [analyze_chroma_database] prints the error and returns [False], and
    [main] goes on into [test_database_migration]: it asks for the
    backup path and then starts the backup copy of the missing
    directory, or, with a backup in place, opens a client on the missing
    path.  A failed copy leaves [main] with that exception. *)
Theorem diagnostic_main_goes_on_after_missing_path (prog db_path : string)
    (more : list string) (h : heap) :
  w_path_exists db_path = false ->
  let run := diagnostic_main (prog :: db_path :: more) h in
  In (Print ("ERROR: Database path does not exist: " +:+ db_path)) (snd run) /\
  In (PathExists (db_path +:+ "_backup")) (snd run) /\
  (In (CopyTree db_path (db_path +:+ "_backup")) (snd run) \/
   In (ClientOpen (PathOnly db_path)) (snd run)) /\
  (forall e,
      w_path_exists (db_path +:+ "_backup") = false ->
      w_copytree db_path (db_path +:+ "_backup") = Raise e ->
      fst (fst run) = Raise e).
Proof.
  intros Hex run. subst run.
  pose proof (test_database_migration_touches db_path h) as (Hp & Hc & Hr).
  unfold diagnostic_main, bind.
  do 2 (change (print ?s h) with (Ok tt, h, [Print s]); cbv beta iota).
  rewrite (analyze_chroma_database_missing_path db_path h Hex).
  cbn [negb]. change (print ?s h) with (Ok tt, h, [Print s]). cbv beta iota.
  destruct (test_database_migration db_path h) as [[[b|e] h1] t1] eqn:Ht;
    cbn [fst snd] in *; unfold print, emit, ret; cbn;
    rewrite ?in_app_iff; cbn.
  - split; [now auto 10 |]. split; [now auto 10 |]. split; [tauto |].
    intros e Hb Hcopy. specialize (Hr e Hb Hcopy). discriminate.
  - split; [now auto 10 |]. split; [now auto 10 |]. split; [tauto |].
    intros e' Hb Hcopy. specialize (Hr e' Hb Hcopy). congruence.
Qed.

End MissingPath.

(** ** The claims at sample surroundings *)

Lemma sample_table_read :
  table_read (W := Sample.repair_world) "/data/chroma" None Sample.mixed_table.
Proof.
  exists "/data/chroma/chroma.sqlite3". repeat split.
Qed.

Lemma hnsw_config_gets_type_added_witness :
  let corrected :=
    [("hnsw", JObj []); ("_type", JStr "CollectionConfigurationInternal")] in
  exists es h1 t1 l outcome h2 t2 before after,
    analyze_configuration_error (W := Sample.repair_world) "/data/chroma" None []
      = (Ok (AList es), h1, t1) /\
    In ("h1", "vectors", Some l) es /\
    h1 !! l = Some corrected /\
    generate_migration_script (W := Sample.repair_world) "/data/chroma" es h1
      = (outcome, h2, t2) /\
    h2 !! l = Some corrected /\
    In (FileWrite "/data/chroma_migration.sql"
          (before
           +:+ Script.fix_collection "vectors" (Json.dumps (JObj corrected)) "h1"
           +:+ after)) t2.
Proof.
  intros corrected.
  assert (H : row_config Sample.hnsw_row
              = Some (Json.dumps (JObj [("hnsw", JObj [])]))) by reflexivity.
  eapply (hnsw_config_gets_type_added (W := Sample.repair_world)
            Sample.hnsw_row "{"%char _ [("hnsw", JObj [])]) in H.
  - destruct H as (_ & _ & _ & _ & H).
    apply (H "/data/chroma" None Sample.mixed_table []).
    + exact sample_table_read.
    + vm_compute. reflexivity.
    + simpl. auto.
  - vm_compute. reflexivity.
  - reflexivity.
  - reflexivity.
Defined.

Lemma undecodable_or_null_gets_default_witness :
  exists es h1 t1 outcome h2 t2 before after,
    analyze_configuration_error (W := Sample.repair_world) "/data/chroma" None []
      = (Ok (AList es), h1, t1) /\
    In ("g1", "garbled", None) es /\
    generate_migration_script (W := Sample.repair_world) "/data/chroma" es h1
      = (outcome, h2, t2) /\
    In (FileWrite "/data/chroma_migration.sql"
          (before
           +:+ ("-- Fix collection with default config: garbled
UPDATE collections 
SET configuration_json_str = '" +:+ default_config_json +:+ "'
WHERE id = 'g1';

")
           +:+ after)) t2.
Proof.
  assert (H : row_config Sample.garbled_row = None \/
              exists c s e,
                row_config Sample.garbled_row = Some (String c s) /\
                @w_json_loads Sample.repair_world (String c s) = Raise e /\
                exn_kind e = "JSONDecodeError").
  { right. exists "{"%char, "not json".
    exists (Sample.refused "JSONDecodeError"
              "Expecting value: line 1 column 1 (char 0)").
    repeat split. }
  apply (undecodable_or_null_gets_default (W := Sample.repair_world)
           Sample.garbled_row) in H.
  destruct H as (_ & _ & H).
  apply (H "/data/chroma" None Sample.mixed_table []).
  - exact sample_table_read.
  - vm_compute. reflexivity.
  - simpl. auto.
Defined.

Lemma empty_blob_is_absent_witness :
  exists es h1 t1 outcome h2 t2 before after,
    analyze_configuration_error (W := Sample.repair_world) "/data/chroma" None []
      = (Ok (AList es), h1, t1) /\
    ~ In (JsonLoads "") t1 /\
    In (Print "  ❌ PROBLEM: No configuration JSON found") t1 /\
    In ("e1", "blank", None) es /\
    generate_migration_script (W := Sample.repair_world) "/data/chroma" es h1
      = (outcome, h2, t2) /\
    In (FileWrite "/data/chroma_migration.sql"
          (before
           +:+ ("-- Fix collection with default config: blank
UPDATE collections 
SET configuration_json_str = '" +:+ default_config_json +:+ "'
WHERE id = 'e1';

")
           +:+ after)) t2.
Proof.
  assert (H : row_config Sample.empty_row = Some "") by reflexivity.
  apply (empty_blob_is_absent (W := Sample.repair_world) Sample.empty_row) in H.
  destruct H as (_ & _ & H).
  apply (H "/data/chroma" None Sample.mixed_table []).
  - exact sample_table_read.
  - vm_compute. reflexivity.
  - simpl. auto.
Defined.

Lemma corrected_config_is_left_alone_witness :
  let corrected :=
    [("hnsw", JObj []); ("_type", JStr "CollectionConfigurationInternal")] in
  exists listed h1 t1 script1 h2 t',
    analyze_row (W := Sample.repair_world) Sample.hnsw_row [] []
      = (Ok ([] ++ listed), h1, t1) /\
    migrate_entries listed "" h1 = (Ok script1, h2, []) /\
    h2 !! 0 = Some corrected /\
    Dict.contains "_type" corrected = true /\
    analyze_row (W := Sample.repair_world) Sample.typed_row [] []
      = (Ok [], [] ++ [corrected], t') /\
    forall collection_id name l' script' h'',
      h'' !! l' = Some corrected ->
      migrate_entry (collection_id, name, Some l') script' h'' =
        (Ok (script'
             +:+ Script.fix_collection name (Json.dumps (JObj corrected))
                   collection_id),
         h'', []).
Proof.
  eapply (corrected_config_is_left_alone (W := Sample.repair_world)
            Sample.hnsw_row Sample.typed_row "{"%char "{"%char _ _
            [("hnsw", JObj [])] [] [] [] [] "").
  - reflexivity.
  - vm_compute. reflexivity.
  - reflexivity.
  - vm_compute. reflexivity.
Defined.

Lemma scenario_script_witness :
  exists t1 outcome t2,
    analyze_configuration_error (W := Sample.scenario_world) "/data/chroma" None []
      = (Ok (AList [("abc", "docs", None)]), [], t1) /\
    generate_migration_script (W := Sample.scenario_world) "/data/chroma"
      [("abc", "docs", None)] []
      = (outcome, [], t2) /\
    In (FileWrite "/data/chroma_migration.sql"
          ((Script.header "/data/chroma"
            +:+ ("-- Fix collection with default config: docs
UPDATE collections 
SET configuration_json_str = '" +:+ default_config_json +:+ "'
WHERE id = 'abc';

"))
           +:+ Script.footer)) t2.
Proof.
  apply (scenario_script (W := Sample.scenario_world) "/data/chroma" None []).
  exists "/data/chroma/chroma.sqlite3". repeat split.
Defined.

(** C3 as stated fails: the script of the scenario holds neither the
    one-line statement nor the JSON text without blanks. *)
Lemma scenario_script_is_not_compact :
  exists t1 outcome text,
    analyze_configuration_error (W := Sample.scenario_world) "/data/chroma" None []
      = (Ok (AList [("abc", "docs", None)]), [], t1) /\
    generate_migration_script (W := Sample.scenario_world) "/data/chroma"
      [("abc", "docs", None)] []
      = (outcome, [],
         [ Print (PyStr.nl +:+ "=== Generating Migration Script ===");
           FileWrite "/data/chroma_migration.sql" text;
           Print "Migration script written to: /data/chroma_migration.sql";
           Print (PyStr.nl +:+ "To apply the migration:");
           Print "  1. Backup your database: cp -r '/data/chroma' '/data/chroma_backup'";
           Print "  2. Apply the script: sqlite3 '/data/chroma/chroma.sqlite3' < '/data/chroma_migration.sql'";
           Print "  3. Test the database with ChromaDB" ]) /\
    PyStr.contains text (one_line_update compact_default_json "abc") = false /\
    PyStr.contains text compact_default_json = false /\
    PyStr.contains text default_config_json = true.
Proof.
  do 3 eexists. split; [vm_compute; reflexivity |].
  split; [vm_compute; reflexivity |].
  repeat split; vm_compute; reflexivity.
Qed.

(** C5 as stated fails: for a table whose one record has a value with a
    single quote, the value goes into the script as it is, and SQLite
    reads the SET literal only up to that quote. *)
Lemma quote_ends_the_literal_early :
  let json :=
    Json.dumps (JObj [("note", JStr "it's");
                      ("_type", JStr "CollectionConfigurationInternal")]) in
  let tail := json +:+ "'
WHERE id = 'q1';

" +:+ Script.footer in
  exists t1 outcome t2 value rest,
    analyze_configuration_error (W := Sample.quote_world) "/data/chroma" None []
      = (Ok (AList [("q1", "notes", Some 0)]), [[("note", JStr "it's")]], t1) /\
    generate_migration_script (W := Sample.quote_world) "/data/chroma"
      [("q1", "notes", Some 0)] [[("note", JStr "it's")]]
      = (outcome,
         [[("note", JStr "it's");
           ("_type", JStr "CollectionConfigurationInternal")]],
         Print (PyStr.nl +:+ "=== Generating Migration Script ===")
         :: FileWrite "/data/chroma_migration.sql"
              (Script.header "/data/chroma" +:+ "-- Fix collection: notes
UPDATE collections 
SET configuration_json_str = '" +:+ tail)
         :: t2) /\
    sql_literal tail = Some (value, rest) /\
    value = "{" +:+ PyStr.dq +:+ "note" +:+ PyStr.dq +:+ ": " +:+ PyStr.dq +:+ "it" /\
    value <> json.
Proof.
  do 5 eexists. split; [vm_compute; reflexivity |].
  split; [vm_compute; reflexivity |].
  split; [vm_compute; reflexivity |].
  split; [vm_compute; reflexivity |].
  vm_compute. discriminate.
Qed.

Lemma connectivity_loops_stop_at_first_success_witness :
  exists b t,
    test_database_migration (W := Sample.second_world) "/data/chroma" [] = (Ok b, [], t) /\
    first_success_run (W := Sample.second_world) args_of_kwargs config_fail_line
      (configs_of "/data/chroma") b t.
Proof.
  apply (proj2 (proj2 (proj2
           (connectivity_loops_stop_at_first_success (W := Sample.second_world)
              (approaches_of "/data/chroma") (configs_of "/data/chroma") 0
              "/data/chroma" [])))).
  right. reflexivity.
Defined.

(** C7 as stated fails for [test_database_migration]: both variants
    fail with a ValueError, the loop prints the message of each, and no
    printed line names the kind of the exception. *)
Lemma migration_test_does_not_print_the_kind :
  exists t,
    test_database_migration (W := Sample.refusing_world) "/data/chroma" []
      = (Ok false, [], t) /\
    opened t = [PathOnly "/data/chroma"; WithAllowReset "/data/chroma" false] /\
    @w_client_open Sample.refusing_world (PathOnly "/data/chroma")
      = Raise {| exn_kind := "ValueError"; exn_msg := "boom" |} /\
    In (Print "    ✗ Failed: boom") t /\
    Forall (fun line => PyStr.contains line "ValueError" = false) (printed t).
Proof.
  eexists. split; [vm_compute; reflexivity |].
  split; [vm_compute; reflexivity |].
  split; [reflexivity |].
  split; [vm_compute; auto 10 |].
  vm_compute. repeat constructor.
Qed.

Lemma diagnostic_main_goes_on_after_missing_path_witness :
  let run := diagnostic_main (W := Sample.missing_world)
               ["chroma_diagnostic.py"; "/nope"] [] in
  In (Print ("ERROR: Database path does not exist: " +:+ "/nope")) (snd run) /\
  In (PathExists ("/nope" +:+ "_backup")) (snd run) /\
  (In (CopyTree "/nope" ("/nope" +:+ "_backup")) (snd run) \/
   In (ClientOpen (PathOnly "/nope")) (snd run)) /\
  (forall e,
      @w_path_exists Sample.missing_world ("/nope" +:+ "_backup") = false ->
      @w_copytree Sample.missing_world "/nope" ("/nope" +:+ "_backup") = Raise e ->
      fst (fst run) = Raise e).
Proof.
  apply (diagnostic_main_goes_on_after_missing_path (W := Sample.missing_world)
           "chroma_diagnostic.py" "/nope" [] []).
  reflexivity.
Defined.

(** The run of [chroma_diagnostic.py] on a path that does not exist, in
    full: after the error line it starts the backup copy and ends with
    the exception of the copy. *)
Example diagnostic_main_on_missing_path :
  diagnostic_main (W := Sample.missing_world) ["chroma_diagnostic.py"; "/nope"] []
  = (Raise {| exn_kind := "FileNotFoundError";
              exn_msg := "No such file or directory" |},
     [],
     [ Print "ChromaDB Database Diagnostic Tool";
       Print "==================================================";
       Print "=== Analyzing ChromaDB at: /nope ===";
       Print "ChromaDB version: 1.0.12";
       PathExists "/nope";
       Print "ERROR: Database path does not exist: /nope";
       Print (PyStr.nl +:+ "=== Attempting Migration/Repair ===");
       Print (PyStr.nl +:+ "=== Testing Database Migration ===");
       PathExists "/nope_backup";
       Print "Creating backup at: /nope_backup";
       CopyTree "/nope" "/nope_backup" ]).
Proof. vm_compute. reflexivity. Qed.

(** The same run with a backup directory in place: clients are opened
    on the missing path. *)
Example diagnostic_main_on_missing_path_with_backup :
  opened (snd (diagnostic_main (W := Sample.backed_up_world)
                 ["chroma_diagnostic.py"; "/nope"] []))
  = [PathOnly "/nope"; WithAllowReset "/nope" false].
Proof. vm_compute. reflexivity. Qed.

(** The run of [chroma_version_analysis.py] on the same path stops at
    the error line. *)
Example version_analysis_main_on_missing_path :
  version_analysis_main (W := Sample.missing_world)
    ["chroma_version_analysis.py"; "/nope"] []
  = (Ok tt, [],
     [ Print "ChromaDB Version Compatibility Analysis";
       Print "==================================================";
       Print "=== ChromaDB Version Information ===";
       Print "ChromaDB version: 1.0.12";
       Print "⚠️  WARNING: This version may have '_type' configuration issues";
       Print "   Recommended: Upgrade to version 1.0.7+";
       PathExists "/nope";
       Print "ERROR: Database path does not exist: /nope" ]).
Proof. vm_compute. reflexivity. Qed.

(** * Further properties of the runs *)

(** ** What a computation does *)

Lemma only_does_ret {A : Type} (allowed : event -> Prop) (a : A) :
  only_does allowed (ret a).
Proof. intros h. constructor. Qed.

Lemma only_does_lift {A : Type} (allowed : event -> Prop) (r : res A) :
  only_does allowed (lift r).
Proof. intros h. constructor. Qed.

Lemma only_does_emit (allowed : event -> Prop) (e : event) :
  allowed e -> only_does allowed (emit e).
Proof. intros He h. repeat constructor. exact He. Qed.

Lemma only_does_bind {A B : Type} (allowed : event -> Prop) (m : M A)
    (k : A -> M B) :
  only_does allowed m -> (forall a, only_does allowed (k a)) ->
  only_does allowed (bind m k).
Proof.
  intros Hm Hk h. unfold bind. specialize (Hm h).
  destruct (m h) as [[[a|e] h1] t1]; [|exact Hm].
  specialize (Hk a h1). destruct (k a h1) as [[r2 h2] t2].
  cbn [snd] in *. apply Forall_app. now split.
Qed.

Lemma only_does_bind_post {A B : Type} (allowed : event -> Prop)
    (post : A -> Prop) (m : M A) (k : A -> M B) :
  only_does allowed m ->
  (forall h a h' t, m h = (Ok a, h', t) -> post a) ->
  (forall a, post a -> only_does allowed (k a)) ->
  only_does allowed (bind m k).
Proof.
  intros Hm Hpost Hk h. unfold bind. specialize (Hm h). specialize (Hpost h).
  destruct (m h) as [[[a|e] h1] t1]; [|exact Hm].
  specialize (Hk a (Hpost a h1 t1 eq_refl) h1).
  destruct (k a h1) as [[r2 h2] t2].
  cbn [snd] in *. apply Forall_app. now split.
Qed.

Lemma only_does_attempt {A : Type} (allowed : event -> Prop) (m : M A) :
  only_does allowed m -> only_does allowed (attempt m).
Proof.
  intros Hm h. unfold attempt. specialize (Hm h).
  now destruct (m h) as [[r h1] t1].
Qed.

Lemma only_does_catch_kind {A : Type} (allowed : event -> Prop) (kind : string)
    (m : M A) (handler : exn -> M A) :
  only_does allowed m -> (forall e, only_does allowed (handler e)) ->
  only_does allowed (catch_kind kind m handler).
Proof.
  intros Hm Hh. unfold catch_kind. apply only_does_bind.
  - now apply only_does_attempt.
  - intros [a|e]; [apply only_does_ret |].
    destruct (String.eqb (exn_kind e) kind); [apply Hh | apply only_does_lift].
Qed.

Lemma only_does_for_each {A : Type} (allowed : event -> Prop) (xs : list A)
    (body : A -> M unit) :
  (forall x, only_does allowed (body x)) ->
  only_does allowed (for_each xs body).
Proof.
  intros Hb. induction xs as [|x xs IH]; [apply only_does_ret |].
  cbn [for_each]. apply only_does_bind; [apply Hb | intros _; exact IH].
Qed.

Lemma only_does_alloc (allowed : event -> Prop) (d : dict) :
  only_does allowed (alloc d).
Proof. intros h. constructor. Qed.

Lemma only_does_load (allowed : event -> Prop) (l : loc) :
  only_does allowed (load l).
Proof. intros h. unfold load. destruct (h !! l); constructor. Qed.

Lemma only_does_setitem (allowed : event -> Prop) (l : loc) (k : string)
    (v : json) :
  only_does allowed (setitem l k v).
Proof. intros h. constructor. Qed.

Lemma only_does_weaken {A : Type} (P Q : event -> Prop) (m : M A) :
  (forall e, P e -> Q e) -> only_does P m -> only_does Q m.
Proof. intros HPQ Hm h. eapply Forall_impl; [apply Hm | exact HPQ]. Qed.

(** One step through a computation: what is left are the events. *)
Ltac only_does_step :=
  lazymatch goal with
  | |- only_does _ (bind _ _) => apply only_does_bind; [| intros ?]
  | |- only_does _ (ret _) => apply only_does_ret
  | |- only_does _ (lift _) => apply only_does_lift
  | |- only_does _ (raise _) => apply only_does_lift
  | |- only_does _ (attempt _) => apply only_does_attempt
  | |- only_does _ (catch_kind _ _ _) => apply only_does_catch_kind; [| intros ?]
  | |- only_does _ (for_each _ _) => apply only_does_for_each; intros ?
  | |- only_does _ (alloc _) => apply only_does_alloc
  | |- only_does _ (load _) => apply only_does_load
  | |- only_does _ (setitem _ _ _) => apply only_does_setitem
  | |- only_does _ (emit _) => apply only_does_emit
  | |- only_does _ (print _) => apply only_does_emit
  | |- only_does _ (os_path_exists _) => unfold os_path_exists
  | |- only_does _ (os_listdir _) => unfold os_listdir
  | |- only_does _ (os_path_isfile _) => unfold os_path_isfile
  | |- only_does _ (os_path_getsize _) => unfold os_path_getsize
  | |- only_does _ (sqlite3_connect _) => unfold sqlite3_connect
  | |- only_does _ (sqlite3_close _) => apply only_does_emit
  | |- only_does _ (json_loads _) => unfold json_loads
  | |- only_does _ (PersistentClient _) => unfold PersistentClient
  | |- only_does _ (list_collections _) => unfold list_collections
  | |- only_does _ (shutil_copytree _ _) => unfold shutil_copytree
  | |- only_does _ (write_file _ _) => unfold write_file
  | |- only_does _ (if ?b then _ else _) => destruct b
  | |- only_does _ (match ?x with _ => _ end) => destruct x
  | |- only_does _ (let '(_, _) := ?x in _) => destruct x
  end.

Section ReadOnly.
Context {W : World}.
Import PyStr.

Lemma analyze_rows_only_does (allowed : event -> Prop) (rows : list row)
    (acc : list entry) :
  (forall s, allowed (Print s)) -> (forall s, allowed (JsonLoads s)) ->
  only_does allowed (analyze_rows rows acc).
Proof.
  intros Hp Hj. revert acc. induction rows as [|r rows IH]; intros acc.
  - apply only_does_ret.
  - cbn [analyze_rows]. apply only_does_bind; [|intros a; apply IH].
    unfold analyze_row. repeat only_does_step; auto.
Qed.

Lemma first_existing_only_does (allowed : event -> Prop) (db_path : string)
    (candidates : list string) :
  (forall c, In c candidates -> allowed (PathExists (path_join db_path c))) ->
  only_does allowed (first_existing db_path candidates).
Proof.
  induction candidates as [|c rest IH]; intros Hc; [apply only_does_ret |].
  cbn [first_existing]. repeat only_does_step.
  - apply Hc. now left.
  - apply IH. intros c' Hin. apply Hc. now right.
Qed.

Lemma first_existing_among (db_path : string) (candidates : list string)
    (h : heap) (found : option string) (h' : heap) (t : list event) :
  first_existing db_path candidates h = (Ok found, h', t) ->
  match found with
  | Some p => In p (map (path_join db_path) candidates)
  | None => True
  end.
Proof.
  revert t. induction candidates as [|c rest IH]; intros t.
  - intros [= <- _ _]. exact I.
  - cbn [first_existing]. unfold os_path_exists, bind, emit, ret. cbn.
    destruct (w_path_exists (path_join db_path c)).
    + intros [= <- _ _]. now left.
    + destruct (first_existing db_path rest h) as [[r h1] t1] eqn:E.
      intros [= -> -> _]. specialize (IH _ eq_refl).
      destruct found; [now right | exact I].
Qed.

Lemma analyze_configuration_error_only_does (db_path : string)
    (collection_name : option string) :
  only_does (analysis_event db_path)
    (analyze_configuration_error db_path collection_name).
Proof.
  unfold analyze_configuration_error.
  apply only_does_bind; [apply only_does_emit; exact I | intros _].
  eapply only_does_bind_post.
  - apply first_existing_only_does. intros c Hc. cbn.
    destruct Hc as [<-|[<-|[]]]; auto.
  - intros h a h' t. apply first_existing_among.
  - intros [p|] Hp; [|repeat only_does_step; exact I].
    cbn in Hp. unfold select_collections.
    repeat first
      [ apply analyze_rows_only_does; intros; exact I
      | only_does_step ];
      cbn; eauto 10.
Qed.

End ReadOnly.

(** ** The list of the analysis *)

Section Listing.
Context {W : World}.
Import PyStr.

Lemma listed_as_grows (h hx : heap) (e : entry) (r : row) :
  listed_as h e r -> listed_as (h ++ hx) e r.
Proof.
  unfold listed_as. intros [He Hd]. split; [exact He |].
  destruct (snd e) as [l|]; [|exact Hd].
  destruct Hd as (d & Hd & Hl). exists d. split; [exact Hd |].
  now apply lookup_app_l_Some.
Qed.

(** The loop body on a row it gets past, by the kind of the row. *)
Lemma analyze_row_listing (r : row) (acc : list entry) (h : heap) :
  analysable r = true ->
  exists ex hx t,
    analyze_row r acc h = (Ok (acc ++ ex), h ++ hx, t) /\
    Forall2 (listed_as (h ++ hx)) ex (List.filter needs_repair [r]).
Proof.
  unfold analysable. cbn [List.filter]. unfold needs_repair, decoded_dict.
  destruct (row_config r) as [[|c s]|] eqn:E.
  - intros _. exists [(row_id r, row_name r, None)], []. eexists.
    rewrite analyze_row_absent by auto. rewrite app_nil_r.
    split; [reflexivity |]. repeat constructor.
    unfold decoded_dict. now rewrite E.
  - destruct (w_json_loads (String c s)) as [j|e] eqn:L.
    + destruct j as [| | | | | |d]; try discriminate. intros _.
      destruct (Dict.contains "_type" d) eqn:T; cbn [negb].
      * destruct (analyze_row_typed r acc h c s d E L T) as (v & _ & Hrun).
        exists [], [d]. eexists. rewrite app_nil_r.
        split; [exact Hrun | constructor].
      * exists [(row_id r, row_name r, Some (length h))].
        eexists [_]. eexists.
        split; [exact (analyze_row_untyped r acc h c s d E L T) |].
        repeat constructor. cbn [snd]. exists d.
        unfold decoded_dict. rewrite E, L. split; [reflexivity |].
        now apply list_lookup_middle.
    + intros K. apply String.eqb_eq in K.
      exists [(row_id r, row_name r, None)], []. eexists.
      rewrite (analyze_row_undecodable r acc h c s e E L K), app_nil_r.
      split; [reflexivity |]. repeat constructor.
      unfold decoded_dict. now rewrite E, L.
  - intros _. exists [(row_id r, row_name r, None)], []. eexists.
    rewrite analyze_row_absent by auto. rewrite app_nil_r.
    split; [reflexivity |]. repeat constructor.
    unfold decoded_dict. now rewrite E.
Qed.

Lemma analyze_rows_listing (rows : list row) (acc : list entry) (h : heap) :
  forallb analysable rows = true ->
  exists ex hx t,
    analyze_rows rows acc h = (Ok (acc ++ ex), h ++ hx, t) /\
    Forall2 (listed_as (h ++ hx)) ex (List.filter needs_repair rows).
Proof.
  revert acc h. induction rows as [|r rows IH]; intros acc h Hall.
  - exists [], [], []. rewrite !app_nil_r. split; [reflexivity | constructor].
  - cbn [forallb] in Hall. apply andb_prop in Hall as [Hr Hrows].
    destruct (analyze_row_listing r acc h Hr) as (ex1 & hx1 & t1 & Hrun1 & Hl1).
    destruct (IH (acc ++ ex1) (h ++ hx1) Hrows) as (ex2 & hx2 & t2 & Hrun2 & Hl2).
    exists (ex1 ++ ex2), (hx1 ++ hx2). eexists.
    cbn [analyze_rows]. rewrite (bind_run _ _ _ _ _ _ Hrun1), Hrun2.
    rewrite !app_assoc. split; [reflexivity |].
    change (r :: rows) with ([r] ++ rows). rewrite List.filter_app.
    apply Forall2_app; [|exact Hl2].
    eapply Forall2_impl; [exact Hl1 |].
    intros e r'. apply listed_as_grows.
Qed.

End Listing.

(** X1.  The list [analyze_configuration_error] returns for a table it reads
    and gets through: one entry for each row that has no dict with a
    '_type' key, in the order of the table, and none for any other row.
    An entry carries the identifier and the name of its row, and the
    decoded dict of the row if there is one. *)
Theorem analysis_lists_the_rows_to_repair {W : World} (db_path : string)
    (collection_name : option string) (rows : list row) (h : heap) :
  table_read db_path collection_name rows ->
  forallb analysable rows = true ->
  exists es h' t,
    analyze_configuration_error db_path collection_name h
      = (Ok (AList es), h', t) /\
    Forall2 (listed_as h') es (List.filter needs_repair rows) /\
    map fst es
      = map (fun r => (row_id r, row_name r)) (List.filter needs_repair rows).
Proof.
  intros Hread Hall.
  destruct (analyze_rows_listing rows [] h Hall) as (es & hx & t & Hrun & Hl).
  destruct (analyze_configuration_error_run db_path collection_name rows h
              _ _ _ Hread Hrun) as (t' & Hrun' & _).
  exists es, (h ++ hx), t'. split; [exact Hrun' |]. split; [exact Hl |].
  clear -Hl. induction Hl as [|e r es rs [He _] _ IH]; [reflexivity |].
  cbn [map]. now rewrite He, IH.
Qed.

(** ** The outcomes of the analysis *)

Lemma Forall_not_In (P : event -> Prop) (e : event) (t : list event) :
  Forall P t -> ~ P e -> ~ In e t.
Proof. intros Ht He Hin. apply He. rewrite List.Forall_forall in Ht. auto. Qed.

Ltac in_trace := repeat (rewrite in_app_iff || cbn [In app]).

Section Outcomes.
Context {W : World}.
Import PyStr.

Lemma analysis_outcome (db_path : string) (collection_name : option string)
    (h : heap) :
  exists a h' t,
    analyze_configuration_error db_path collection_name h = (Ok a, h', t) /\
    match a with
    | AFalse =>
        storage_file db_path = None /\ Forall asks_or_decodes t
    | ANone =>
        exists p t0 e,
          storage_file db_path = Some p /\
          In (SqliteConnect p) t /\
          t = t0 ++ [Print ("Error analyzing SQLite database: " +:+ exn_msg e)] /\
          (forall q, ~ In (SqliteClose q) t)
    | AList es =>
        exists p t0,
          storage_file db_path = Some p /\
          In (SqliteConnect p) t0 /\
          t = t0 ++ [SqliteClose p] /\
          (forall q, ~ In (SqliteClose q) t0)
    end.
Proof.
  destruct (first_existing_storage db_path h) as (tf & Hf & _).
  assert (Htf : Forall asks_or_decodes tf).
  { pose proof (first_existing_only_does asks_or_decodes db_path
                  ["chroma.sqlite3"; "chroma.db"] (fun _ _ => I) h) as H.
    now rewrite Hf in H. }
  unfold analyze_configuration_error.
  unfold bind at 1. unfold print at 1, emit at 1.
  rewrite (bind_run _ _ _ _ _ _ Hf).
  destruct (storage_file db_path) as [p|].
  2: { unfold bind, emit, print, ret. cbn.
       do 3 eexists. split; [reflexivity |]. split; [reflexivity |].
       constructor; [exact I |]. apply Forall_app. split; [exact Htf |].
       repeat constructor. }
  destruct (select_collections_run p collection_name h) as (sql & params & Hs).
  assert (Hnc : forall q, ~ In (SqliteClose q) tf).
  { intros q. apply (Forall_not_In _ _ _ Htf). exact id. }
  unfold bind at 1. unfold print at 1, emit at 1.
  unfold attempt, sqlite3_connect, sqlite3_close.
  unfold bind, emit, lift, print, ret.
  destruct (w_sqlite_connect p) as [[]|e]; cbn.
  2: { do 3 eexists. split; [reflexivity |].
       exists p. eexists (_ :: tf ++ [_; _]), e.
       split; [reflexivity |].
       split; [|split].
       2: { cbn. rewrite <- ?app_assoc. reflexivity. }
       { in_trace. auto 10. }
       intros q. specialize (Hnc q). in_trace.
       intuition discriminate. }
  rewrite Hs.
  destruct (w_sqlite_collections p (name_filter collection_name)) as [rows|e]; cbn.
  2: { do 3 eexists. split; [reflexivity |].
       exists p. eexists (_ :: tf ++ [_; _; _]), e.
       split; [reflexivity |].
       split; [|split].
       2: { cbn. rewrite <- ?app_assoc. reflexivity. }
       { in_trace. auto 10. }
       intros q. specialize (Hnc q). in_trace.
       intuition discriminate. }
  pose proof (analyze_rows_only_does asks_or_decodes rows []
                (fun _ => I) (fun _ => I) h) as Hrows.
  destruct (analyze_rows rows [] h) as [[[es|e] h1] t1]; cbn in *.
  - do 3 eexists. split; [reflexivity |].
    exists p. eexists (_ :: tf ++ [_; _; _; _] ++ t1).
    split; [reflexivity |].
    split; [|split].
    2: { cbn. rewrite <- ?app_assoc. reflexivity. }
    { in_trace. auto 10. }
    intros q. specialize (Hnc q). in_trace.
    pose proof (Forall_not_In _ (SqliteClose q) _ Hrows id).
    intuition discriminate.
  - do 3 eexists. split; [reflexivity |].
    exists p. eexists (_ :: tf ++ [_; _; _; _] ++ t1), e.
    split; [reflexivity |].
    split; [|split].
    2: { cbn. rewrite <- ?app_assoc. reflexivity. }
    { in_trace. auto 10. }
    intros q. specialize (Hnc q). in_trace.
    pose proof (Forall_not_In _ (SqliteClose q) _ Hrows id).
    intuition discriminate.
Qed.

End Outcomes.

Section Aborted.
Context {W : World}.
Import PyStr.

Lemma analyze_row_non_dict (r : row) (acc : list entry) (h : heap)
    (c : ascii) (s : string) (j : json) :
  row_config r = Some (String c s) ->
  w_json_loads (String c s) = Ok j ->
  (forall d, j <> JObj d) ->
  analyze_row r acc h =
    (Raise {| exn_kind := "AttributeError";
              exn_msg := "'" +:+ Json.type_name j
                         +:+ "' object has no attribute 'keys'" |},
     h, [row_banner r; JsonLoads (String c s)]).
Proof.
  intros E L Hj.
  unfold analyze_row, catch_kind, attempt, json_loads, bind, emit, lift,
    raise, ret, print.
  rewrite E. cbn. rewrite L. cbn.
  destruct j as [| | | | | |d]; try reflexivity.
  now destruct (Hj d).
Qed.

Lemma analyze_rows_raise (before after : list row) (r : row)
    (acc : list entry) (h : heap) (e : exn) :
  forallb analysable before = true ->
  (forall acc' h', exists t, analyze_row r acc' h' = (Raise e, h', t)) ->
  exists h' t, analyze_rows (before ++ r :: after) acc h = (Raise e, h', t).
Proof.
  intros Hall Hr. revert acc h.
  induction before as [|r0 before IH]; intros acc h.
  - destruct (Hr acc h) as (t & Ht). exists h, t.
    cbn [app analyze_rows]. unfold bind. now rewrite Ht.
  - cbn [forallb] in Hall. apply andb_prop in Hall as [H0 Hall].
    destruct (analyze_row_completes r0 acc h H0) as (a & h1 & t1 & Ha).
    destruct (IH Hall a h1) as (h' & t & Ht).
    cbn [app analyze_rows]. rewrite (bind_run _ _ _ _ _ _ Ha), Ht. eauto.
Qed.

Lemma analyze_configuration_error_raise (db_path : string)
    (collection_name : option string) (rows : list row) (h : heap)
    (e : exn) h' t :
  table_read db_path collection_name rows ->
  analyze_rows rows [] h = (Raise e, h', t) ->
  exists t',
    analyze_configuration_error db_path collection_name h
      = (Ok ANone, h',
         t' ++ [Print ("Error analyzing SQLite database: " +:+ exn_msg e)]).
Proof.
  intros (p & Hp & Hc & Hq) Hrows.
  destruct (first_existing_storage db_path h) as (tf & Hf & _).
  destruct (select_collections_run p collection_name h) as (sql & params & Hs).
  rewrite Hq in Hs.
  unfold analyze_configuration_error.
  unfold bind at 1. unfold print at 1, emit at 1.
  rewrite (bind_run _ _ _ _ _ _ Hf), Hp.
  unfold bind at 1. unfold print at 1, emit at 1.
  unfold attempt, sqlite3_connect, sqlite3_close.
  unfold bind, emit, lift, print, ret.
  rewrite Hc; cbn. rewrite Hs; cbn. rewrite Hrows; cbn.
  eexists (_ :: tf ++ [_; _; _; _] ++ t).
  cbn. rewrite <- ?app_assoc. reflexivity.
Qed.

End Aborted.

(** X2.  A configuration blob that decodes to a JSON value that is no dict (a
    list, a text, a number, true, false or null) ends the analysis of the
    whole table: the [keys()] call raises, the function reports the error
    and returns [None], so the records found before that row are dropped,
    and the connection it opened is not closed. *)
Theorem non_dict_configuration_aborts_the_analysis {W : World}
    (db_path : string) (collection_name : option string)
    (before after : list row) (r : row) (c : ascii) (s : string) (j : json)
    (h : heap) :
  table_read db_path collection_name (before ++ r :: after) ->
  forallb analysable before = true ->
  row_config r = Some (String c s) ->
  w_json_loads (String c s) = Ok j ->
  (forall d, j <> JObj d) ->
  exists h' t,
    analyze_configuration_error db_path collection_name h = (Ok ANone, h', t) /\
    last t = Some (Print ("Error analyzing SQLite database: '"
                          +:+ Json.type_name j
                          +:+ "' object has no attribute 'keys'")) /\
    (exists p, In (SqliteConnect p) t) /\
    (forall p, ~ In (SqliteClose p) t).
Proof.
  intros Hread Hall E L Hj.
  destruct (analyze_rows_raise before after r [] h _ Hall
              (fun acc' h' => ex_intro _ _ (analyze_row_non_dict r acc' h' c s j E L Hj)))
    as (h' & t & Hrows).
  destruct (analyze_configuration_error_raise db_path collection_name _ h _ _ _
              Hread Hrows) as (t' & Hrun).
  destruct (analysis_outcome db_path collection_name h)
    as (a & h'' & t'' & Hrun' & Hcase).
  rewrite Hrun in Hrun'. injection Hrun' as <- <- <-.
  destruct Hcase as (p & t0 & e & _ & Hconn & _ & Hclose).
  do 2 eexists. split; [exact Hrun |].
  split; [apply last_snoc |]. split; [now exists p | exact Hclose].
Qed.

(** X3.  [analyze_configuration_error] raises nothing, whatever the storage
    answers, and all it does is: print, ask whether one of the two files
    chroma.sqlite3 and chroma.db exists, open and close that file, run
    on it one of the two SELECT statements over the collections table,
    and decode configuration texts.  It writes nothing and opens no
    client. *)
Theorem analysis_only_reads {W : World} (db_path : string)
    (collection_name : option string) (h : heap) :
  exists a h' t,
    analyze_configuration_error db_path collection_name h = (Ok a, h', t) /\
    Forall (analysis_event db_path) t.
Proof.
  destruct (analysis_outcome db_path collection_name h)
    as (a & h' & t & Hrun & _).
  exists a, h', t. split; [exact Hrun |].
  pose proof (analyze_configuration_error_only_does db_path collection_name h) as H.
  now rewrite Hrun in H.
Qed.

(** X4.  The three ways [analyze_configuration_error] ends.  It returns
    [False] when neither storage file exists, and has then opened
    nothing.  It returns [None] when the connection, the query or a row
    failed: the error line is the last thing it does, and the connection
    it asked for is not closed.  It returns the list when nothing failed,
    and closing the connection is then the last thing it does. *)
Theorem connection_is_closed_only_when_the_list_is_returned {W : World}
    (db_path : string) (collection_name : option string) (h : heap) :
  exists a h' t,
    analyze_configuration_error db_path collection_name h = (Ok a, h', t) /\
    match a with
    | AFalse =>
        storage_file db_path = None /\ Forall asks_or_decodes t
    | ANone =>
        exists p t0 e,
          storage_file db_path = Some p /\
          In (SqliteConnect p) t /\
          t = t0 ++ [Print ("Error analyzing SQLite database: " +:+ exn_msg e)] /\
          (forall q, ~ In (SqliteClose q) t)
    | AList es =>
        exists p t0,
          storage_file db_path = Some p /\
          In (SqliteConnect p) t0 /\
          t = t0 ++ [SqliteClose p] /\
          (forall q, ~ In (SqliteClose q) t0)
    end.
Proof. apply analysis_outcome. Qed.

(** ** The dicts under the script step *)

Lemma patched_cons (e : entry) (es : list entry) (h : heap) :
  patched (e :: es) h
  = patched es (match snd e with
                | Some l => alter with_type l h
                | None => h
                end).
Proof. reflexivity. Qed.

Lemma patched_lookup_refers (es : list entry) (h : heap) (l : loc) :
  patched es h !! l
  = if refers es l then with_type <$> h !! l else h !! l.
Proof.
  revert h. induction es as [|e es IH]; intros h; [reflexivity |].
  rewrite patched_cons, IH. unfold refers. cbn [existsb].
  fold (refers es l).
  destruct (snd e) as [l'|]; [|reflexivity].
  rewrite list_lookup_alter.
  destruct (Nat.eqb_spec l' l) as [->|Hne].
  - destruct (decide (l = l)); [|congruence]. cbn [orb].
    destruct (refers es l); [|reflexivity].
    destruct (h !! l) as [d|]; [|reflexivity].
    cbn. now rewrite with_type_idem.
  - destruct (decide (l' = l)); [congruence | reflexivity].
Qed.

Lemma patched_idem (es : list entry) (h : heap) :
  patched es (patched es h) = patched es h.
Proof.
  apply list_eq. intros l. rewrite !patched_lookup_refers.
  destruct (refers es l); [|reflexivity].
  destruct (h !! l) as [d|]; [|reflexivity].
  cbn. now rewrite with_type_idem.
Qed.

Lemma entry_json_patched (es : list entry) (h : heap) (e : entry) :
  entry_json (patched es h) e = entry_json h e.
Proof.
  revert h. induction es as [|e0 es IH]; intros h; [reflexivity |].
  rewrite patched_cons, IH.
  destruct (snd e0); [apply entry_json_alter | reflexivity].
Qed.

Lemma update_block_patched (es : list entry) (h : heap) (e : entry) :
  update_block (patched es h) e = update_block h e.
Proof.
  destruct e as [[cid name] [l|]]; unfold update_block;
    now rewrite entry_json_patched.
Qed.

Lemma entry_ok_patched (es : list entry) (h : heap) (e : entry) :
  entry_ok h e -> entry_ok (patched es h) e.
Proof.
  unfold entry_ok. destruct (snd e) as [l|]; [|trivial].
  intros H. apply lookup_lt_is_Some. apply lookup_lt_is_Some in H.
  now rewrite patched_length.
Qed.

(** X5.  Run a second time on the same list, [generate_migration_script]
    does what it did the first time: it writes the same text to the same
    file, prints the same lines, ends the same way, and now leaves every
    dict as it finds it. *)
Theorem generating_the_script_again_changes_nothing {W : World}
    (db_path : string) (es : list entry) (h : heap) :
  es <> [] ->
  Forall (entry_ok h) es ->
  exists outcome h1 t text,
    generate_migration_script db_path es h = (outcome, h1, t) /\
    generate_migration_script db_path es h1 = (outcome, h1, t) /\
    In (FileWrite (script_path_of db_path) text) t.
Proof.
  intros Hne Hok.
  pose proof (generate_migration_script_run db_path es h Hne Hok) as H1.
  assert (Hok1 : Forall (entry_ok (patched es h)) es).
  { eapply Forall_impl; [exact Hok |]. intros e. apply entry_ok_patched. }
  pose proof (generate_migration_script_run db_path es (patched es h) Hne Hok1)
    as H2.
  cbv zeta in H1, H2.
  assert (Ht : script_text db_path (patched es h) es = script_text db_path h es).
  { assert (Hm : map (update_block (patched es h)) es = map (update_block h) es)
      by (apply List.map_ext; intros e; apply update_block_patched).
    unfold script_text. now rewrite Hm. }
  rewrite Ht, patched_idem in H2.
  destruct (w_file_write _ _) as [[]|e] in H1, H2;
    (do 4 eexists; split; [exact H1 |]; split; [exact H2 |];
     cbn [In]; auto).
Qed.

(** X6.  What [generate_migration_script] leaves of the dicts it is handed:
    a dict some entry refers to has its '_type' afterwards, added after
    its other keys if it was missing, and any other dict is as it was.
    This holds as well when the file could not be written. *)
Theorem the_script_step_adds_type_to_the_listed_dicts {W : World}
    (db_path : string) (es : list entry) (h : heap) :
  es <> [] ->
  Forall (entry_ok h) es ->
  exists outcome h' t,
    generate_migration_script db_path es h = (outcome, h', t) /\
    length h' = length h /\
    forall l d,
      h !! l = Some d ->
      h' !! l
      = Some (if refers es l && negb (Dict.contains "_type" d)
              then d ++ [("_type", JStr "CollectionConfigurationInternal")]
              else d).
Proof.
  intros Hne Hok.
  pose proof (generate_migration_script_run db_path es h Hne Hok) as H1.
  cbv zeta in H1.
  assert (Hpost : forall l d,
             h !! l = Some d ->
             patched es h !! l
             = Some (if refers es l && negb (Dict.contains "_type" d)
                     then d ++ [("_type", JStr "CollectionConfigurationInternal")]
                     else d)).
  { intros l d Hl. rewrite patched_lookup_refers, Hl.
    destruct (refers es l); [|reflexivity]. cbn.
    destruct (Dict.contains "_type" d) eqn:T; cbn.
    - now rewrite with_type_fixed.
    - now rewrite with_type_missing. }
  destruct (w_file_write _ _) as [[]|e] in H1;
    (do 3 eexists; split; [exact H1 |]; split; [apply patched_length | exact Hpost]).
Qed.

(** ** Where the script is written *)

Lemma append_nil_l (b : string) : "" +:+ b = b.
Proof. reflexivity. Qed.

Lemma length_append (a b : string) :
  String.length (a +:+ b) = String.length a + String.length b.
Proof.
  induction a as [|x a IH]; [reflexivity |].
  rewrite append_cons. cbn [String.length]. now rewrite IH.
Qed.

Lemma substring_0_0 (s : string) : String.substring 0 0 s = "".
Proof. now destruct s. Qed.

Lemma substring_prefix (a b : string) (k : nat) :
  String.substring 0 (String.length a + k) (a +:+ b)
  = a +:+ String.substring 0 k b.
Proof.
  induction a as [|x a IH]; [reflexivity |].
  rewrite !append_cons. cbn [String.length Nat.add String.substring].
  now rewrite IH.
Qed.

Lemma substring_skip (a b : string) (k : nat) :
  String.substring (String.length a) k (a +:+ b) = String.substring 0 k b.
Proof.
  induction a as [|x a IH]; [reflexivity |].
  rewrite append_cons. cbn [String.length String.substring]. exact IH.
Qed.

Lemma after_last_slash_none (s : string) (i last : nat) :
  PyStr.has_char "/" s = false -> PyStr.after_last_slash s i last = last.
Proof.
  revert i. induction s as [|c s IH]; intros i; [reflexivity |].
  cbn [PyStr.has_char PyStr.after_last_slash]. intros H.
  apply orb_false_elim in H as [Hc Hs]. rewrite Hc. now apply IH.
Qed.

Lemma after_last_slash_app (a b : string) (i last : nat) :
  PyStr.after_last_slash (a +:+ b) i last
  = PyStr.after_last_slash b (i + String.length a)
      (PyStr.after_last_slash a i last).
Proof.
  revert i last. induction a as [|x a IH]; intros i last.
  - rewrite append_nil_l. cbn. now rewrite Nat.add_0_r.
  - rewrite append_cons. cbn [PyStr.after_last_slash String.length].
    rewrite IH. now rewrite Nat.add_succ_comm.
Qed.

Lemma all_slashes_app (a b : string) :
  PyStr.all_slashes (a +:+ b) = PyStr.all_slashes a && PyStr.all_slashes b.
Proof.
  induction a as [|x a IH]; [reflexivity |].
  rewrite append_cons. cbn [PyStr.all_slashes].
  now rewrite IH, andb_assoc.
Qed.

Lemma rstrip_slashes_slash (dir : string) (c : ascii) :
  Ascii.eqb c "/" = false ->
  PyStr.rstrip_slashes ((dir +:+ String c "") +:+ "/") = dir +:+ String c "".
Proof.
  intros Hc. induction dir as [|x dir IH].
  - rewrite append_nil_l, append_cons, append_nil_l.
    cbn [PyStr.rstrip_slashes PyStr.all_slashes]. rewrite Hc. cbn.
    reflexivity.
  - rewrite !append_cons.
    change (PyStr.rstrip_slashes (String x ((dir +:+ String c "") +:+ "/")))
      with (if PyStr.all_slashes (String x ((dir +:+ String c "") +:+ "/"))
            then ""
            else String x (PyStr.rstrip_slashes ((dir +:+ String c "") +:+ "/"))).
    rewrite IH.
    assert (Ha : PyStr.all_slashes (String x ((dir +:+ String c "") +:+ "/"))
                 = false).
    { cbn [PyStr.all_slashes]. rewrite !all_slashes_app.
      cbn [PyStr.all_slashes]. rewrite Hc.
      now rewrite !andb_false_r. }
    now rewrite Ha.
Qed.

Lemma dirname_no_slash (p : string) :
  PyStr.has_char "/" p = false -> PyStr.dirname p = "".
Proof.
  intros H. unfold PyStr.dirname. rewrite (after_last_slash_none p 0 0 H).
  now rewrite substring_0_0.
Qed.

Lemma dirname_parent (dir name : string) (c : ascii) :
  Ascii.eqb c "/" = false ->
  PyStr.has_char "/" name = false ->
  PyStr.dirname ((dir +:+ String c "") +:+ String "/" name)
  = dir +:+ String c "".
Proof.
  intros Hc Hn. unfold PyStr.dirname.
  set (parent := dir +:+ String c "").
  assert (Hi : PyStr.after_last_slash (parent +:+ String "/" name) 0 0
               = String.length parent + 1).
  { rewrite after_last_slash_app. cbn [PyStr.after_last_slash Nat.add].
    rewrite Ascii.eqb_refl, after_last_slash_none by exact Hn. lia. }
  rewrite Hi, substring_prefix.
  cbn [String.substring]. rewrite substring_0_0.
  assert (Hne : String.eqb (parent +:+ "/") "" = false).
  { unfold parent. destruct dir; reflexivity. }
  assert (Ha : PyStr.all_slashes (parent +:+ "/") = false).
  { unfold parent. rewrite !all_slashes_app. cbn [PyStr.all_slashes].
    rewrite Hc. now rewrite !andb_false_r. }
  rewrite Hne, Ha. cbn [negb andb]. now apply rstrip_slashes_slash.
Qed.

Lemma path_join_parent (dir file : string) (c : ascii) :
  Ascii.eqb c "/" = false ->
  PyStr.path_join (dir +:+ String c "") file
  = (dir +:+ String c "") +:+ "/" +:+ file.
Proof.
  intros Hc. unfold PyStr.path_join, PyStr.endswith.
  assert (Hne : String.eqb (dir +:+ String c "") "" = false)
    by (destruct dir; reflexivity).
  rewrite Hne, length_append. cbn [String.length].
  replace (String.length dir + 1 - 1) with (String.length dir) by lia.
  rewrite substring_skip. cbn [String.substring String.eqb]. rewrite Hc.
  now rewrite andb_false_r.
Qed.

(** X7.  The migration script goes to the directory that holds the database
    directory.  For a database path [parent/name], where [parent] does
    not end in a slash and [name] holds no slash, the file is
    [parent/chroma_migration.sql]; [name] may be empty, so a path with a
    slash at its end puts the script into the database directory itself.
    For a path with no slash at all the file is [chroma_migration.sql] in
    the working directory. *)
Theorem script_goes_beside_the_database_directory (dir name : string)
    (c : ascii) :
  Ascii.eqb c "/" = false ->
  PyStr.has_char "/" name = false ->
  let parent := dir +:+ String c "" in
  script_path_of (parent +:+ "/" +:+ name) = parent +:+ "/chroma_migration.sql" /\
  script_path_of name = "chroma_migration.sql".
Proof.
  intros Hc Hn parent. subst parent. unfold script_path_of. split.
  - change ("/" +:+ name) with (String "/" name).
    rewrite (dirname_parent dir name c Hc Hn).
    apply (path_join_parent dir "chroma_migration.sql" c Hc).
  - now rewrite (dirname_no_slash name Hn).
Qed.

(** ** Computations that keep the heap, and what they return *)

Lemma keeps_heap_ret {A : Type} (a : A) : keeps_heap (ret a).
Proof. intros h. reflexivity. Qed.

Lemma keeps_heap_lift {A : Type} (r : res A) : keeps_heap (lift r).
Proof. intros h. reflexivity. Qed.

Lemma keeps_heap_emit (e : event) : keeps_heap (emit e).
Proof. intros h. reflexivity. Qed.

Lemma keeps_heap_bind {A B : Type} (m : M A) (k : A -> M B) :
  keeps_heap m -> (forall a, keeps_heap (k a)) -> keeps_heap (bind m k).
Proof.
  intros Hm Hk h. unfold bind. specialize (Hm h).
  destruct (m h) as [[[a|e] h1] t1]; cbn [fst snd] in *; [|exact Hm].
  subst h1. specialize (Hk a h). now destruct (k a h) as [[r2 h2] t2].
Qed.

Lemma keeps_heap_attempt {A : Type} (m : M A) :
  keeps_heap m -> keeps_heap (attempt m).
Proof.
  intros Hm h. unfold attempt. specialize (Hm h).
  now destruct (m h) as [[r h1] t1].
Qed.

Lemma keeps_heap_catch_kind {A : Type} (kind : string) (m : M A)
    (handler : exn -> M A) :
  keeps_heap m -> (forall e, keeps_heap (handler e)) ->
  keeps_heap (catch_kind kind m handler).
Proof.
  intros Hm Hh. unfold catch_kind. apply keeps_heap_bind.
  - now apply keeps_heap_attempt.
  - intros [a|e]; [apply keeps_heap_ret |].
    destruct (String.eqb (exn_kind e) kind); [apply Hh | apply keeps_heap_lift].
Qed.

Lemma keeps_heap_for_each {A : Type} (xs : list A) (body : A -> M unit) :
  (forall x, keeps_heap (body x)) -> keeps_heap (for_each xs body).
Proof.
  intros Hb. induction xs as [|x xs IH]; [apply keeps_heap_ret |].
  cbn [for_each]. apply keeps_heap_bind; [apply Hb | intros _; exact IH].
Qed.

Ltac keeps_heap_step :=
  lazymatch goal with
  | |- keeps_heap (bind _ _) => apply keeps_heap_bind; [| intros ?]
  | |- keeps_heap (ret _) => apply keeps_heap_ret
  | |- keeps_heap (lift _) => apply keeps_heap_lift
  | |- keeps_heap (raise _) => apply keeps_heap_lift
  | |- keeps_heap (attempt _) => apply keeps_heap_attempt
  | |- keeps_heap (catch_kind _ _ _) => apply keeps_heap_catch_kind; [| intros ?]
  | |- keeps_heap (for_each _ _) => apply keeps_heap_for_each; intros ?
  | |- keeps_heap (emit _) => apply keeps_heap_emit
  | |- keeps_heap (print _) => apply keeps_heap_emit
  | |- keeps_heap (sqlite3_close _) => apply keeps_heap_emit
  | |- keeps_heap (os_path_exists _) => unfold os_path_exists
  | |- keeps_heap (os_listdir _) => unfold os_listdir
  | |- keeps_heap (os_path_isfile _) => unfold os_path_isfile
  | |- keeps_heap (os_path_getsize _) => unfold os_path_getsize
  | |- keeps_heap (sqlite3_connect _) => unfold sqlite3_connect
  | |- keeps_heap (json_loads _) => unfold json_loads
  | |- keeps_heap (PersistentClient _) => unfold PersistentClient
  | |- keeps_heap (list_collections _) => unfold list_collections
  | |- keeps_heap (shutil_copytree _ _) => unfold shutil_copytree
  | |- keeps_heap (write_file _ _) => unfold write_file
  | |- keeps_heap (if ?b then _ else _) => destruct b
  | |- keeps_heap (match ?x with _ => _ end) => destruct x
  end.

Lemma yields_ret {A : Type} (a : A) (post : A -> Prop) :
  post a -> yields (ret a) post.
Proof. intros Ha h. now exists a, []. Qed.

Lemma yields_emit (e : event) (post : unit -> Prop) :
  post tt -> yields (emit e) post.
Proof. intros Ha h. now exists tt, [e]. Qed.

Lemma yields_bind {A B : Type} (m : M A) (k : A -> M B) (P : A -> Prop)
    (Q : B -> Prop) :
  yields m P -> (forall a, P a -> yields (k a) Q) -> yields (bind m k) Q.
Proof.
  intros Hm Hk h. destruct (Hm h) as (a & t1 & Hrun & Ha).
  destruct (Hk a Ha h) as (b & t2 & Hrun2 & Hb).
  exists b, (t1 ++ t2). unfold bind. now rewrite Hrun, Hrun2.
Qed.

Lemma yields_for_each {A : Type} (xs : list A) (body : A -> M unit) :
  Forall (fun x => yields (body x) (fun _ => True)) xs ->
  yields (for_each xs body) (fun _ => True).
Proof.
  induction 1 as [|x xs Hx _ IH]; [now apply yields_ret |].
  cbn [for_each]. eapply yields_bind; [exact Hx | intros _ _; exact IH].
Qed.

Lemma yields_post {A : Type} (m : M A) (post : A -> Prop) h a h' t :
  yields m post -> m h = (Ok a, h', t) -> post a /\ h' = h.
Proof.
  intros Hm Hrun. destruct (Hm h) as (a' & t' & Hrun' & Ha).
  rewrite Hrun in Hrun'. now injection Hrun' as -> -> _.
Qed.

(** ** A connection is closed last, or not at all *)

Lemma closes_last_close {W : World} (p : string) :
  closes_last p (sqlite3_close p).
Proof.
  intros h. cbn. split; [reflexivity |]. exists []. split; [reflexivity | constructor].
Qed.

Lemma closes_last_bind {A B : Type} (p : string) (m : M A) (k : A -> M B) :
  keeps_heap m -> only_does closes_nothing m ->
  (forall a, closes_last p (k a)) ->
  closes_last p (bind m k).
Proof.
  intros Hh Ht Hk h. unfold bind. specialize (Hh h). specialize (Ht h).
  destruct (m h) as [[[a|e] h1] t1]; cbn [fst snd] in *; subst h1.
  2: { split; [reflexivity | exact Ht]. }
  specialize (Hk a h). destruct (k a h) as [[[b|e] h2] t2].
  - destruct Hk as (-> & t0 & -> & H0). split; [reflexivity |].
    exists (t1 ++ t0). split; [now rewrite app_assoc |].
    apply Forall_app. now split.
  - destruct Hk as (-> & H0). split; [reflexivity |].
    apply Forall_app. now split.
Qed.

Section Inspection.
Context {W : World}.
Import PyStr.

Lemma show_sample_row_keeps_heap (r : row) : keeps_heap (show_sample_row r).
Proof. unfold show_sample_row. repeat keeps_heap_step. Qed.

Lemma show_sample_row_only_does (allowed : event -> Prop) (r : row) :
  (forall s, allowed (Print s)) -> (forall s, allowed (JsonLoads s)) ->
  only_does allowed (show_sample_row r).
Proof. intros Hp Hj. unfold show_sample_row. repeat only_does_step; auto. Qed.

Lemma analyze_sqlite_structure_run (sqlite_path : string) (h : heap) :
  exists t0,
    (analyze_sqlite_structure sqlite_path h
       = (Ok tt, h, t0 ++ [SqliteClose sqlite_path]) \/
     exists e,
       analyze_sqlite_structure sqlite_path h
         = (Ok tt, h, t0 ++ [Print (sqlite_error_line e)])) /\
    Forall closes_nothing t0.
Proof.
  unfold analyze_sqlite_structure.
  match goal with
  | |- context [attempt ?body] => remember body as inspect eqn:Einspect
  end.
  assert (Hbody : closes_last sqlite_path inspect).
  { subst inspect.
    repeat first
      [ apply closes_last_close
      | apply closes_last_bind;
        [ repeat first [ apply show_sample_row_keeps_heap | keeps_heap_step ]
        | repeat first
            [ apply show_sample_row_only_does; intros; exact I
            | only_does_step ]; exact I
        | intros ? ] ]. }
  clear Einspect. specialize (Hbody h). unfold bind, attempt.
  destruct (inspect h) as [[[[]|e] h1] t1].
  - destruct Hbody as (-> & t0 & -> & H0). exists t0. split; [|exact H0].
    left. cbn. now rewrite app_nil_r.
  - destruct Hbody as (-> & H0). exists t1. split; [|exact H0].
    right. exists e. reflexivity.
Qed.

Lemma analyze_sqlite_structure_only_does (sqlite_path : string) :
  only_does (inspection_event sqlite_path)
    (analyze_sqlite_structure sqlite_path).
Proof.
  unfold analyze_sqlite_structure.
  repeat first
    [ apply show_sample_row_only_does; intros; exact I
    | only_does_step ];
    cbn; auto 10.
Qed.

End Inspection.


(** ** The analysis of the database directory *)

Section Directory.
Context {W : World}.
Import PyStr.

Lemma yields_print (s : string) : yields (print s) (fun _ => True).
Proof. now apply yields_emit. Qed.

Lemma os_path_exists_yields (p : string) :
  yields (os_path_exists p) (fun b => b = w_path_exists p).
Proof. intros h. now exists (w_path_exists p), [PathExists p]. Qed.

Lemma os_listdir_yields (p : string) (items : list string) :
  w_listdir p = Ok items -> yields (os_listdir p) (fun l => l = items).
Proof.
  intros Hl h. exists items, [ListDir p].
  unfold os_listdir, bind, emit, lift. now rewrite Hl.
Qed.

Lemma show_items_yields (db_path : string) (items : list string) :
  sizes_known db_path items = true ->
  yields (for_each items (show_item db_path)) (fun _ => True).
Proof.
  intros Hs. apply yields_for_each. apply List.Forall_forall. intros item Hin.
  unfold sizes_known in Hs. rewrite forallb_forall in Hs.
  specialize (Hs item Hin). cbv zeta in Hs.
  intros h. unfold show_item, os_path_isfile, os_path_getsize, bind, emit,
    lift, ret, print. cbn.
  destruct (w_isfile (path_join db_path item)); cbn in *; [|eauto].
  destruct (w_getsize (path_join db_path item)); [cbn; eauto | discriminate].
Qed.

Lemma first_existing_yields (db_path : string) (candidates : list string) :
  yields (first_existing db_path candidates) (fun _ => True).
Proof.
  induction candidates as [|c rest IH]; [now apply yields_ret |].
  cbn [first_existing].
  eapply yields_bind; [apply os_path_exists_yields |].
  intros found _. destruct found; [now apply yields_ret | exact IH].
Qed.

Lemma analyze_sqlite_structure_yields (sqlite_path : string) :
  yields (analyze_sqlite_structure sqlite_path) (fun _ => True).
Proof.
  intros h.
  destruct (analyze_sqlite_structure_run sqlite_path h)
    as (t0 & [Hrun|[e Hrun]] & _); eauto.
Qed.

Lemma PersistentClient_attempt (a : client_args) :
  yields (attempt (PersistentClient a)) (fun r => r = w_client_open a).
Proof.
  intros h. unfold attempt, PersistentClient, bind, emit, lift.
  destruct (w_client_open a); cbn; eauto.
Qed.

Lemma list_collections_attempt (c : client)
    (count : nat -> string) (line : collection -> string) :
  yields
    (attempt
       (collections <- list_collections c ;;
        print (count (length collections)) ;;
        for_each collections (fun collection => print (line collection))))
    (fun r => match w_list_collections c with
              | Ok _ => r = Ok tt
              | Raise e => r = Raise e
              end).
Proof.
  intros h. unfold attempt, list_collections, bind, emit, lift.
  destruct (w_list_collections c) as [cols|e]; cbn; [|eauto].
  change (print ?s h) with (Ok tt, h, [Print s]). cbv beta iota.
  rewrite for_each_print. eauto.
Qed.

Lemma analyze_chroma_database_yields (db_path : string)
    (items : list string) :
  w_path_exists db_path = true ->
  w_listdir db_path = Ok items ->
  sizes_known db_path items = true ->
  yields (analyze_chroma_database db_path)
    (fun b => b = succeeds (PathOnly db_path)).
Proof.
  intros Hex Hls Hsz. unfold analyze_chroma_database.
  eapply yields_bind; [apply yields_print | intros _ _].
  eapply yields_bind; [apply yields_print | intros _ _].
  eapply yields_bind; [apply os_path_exists_yields | intros found ->].
  rewrite Hex. cbn [negb].
  eapply yields_bind; [apply yields_print | intros _ _].
  eapply yields_bind; [apply (os_listdir_yields _ _ Hls) | intros ? ->].
  eapply yields_bind; [apply (show_items_yields _ _ Hsz) | intros _ _].
  eapply yields_bind; [apply (os_listdir_yields _ _ Hls) | intros ? ->].
  eapply yields_bind; [apply yields_print | intros _ _].
  eapply yields_bind; [apply first_existing_yields | intros found _].
  eapply (yields_bind _ _ (fun _ => True)).
  { destruct found; [now apply yields_ret |].
    eapply yields_bind; [apply (os_listdir_yields _ _ Hls) | intros ? ->].
    now apply yields_ret. }
  intros chroma_db_path _.
  eapply (yields_bind _ _ (fun _ => True)).
  { destruct chroma_db_path; [|apply yields_print].
    eapply yields_bind; [apply yields_print | intros _ _].
    apply analyze_sqlite_structure_yields. }
  intros _ _.
  eapply yields_bind; [apply yields_print | intros _ _].
  eapply yields_bind; [apply PersistentClient_attempt | intros r ->].
  unfold succeeds, connect.
  destruct (w_client_open (PathOnly db_path)) as [c|e].
  - eapply yields_bind; [apply yields_print | intros _ _].
    eapply yields_bind.
    { apply (list_collections_attempt c
               (fun n => "✓ Successfully listed collections: " +:+ of_nat n
                         +:+ " found")
               (fun collection => "  - " +:+ col_name collection +:+ " (id: "
                                  +:+ col_id collection +:+ ")")). }
    intros r Hr. destruct (w_list_collections c) as [cols|e]; subst r.
    + now apply yields_ret.
    + eapply yields_bind; [apply yields_print | intros _ _].
      eapply yields_bind; [apply yields_print | intros _ _].
      now apply yields_ret.
  - eapply yields_bind; [apply yields_print | intros _ _].
    eapply yields_bind; [apply yields_print | intros _ _].
    now apply yields_ret.
Qed.

Lemma inspection_is_diagnostic (db_path sqlite_path : string) (e : event) :
  inspection_event sqlite_path e ->
  diagnostic_event db_path e /\ writes_nothing e.
Proof.
  destruct e; cbn; try tauto.
  - intros ->. split; [now exists sqlite_path | exact I].
  - intros He. split; [|exact I]. exists sqlite_path. exact He.
  - intros ->. split; [now exists sqlite_path | exact I].
Qed.

Lemma analyze_chroma_database_only_does (db_path : string) :
  only_does (fun e => diagnostic_event db_path e /\ writes_nothing e)
    (analyze_chroma_database db_path).
Proof.
  unfold analyze_chroma_database, show_item.
  cbn [first_existing].
  repeat first
    [ eapply only_does_weaken;
      [ apply (inspection_is_diagnostic db_path)
      | apply analyze_sqlite_structure_only_does ]
    | only_does_step ];
    cbn; auto.
Qed.

End Directory.

(** X9.  For a directory that exists and can be listed, the result of
    [analyze_chroma_database] is that of the client alone: [True] when
    the client opens on the path and lists its collections, [False]
    when it does not, whatever files the directory holds and whatever
    the inspection of the SQLite file found.  The function raises
    nothing and changes nothing on the file system. *)
Theorem directory_verdict_is_the_client_verdict {W : World}
    (db_path : string) (items : list string) (h : heap) :
  w_path_exists db_path = true ->
  w_listdir db_path = Ok items ->
  sizes_known db_path items = true ->
  exists t,
    analyze_chroma_database db_path h
      = (Ok (succeeds (PathOnly db_path)), h, t) /\
    Forall writes_nothing t.
Proof.
  intros Hex Hls Hsz.
  destruct (analyze_chroma_database_yields db_path items Hex Hls Hsz h)
    as (b & t & Hrun & ->).
  exists t. split; [exact Hrun |].
  pose proof (analyze_chroma_database_only_does db_path h) as Ht.
  rewrite Hrun in Ht. eapply Forall_impl; [exact Ht |]. now intros e [_ He].
Qed.

(** X10.  A directory that exists and cannot be listed (a plain file, a
    directory without read permission) ends the diagnostic with the
    exception of the listing: [analyze_chroma_database] does not catch
    it, and neither does [main], which prints no recommendation. *)
Theorem a_directory_that_cannot_be_listed_ends_the_diagnostic {W : World}
    (prog db_path : string) (more : list string) (e : exn) (h : heap) :
  w_path_exists db_path = true ->
  w_listdir db_path = Raise e ->
  let analysis :=
    [ Print ("=== Analyzing ChromaDB at: " +:+ db_path +:+ " ===");
      Print ("ChromaDB version: " +:+ chromadb_version);
      PathExists db_path;
      Print (PyStr.nl +:+ "Database files:");
      ListDir db_path ] in
  analyze_chroma_database db_path h = (Raise e, h, analysis) /\
  diagnostic_main (prog :: db_path :: more) h
    = (Raise e, h,
       Print "ChromaDB Database Diagnostic Tool"
       :: Print (PyStr.repeat_str "=" 50) :: analysis).
Proof.
  intros Hex Hls analysis.
  assert (Hrun : analyze_chroma_database db_path h = (Raise e, h, analysis)).
  { unfold analyze_chroma_database, os_path_exists, os_listdir, bind, emit,
      lift, ret.
    change (print ?s h) with (Ok tt, h, [Print s]). cbv beta iota.
    rewrite Hex. cbn [negb].
    change (print ?s h) with (Ok tt, h, [Print s]). cbv beta iota.
    rewrite Hls. reflexivity. }
  split; [exact Hrun |].
  unfold diagnostic_main, bind.
  do 2 (change (print ?s h) with (Ok tt, h, [Print s]); cbv beta iota).
  rewrite Hrun. reflexivity.
Qed.

Lemma last_two {A : Type} (l : list A) (a b : A) : last (l ++ [a; b]) = Some b.
Proof.
  change (l ++ [a; b]) with (l ++ [a] ++ [b]). rewrite app_assoc.
  apply last_snoc.
Qed.

Section Verdict.
Context {W : World}.
Import PyStr.

Lemma diagnostic_main_unfold (prog db_path : string) (more : list string)
    (h : heap) (b : bool) (t1 : list event) :
  analyze_chroma_database db_path h = (Ok b, h, t1) ->
  diagnostic_main (prog :: db_path :: more) h =
    if b then
      (Ok tt, h,
       [ Print "ChromaDB Database Diagnostic Tool";
         Print (repeat_str "=" 50) ]
       ++ t1
       ++ [ Print (nl +:+ "=== Recommendations ===");
            Print "✓ Database appears to be compatible with current ChromaDB version" ])
    else
      let '(r, h2, t2) := test_database_migration db_path h in
      match r with
      | Ok _ =>
          (Ok tt, h2,
           [ Print "ChromaDB Database Diagnostic Tool";
             Print (repeat_str "=" 50) ]
           ++ t1
           ++ [ Print (nl +:+ "=== Attempting Migration/Repair ===") ]
           ++ t2
           ++ Print (nl +:+ "=== Recommendations ===")
              :: map Print issues_lines)
      | Raise e =>
          (Raise e, h2,
           [ Print "ChromaDB Database Diagnostic Tool";
             Print (repeat_str "=" 50) ]
           ++ t1
           ++ [ Print (nl +:+ "=== Attempting Migration/Repair ===") ]
           ++ t2)
      end.
Proof.
  intros Hrun. unfold diagnostic_main, bind.
  do 2 (change (print ?s h) with (Ok tt, h, [Print s]); cbv beta iota).
  rewrite Hrun. destruct b; cbn [negb].
  - unfold ret, print, emit. cbn.
    repeat (rewrite <- app_assoc || cbn [app]). reflexivity.
  - change (print ?s h) with (Ok tt, h, [Print s]). cbv beta iota.
    destruct (test_database_migration db_path h) as [[[b2|e] h2] t2].
    + unfold ret, print, emit. cbn.
      repeat (rewrite <- app_assoc || cbn [app]). reflexivity.
    + cbn. repeat (rewrite <- app_assoc || cbn [app]). reflexivity.
Qed.

End Verdict.

(** X11.  A database the client opens is left as it is by the diagnostic: for
    a directory that exists and can be listed and whose client opens and
    lists its collections, [main] does not enter the migration test, so
    it makes no backup copy and writes nothing, and its last line says
    that the database is compatible. *)
Theorem a_database_that_opens_is_not_copied {W : World}
    (prog db_path : string) (more items : list string) (h : heap) :
  w_path_exists db_path = true ->
  w_listdir db_path = Ok items ->
  sizes_known db_path items = true ->
  succeeds (PathOnly db_path) = true ->
  exists t,
    diagnostic_main (prog :: db_path :: more) h = (Ok tt, h, t) /\
    Forall writes_nothing t /\
    last t = Some (Print "✓ Database appears to be compatible with current ChromaDB version").
Proof.
  intros Hex Hls Hsz Hok.
  destruct (analyze_chroma_database_yields db_path items Hex Hls Hsz h)
    as (b & t1 & Hrun & ->).
  pose proof (analyze_chroma_database_only_does db_path h) as Ht.
  rewrite Hrun in Ht. cbn [snd] in Ht.
  rewrite (diagnostic_main_unfold prog db_path more h _ t1 Hrun), Hok.
  eexists. split; [reflexivity |]. split.
  - repeat (apply Forall_cons; split; [exact I |]).
    apply Forall_app. split.
    + eapply Forall_impl; [exact Ht |]. now intros e [_ He].
    + repeat constructor.
  - rewrite app_assoc. apply last_two.
Qed.

(** X12.  The last lines of the diagnostic follow the analysis alone.  When
    the client does not open on a directory that exists and can be
    listed, [main] runs the migration test, whose result is that of the
    second way of opening the client, and then prints that the database
    has compatibility issues, whether the migration test succeeded or
    not. *)
Theorem the_verdict_ignores_the_migration_test {W : World}
    (prog db_path : string) (more items : list string) (h : heap) :
  w_path_exists db_path = true ->
  w_listdir db_path = Ok items ->
  sizes_known db_path items = true ->
  succeeds (PathOnly db_path) = false ->
  w_path_exists (db_path +:+ "_backup") = true \/
  w_copytree db_path (db_path +:+ "_backup") = Ok tt ->
  exists t1 t2,
    test_database_migration db_path h
      = (Ok (succeeds (WithAllowReset db_path false)), h, t2) /\
    diagnostic_main (prog :: db_path :: more) h
      = (Ok tt, h,
         t1 ++ t2
         ++ Print (PyStr.nl +:+ "=== Recommendations ===") :: map Print issues_lines).
Proof.
  intros Hex Hls Hsz Hfail Hbackup.
  destruct (analyze_chroma_database_yields db_path items Hex Hls Hsz h)
    as (b & t1 & Hrun & ->).
  destruct (test_database_migration_run db_path h Hbackup)
    as (b & t2 & pre & _ & Htest & _ & Hloop & _).
  assert (Hb : b = succeeds (WithAllowReset db_path false)).
  { apply first_success_run_verdict in Hloop. unfold configs_of in Hloop.
    destruct b, (succeeds (WithAllowReset db_path false)) eqn:Hs;
      try reflexivity.
    - destruct Hloop as [_ Hl]. exfalso.
      assert (true = false); [|discriminate].
      apply Hl. repeat constructor; assumption.
    - destruct Hloop as [Hl _]. specialize (Hl eq_refl).
      apply Forall_cons in Hl as [_ Hl]. apply Forall_cons in Hl as [Hl _].
      cbn in Hl. congruence. }
  subst b.
  rewrite (diagnostic_main_unfold prog db_path more h _ t1 Hrun), Hfail, Htest.
  eexists (_ :: _ :: t1 ++ [_]), t2. split; [reflexivity |].
  cbn. repeat (rewrite <- app_assoc || cbn [app]). reflexivity.
Qed.

Section Effects.
Context {W : World}.
Import PyStr.

Lemma test_database_migration_only_does (db_path : string) :
  only_does (migration_test_event db_path) (test_database_migration db_path).
Proof.
  unfold test_database_migration.
  apply only_does_bind; [apply only_does_emit; reflexivity | intros _].
  eapply only_does_bind_post
    with (post := fun b => b = w_path_exists (db_path +:+ "_backup")).
  { unfold os_path_exists. repeat only_does_step. reflexivity. }
  { intros h b h' t Hrun.
    apply (yields_post _ _ _ _ _ _ (os_path_exists_yields _) Hrun). }
  intros backed_up Hb.
  apply only_does_bind.
  { destruct backed_up; cbn [negb]; [apply only_does_ret |].
    repeat only_does_step; cbn; auto. }
  intros _.
  eapply only_does_bind_post with (post := fun r => exists b, r = Ok b).
  { apply only_does_attempt. unfold configs_of. cbn [try_configs].
    repeat only_does_step; cbn; auto. }
  { intros h r h' t Hrun. unfold attempt in Hrun.
    destruct (try_configs_run (configs_of db_path) 0 h) as (b & t' & Hrun' & _).
    rewrite Hrun' in Hrun. injection Hrun as <- _ _. eauto. }
  intros r [b ->]. destruct b; apply only_does_ret.
Qed.

Lemma migration_test_is_diagnostic (db_path : string) (e : event) :
  migration_test_event db_path e -> diagnostic_event db_path e.
Proof. destruct e; cbn; tauto. Qed.

Lemma diagnostic_main_only_does (prog db_path : string) (more : list string) :
  only_does (diagnostic_event db_path) (diagnostic_main (prog :: db_path :: more)).
Proof.
  unfold diagnostic_main.
  repeat first
    [ eapply only_does_weaken;
      [ | apply analyze_chroma_database_only_does ];
      [ intros e [He _]; exact He ]
    | eapply only_does_weaken;
      [ apply (migration_test_is_diagnostic db_path)
      | apply test_database_migration_only_does ]
    | only_does_step ];
    exact I.
Qed.

End Effects.

(** X13.  All a run of [chroma_diagnostic.py] on a path does: print, ask
    whether paths exist, list the directory and ask for the kind and
    size of its entries, open a SQLite file and run on it the three
    read-only queries of the inspection, decode texts, open a client on
    the path in one of two ways and list its collections, and copy the
    directory to the path with [_backup] added.  It writes no file and
    runs no other statement. *)
Theorem the_diagnostic_only_reads_and_backs_up {W : World}
    (prog db_path : string) (more : list string) (h : heap) :
  Forall (diagnostic_event db_path)
    (snd (diagnostic_main (prog :: db_path :: more) h)).
Proof. apply diagnostic_main_only_does. Qed.

(** X14.  [test_database_migration] copies the directory only when nothing
    is at the backup path, so a backup in place is never replaced; the
    clients it opens are on the path it is given; and the line of its
    outer handler, "Migration test failed", is never printed: the loop
    catches every exception of a client itself. *)
Theorem the_migration_test_keeps_a_backup_in_place {W : World}
    (db_path : string) (h : heap) :
  Forall (migration_test_event db_path)
    (snd (test_database_migration db_path h)).
Proof. apply test_database_migration_only_does. Qed.

(** ** The runs of chroma_version_analysis.py *)

Section VersionRuns.
Context {W : World}.
Import PyStr.

Lemma migrate_entries_only_does (allowed : event -> Prop) (es : list entry)
    (script : string) :
  only_does allowed (migrate_entries es script).
Proof.
  revert script. induction es as [|e es IH]; intros script.
  - apply only_does_ret.
  - cbn [migrate_entries]. apply only_does_bind; [|intros s; apply IH].
    destruct e as [[cid name] [l|]]; cbn [migrate_entry];
      repeat only_does_step.
Qed.

Lemma version_analysis_main_only_does (prog db_path : string)
    (more : list string) :
  only_does (version_analysis_event db_path)
    (version_analysis_main (prog :: db_path :: more)).
Proof.
  unfold version_analysis_main, check_chromadb_version_info,
    test_chromadb_connection_with_fixes, approaches_of.
  cbn [try_approaches].
  repeat first
    [ eapply only_does_weaken;
      [ | apply analyze_configuration_error_only_does ];
      [ intros e He; right; left; exact He ]
    | lazymatch goal with
      | |- only_does _ (generate_migration_script _ (_ :: _)) =>
          unfold generate_migration_script
      | |- only_does _ (migrate_entries _ _) =>
          apply migrate_entries_only_does
      end
    | only_does_step ];
    try (left; cbn; now auto);
    try (right; right; reflexivity).
Qed.

Lemma analyze_rows_never_says_no_issues (rows : list row) (acc : list entry) :
  only_does (fun e => says_no_issues e = false) (analyze_rows rows acc).
Proof.
  revert acc. induction rows as [|r rows IH]; intros acc.
  - apply only_does_ret.
  - cbn [analyze_rows]. apply only_does_bind; [|intros a; apply IH].
    unfold analyze_row. repeat only_does_step; reflexivity.
Qed.

Lemma version_analysis_main_never_says_no_issues (argv : list string) :
  only_does (fun e => says_no_issues e = false) (version_analysis_main argv).
Proof.
  destruct argv as [|prog [|db_path more]];
    [apply only_does_emit; reflexivity .. |].
  unfold version_analysis_main, check_chromadb_version_info,
    test_chromadb_connection_with_fixes, approaches_of,
    analyze_configuration_error, select_collections.
  cbn [try_approaches first_existing].
  repeat first
    [ apply analyze_rows_never_says_no_issues
    | lazymatch goal with
      | |- only_does _ (generate_migration_script _ (_ :: _)) =>
          unfold generate_migration_script
      | |- only_does _ (migrate_entries _ _) =>
          apply migrate_entries_only_does
      end
    | only_does_step ];
    reflexivity.
Qed.

End VersionRuns.

(** X15.  All a run of [chroma_version_analysis.py] on a path does: print,
    ask whether the path and the two storage files below it exist, open
    a client on the path in one of two ways and list its collections,
    open and close a storage file and run one of the two SELECT
    statements on it, decode texts, and write the migration script to
    its one path.  It copies nothing, and the statements of the script
    are written to the file, never run. *)
Theorem the_version_analysis_writes_only_the_script {W : World}
    (prog db_path : string) (more : list string) (h : heap) :
  Forall (version_analysis_event db_path)
    (snd (version_analysis_main (prog :: db_path :: more) h)).
Proof. apply version_analysis_main_only_does. Qed.

(** X16.  No run of [chroma_version_analysis.py] prints the line
    "No configuration issues found!": [main] calls
    [generate_migration_script] with a list that is not empty, or not at
    all, so the branch of that function for the empty list is never
    taken. *)
Theorem no_issues_is_never_reported {W : World} (argv : list string)
    (h : heap) :
  Forall (fun e => e <> Print (PyStr.nl +:+ "✓ No configuration issues found!"))
    (snd (version_analysis_main argv h)).
Proof.
  eapply Forall_impl; [apply version_analysis_main_never_says_no_issues |].
  intros e He ->. discriminate He.
Qed.

Section VersionMain.
Context {W : World}.
Import PyStr.

Lemma test_chromadb_connection_with_fixes_only_does (db_path : string) :
  only_does (connection_test_event db_path)
    (test_chromadb_connection_with_fixes db_path).
Proof.
  unfold test_chromadb_connection_with_fixes, approaches_of.
  cbn [try_approaches]. repeat only_does_step; cbn; auto.
Qed.

(** The connection test on a path, by the two ways of opening the
    client. *)
Lemma connection_test_result (db_path : string) (h : heap) :
  exists t,
    test_chromadb_connection_with_fixes db_path h
      = (Ok (succeeds (PathOnly db_path)
             || succeeds (WithSettings db_path false)), h, t) /\
    Forall (connection_test_event db_path) t.
Proof.
  destruct (test_chromadb_connection_with_fixes_run db_path h)
    as (b & t & Hrun & Hloop).
  pose proof (test_chromadb_connection_with_fixes_only_does db_path h) as Ht.
  rewrite Hrun in Ht. exists t. split; [|exact Ht].
  rewrite Hrun. do 2 f_equal. f_equal.
  apply first_success_run_verdict in Hloop. unfold approaches_of in Hloop.
  destruct b.
  - destruct (succeeds (PathOnly db_path)) eqn:H1; [reflexivity |].
    destruct (succeeds (WithSettings db_path false)) eqn:H2; [reflexivity |].
    destruct Hloop as [_ Hl]. cbn. apply Hl.
    repeat constructor; assumption.
  - destruct Hloop as [Hl _]. specialize (Hl eq_refl).
    apply Forall_cons in Hl as [H1 Hl]. apply Forall_cons in Hl as [H2 _].
    cbn in H1, H2. now rewrite H1, H2.
Qed.

(** What [main] does before the connection test is through. *)
Lemma version_analysis_main_start (prog db_path : string)
    (more : list string) (h : heap) :
  w_path_exists db_path = true ->
  exists pre,
    Forall (connection_test_event db_path) pre /\
    version_analysis_main (prog :: db_path :: more) h =
      if succeeds (PathOnly db_path) || succeeds (WithSettings db_path false)
      then (Ok tt, h, pre)
      else
        let '(r1, h1, t1) :=
          analyze_configuration_error db_path (head more) h in
        match r1 with
        | Ok a =>
            let '(r2, h2, t2) :=
              match a with
              | AList ((_ :: _) as l) => generate_migration_script db_path l h1
              | _ => (Ok tt, h1, [])
              end in
            match r2 with
            | Ok _ =>
                (Ok tt, h2, pre ++ t1 ++ t2 ++ map Print recommendation_lines)
            | Raise e => (Raise e, h2, pre ++ t1 ++ t2)
            end
        | Raise e => (Raise e, h1, pre ++ t1)
        end.
Proof.
  intros Hex.
  destruct (check_chromadb_version_info_run h) as (lines & Hv).
  destruct (connection_test_result db_path h) as (tc & Hc & Htc).
  exists ([ Print "ChromaDB Version Compatibility Analysis";
            Print (repeat_str "=" 50) ]
          ++ map Print lines ++ [PathExists db_path] ++ tc).
  split.
  { repeat (apply Forall_cons; split; [exact I |]).
    apply Forall_app. split.
    - apply List.Forall_forall. intros e He.
      apply in_map_iff in He as (s & <- & _). exact I.
    - apply Forall_cons. split; [reflexivity | exact Htc]. }
  unfold version_analysis_main, bind.
  do 2 (change (print ?s h) with (Ok tt, h, [Print s]); cbv beta iota).
  rewrite Hv. unfold os_path_exists, bind, emit, ret. cbv beta iota.
  rewrite Hex. cbn [negb]. rewrite Hc.
  destruct (succeeds (PathOnly db_path) || succeeds (WithSettings db_path false));
    cbn [negb].
  { cbn. rewrite app_nil_r. repeat (rewrite <- app_assoc || cbn [app]).
    reflexivity. }
  destruct (analyze_configuration_error db_path (head more) h)
    as [[[a|e] h1] t1].
  2: { cbn. repeat (rewrite <- app_assoc || cbn [app]). reflexivity. }
  destruct a as [| |[|e0 l]].
  1-3: (cbn; repeat (rewrite <- app_assoc || cbn [app]); reflexivity).
  unfold bind.
  destruct (generate_migration_script db_path (e0 :: l) h1)
    as [[[[]|e] h2] t2].
  - cbn. repeat (rewrite <- app_assoc || cbn [app]). reflexivity.
  - cbn. repeat (rewrite <- app_assoc || cbn [app]). reflexivity.
Qed.

End VersionMain.

(** X17.  When the client opens on the path in one of the two ways, a run of
    [chroma_version_analysis.py] ends with the connection test: it opens
    no storage file, decodes nothing, writes no script and prints no
    recommendation. *)
Theorem a_database_that_opens_is_not_analysed {W : World}
    (prog db_path : string) (more : list string) (h : heap) :
  w_path_exists db_path = true ->
  succeeds (PathOnly db_path) = true \/
  succeeds (WithSettings db_path false) = true ->
  exists t,
    version_analysis_main (prog :: db_path :: more) h = (Ok tt, h, t) /\
    Forall (connection_test_event db_path) t.
Proof.
  intros Hex Hok.
  destruct (version_analysis_main_start prog db_path more h Hex)
    as (pre & Hpre & Hrun).
  assert (Hb : succeeds (PathOnly db_path)
               || succeeds (WithSettings db_path false) = true).
  { destruct Hok as [-> | ->]; [reflexivity | apply orb_true_r]. }
  rewrite Hb in Hrun. now exists pre.
Qed.

(** X18.  When the connection test fails and the analysis has nothing to
    repair, because neither storage file exists or because every row of
    the table has a dict with its '_type', a run of
    [chroma_version_analysis.py] writes no script, and its last lines
    are the recommendations all the same, the first of which is to apply
    the generated migration script. *)
Theorem the_script_is_recommended_when_none_is_written {W : World}
    (prog db_path : string) (more : list string) (h : heap) :
  w_path_exists db_path = true ->
  succeeds (PathOnly db_path) = false ->
  succeeds (WithSettings db_path false) = false ->
  storage_file db_path = None \/
  (exists rows,
     table_read db_path (head more) rows /\
     forallb analysable rows = true /\
     existsb needs_repair rows = false) ->
  exists h' t0,
    version_analysis_main (prog :: db_path :: more) h
      = (Ok tt, h',
         t0 ++ map Print
                 [ PyStr.nl +:+ "=== Recommendations ===";
                   "1. IMMEDIATE FIX: Apply the generated migration script";
                   "2. VERSION FIX: Consider upgrading ChromaDB:";
                   "   pip install 'chromadb>=1.0.7'";
                   "3. COMPATIBILITY: Ensure all ChromaDB clients use the same version";
                   "4. BACKUP: Always backup your database before applying migrations" ]) /\
    forall path text, ~ In (FileWrite path text) t0.
Proof.
  intros Hex H1 H2 Hnothing.
  destruct (version_analysis_main_start prog db_path more h Hex)
    as (pre & Hpre & Hrun).
  rewrite H1, H2 in Hrun. cbn [orb] in Hrun.
  destruct (analysis_outcome db_path (head more) h)
    as (a & h1 & t1 & Ha & Hcase).
  pose proof (analyze_configuration_error_only_does db_path (head more) h) as Ht1.
  rewrite Ha in Hrun, Ht1. cbn [snd] in Ht1.
  assert (Hempty : a = AFalse \/ a = AList []).
  { destruct Hnothing as [Hnone | (rows & Hread & Hall & Hno)].
    - left. destruct a as [| |es]; [reflexivity | |].
      + destruct Hcase as (p & _ & _ & Hp & _). congruence.
      + destruct Hcase as (p & _ & Hp & _). congruence.
    - right.
      destruct (analyze_rows_listing rows [] h Hall) as (es & hx & t & Hr & Hl).
      destruct (analyze_configuration_error_run db_path (head more) rows h
                  _ _ _ Hread Hr) as (t' & Hrun' & _).
      rewrite Ha in Hrun'. injection Hrun' as -> _ _.
      assert (Hf : List.filter needs_repair rows = []).
      { clear -Hno. induction rows as [|r rows IH]; [reflexivity |].
        cbn in *. apply orb_false_elim in Hno as [-> Hno]. auto. }
      rewrite Hf in Hl. apply Forall2_nil_inv_r in Hl. now rewrite Hl. }
  exists h1, (pre ++ t1). split.
  - rewrite Hrun. destruct Hempty as [-> | ->]; cbn;
      now rewrite <- app_assoc.
  - intros path text Hin. apply in_app_or in Hin as [Hin|Hin].
    + exact (Forall_not_In _ (FileWrite path text) _ Hpre id Hin).
    + exact (Forall_not_In _ (FileWrite path text) _ Ht1 id Hin).
Qed.

(** X19.  A migration script that cannot be written ends the run of
    [chroma_version_analysis.py]: the exception of the write is caught
    neither by [generate_migration_script] nor by [main], the write is
    the last thing the run does, and no recommendation is printed. *)
Theorem a_script_that_cannot_be_written_ends_the_run {W : World}
    (prog db_path : string) (more : list string) (rows : list row)
    (e : exn) (h : heap) :
  w_path_exists db_path = true ->
  succeeds (PathOnly db_path) = false ->
  succeeds (WithSettings db_path false) = false ->
  table_read db_path (head more) rows ->
  forallb analysable rows = true ->
  existsb needs_repair rows = true ->
  (forall text, w_file_write (script_path_of db_path) text = Raise e) ->
  exists h' t0 text,
    version_analysis_main (prog :: db_path :: more) h
      = (Raise e, h', t0 ++ [FileWrite (script_path_of db_path) text]).
Proof.
  intros Hex H1 H2 Hread Hall Hsome Hwrite.
  destruct (version_analysis_main_start prog db_path more h Hex)
    as (pre & Hpre & Hrun).
  rewrite H1, H2 in Hrun. cbn [orb] in Hrun.
  destruct (analyze_rows_listing rows [] h Hall) as (es & hx & t & Hr & Hl).
  destruct (analyze_rows_grows rows [] h _ _ _ (List.Forall_nil _) Hr)
    as (_ & _ & _ & _ & Hok).
  destruct (analyze_configuration_error_run db_path (head more) rows h
              _ _ _ Hread Hr) as (t1 & Ha & _).
  rewrite Ha in Hrun.
  assert (Hne : es <> []).
  { intros ->. apply Forall2_nil_inv_l in Hl. rename Hl into Hf.
    clear -Hsome Hf.
    induction rows as [|r rows IH]; [discriminate |].
    cbn in *. destruct (needs_repair r); [discriminate | auto]. }
  pose proof (generate_migration_script_run db_path es (h ++ hx) Hne Hok) as Hgen.
  cbv zeta in Hgen. rewrite Hwrite in Hgen.
  destruct es as [|e0 l]; [congruence |].
  cbn [app] in Hrun. rewrite Hgen in Hrun.
  eexists _, (pre ++ t1 ++ [_]), _. rewrite Hrun.
  repeat (rewrite <- app_assoc || cbn [app]). reflexivity.
Qed.

(** ** The version check *)

Lemma prefix_0_6_below_1_0_7 (v : string) :
  String.prefix "0.6" v = true -> String.leb "1.0.7" v = false.
Proof.
  destruct v as [|a v]; [discriminate |]. cbn [String.prefix].
  destruct (ascii_dec "0" a) as [<-|]; [|discriminate]. intros _. reflexivity.
Qed.

Lemma leb_ltb_false (a b : string) :
  String.leb a b = true -> String.ltb b a = false.
Proof.
  unfold String.leb, String.ltb. rewrite (String.compare_antisym b a).
  destruct (String.compare a b); cbn; congruence.
Qed.

(** X20.  A version from "1.0.7" on in the order of texts (1.0.7, 1.0.9,
    1.1.0, 2.0.0) is told to handle '_type' correctly, and gets neither
    warning: the check prints its heading, the version and that line,
    and returns the version. *)
Theorem a_version_from_1_0_7_on_is_accepted {W : World} (h : heap) :
  String.leb "1.0.7" chromadb_version = true ->
  check_chromadb_version_info h
  = (Ok chromadb_version, h,
     [ Print "=== ChromaDB Version Information ===";
       Print ("ChromaDB version: " +:+ chromadb_version);
       Print "✓ This version should handle '_type' configuration correctly" ]).
Proof.
  intros Hle. unfold check_chromadb_version_info, PyStr.startswith, bind, ret.
  change (print ?s h) with (Ok tt, h, [Print s]). cbv beta iota.
  destruct (String.prefix "0.6" chromadb_version) eqn:H06.
  { apply prefix_0_6_below_1_0_7 in H06. congruence. }
  rewrite (leb_ltb_false _ _ Hle), andb_false_r, Hle.
  change (print ?s h) with (Ok tt, h, [Print s]). reflexivity.
Qed.

(** X21.  The check compares versions as texts, so a version 1.0.N whose N
    starts with a digit below 7 is warned to upgrade to 1.0.7 or later:
    1.0.3, and also 1.0.10, 1.0.12 or 1.0.25, which are later than
    1.0.7. *)
Theorem a_later_patch_version_is_warned_too {W : World} (digit : ascii)
    (rest : string) (h : heap) :
  chromadb_version = "1.0." +:+ String digit rest ->
  Ascii.ltb digit "7" = true ->
  check_chromadb_version_info h
  = (Ok chromadb_version, h,
     [ Print "=== ChromaDB Version Information ===";
       Print ("ChromaDB version: " +:+ chromadb_version);
       Print "⚠️  WARNING: This version may have '_type' configuration issues";
       Print "   Recommended: Upgrade to version 1.0.7+" ]).
Proof.
  intros Hv Hd. unfold check_chromadb_version_info, PyStr.startswith, bind, ret.
  change (print ?s h) with (Ok tt, h, [Print s]). cbv beta iota.
  assert (H06 : String.prefix "0.6" chromadb_version = false)
    by (rewrite Hv; reflexivity).
  assert (H10 : String.prefix "1.0" chromadb_version = true)
    by (rewrite Hv; reflexivity).
  assert (Hlt : String.ltb chromadb_version "1.0.7" = true).
  { rewrite Hv. unfold String.ltb, Ascii.ltb in *.
    change (String.compare ("1.0." +:+ String digit rest) "1.0.7")
      with (match Ascii.compare digit "7" with
            | Eq => String.compare rest ""
            | Lt => Lt
            | Gt => Gt
            end).
    now destruct (Ascii.compare digit "7"). }
  rewrite H06, H10, Hlt. cbn [andb].
  do 2 (change (print ?s h) with (Ok tt, h, [Print s]); cbv beta iota).
  reflexivity.
Qed.

(** ** No path on the command line *)

(** X22.  Without a path argument both scripts print their usage and do
    nothing else: no banner, no version check, no question to the file
    system. *)
Theorem usage_is_all_without_a_path {W : World} (argv : list string)
    (h : heap) :
  length argv < 2 ->
  version_analysis_main argv h
    = (Ok tt, h,
       [ Print "Usage: python chroma_version_analysis.py <path_to_chroma_database> [collection_name]" ]) /\
  diagnostic_main argv h
    = (Ok tt, h,
       [ Print "Usage: python chroma_diagnostic.py <path_to_chroma_database>";
         Print "Example: python chroma_diagnostic.py C:/path/to/chroma_data" ]).
Proof.
  intros Hlen. destruct argv as [|prog [|db_path more]];
    [split; reflexivity .. |].
  cbn in Hlen. lia.
Qed.

(** ** The serialised JSON *)

Lemma json_induction (P : json -> Prop) :
  P JNull ->
  (forall b, P (JBool b)) ->
  (forall z, P (JInt z)) ->
  (forall text, P (JFloat text)) ->
  (forall s, P (JStr s)) ->
  (forall items, Forall P items -> P (JArr items)) ->
  (forall fields, Forall (fun kv => P (snd kv)) fields -> P (JObj fields)) ->
  forall j, P j.
Proof.
  intros Hnull Hbool Hint Hfloat Hstr Harr Hobj.
  fix IH 1. intros [| b | z | text | s | items | fields].
  - exact Hnull.
  - apply Hbool.
  - apply Hint.
  - apply Hfloat.
  - apply Hstr.
  - apply Harr. induction items as [|x items IHitems]; constructor.
    + apply IH.
    + exact IHitems.
  - apply Hobj. induction fields as [|[k v] fields IHfields]; constructor.
    + apply IH.
    + exact IHfields.
Qed.

Lemma has_char_app (q : ascii) (a b : string) :
  PyStr.has_char q (a +:+ b) = PyStr.has_char q a || PyStr.has_char q b.
Proof.
  induction a as [|x a IH]; [reflexivity |].
  rewrite append_cons. cbn [PyStr.has_char]. now rewrite IH, orb_assoc.
Qed.

Lemma has_char_join (q : ascii) (sep : string) (parts : list string) :
  PyStr.has_char q sep = false ->
  PyStr.has_char q (PyStr.join sep parts) = existsb (PyStr.has_char q) parts.
Proof.
  intros Hsep. induction parts as [|p parts IH]; [reflexivity |].
  destruct parts as [|p' parts].
  - cbn. now rewrite orb_false_r.
  - change (PyStr.join sep (p :: p' :: parts))
      with (p +:+ sep +:+ PyStr.join sep (p' :: parts)).
    rewrite !has_char_app, Hsep, IH. reflexivity.
Qed.

Lemma escape_char_quote (c : ascii) :
  PyStr.has_char PyStr.SQUOTE (Json.escape_char c) = Ascii.eqb c PyStr.SQUOTE.
Proof. destruct c as [[] [] [] [] [] [] [] []]; reflexivity. Qed.

Lemma escape_char_plain (c : ascii) :
  PyStr.has_char PyStr.LF (Json.escape_char c) = false.
Proof. destruct c as [[] [] [] [] [] [] [] []]; reflexivity. Qed.

Lemma escape_quote (s : string) :
  PyStr.has_char PyStr.SQUOTE (Json.escape s) = PyStr.has_char PyStr.SQUOTE s.
Proof.
  induction s as [|c s IH]; [reflexivity |].
  cbn [Json.escape PyStr.has_char].
  now rewrite has_char_app, escape_char_quote, IH.
Qed.

Lemma escape_plain (s : string) :
  PyStr.has_char PyStr.LF (Json.escape s) = false.
Proof.
  induction s as [|c s IH]; [reflexivity |].
  cbn [Json.escape]. now rewrite has_char_app, escape_char_plain, IH.
Qed.

Lemma number_text_has_no (q : ascii) (text : string) :
  number_char q = false ->
  all_chars number_char text = true ->
  PyStr.has_char q text = false.
Proof.
  intros Hq. induction text as [|c text IH]; [reflexivity |].
  cbn [all_chars PyStr.has_char]. intros H.
  apply andb_prop in H as [Hc Ht]. rewrite (IH Ht), orb_false_r.
  destruct (Ascii.eqb_spec c q) as [->|]; [congruence | reflexivity].
Qed.

Lemma string_of_uint_number (d : Decimal.uint) :
  all_chars number_char (NilEmpty.string_of_uint d) = true.
Proof. induction d; cbn; auto. Qed.

Lemma of_Z_number (z : Z) : all_chars number_char (PyStr.of_Z z) = true.
Proof.
  unfold PyStr.of_Z, NilZero.string_of_int, NilZero.string_of_uint.
  destruct (Z.to_int z) as [d|d]; destruct d; cbn;
    auto using string_of_uint_number.
Qed.

Section Serialised.
Variable q : ascii.
Variable g : string -> bool.
Hypothesis q_is_no_number_char : number_char q = false.
Hypothesis q_is_no_json_char :
  PyStr.has_char q ("[]{},: nulltruefalse" +:+ PyStr.dq) = false.
Hypothesis q_in_escaped :
  forall s, PyStr.has_char q (Json.escape s) = g s.

Lemma has_char_encode_str (s : string) :
  PyStr.has_char q (Json.encode_str s) = g s.
Proof.
  unfold Json.encode_str. rewrite !has_char_app, q_in_escaped.
  assert (Hdq : PyStr.has_char q PyStr.dq = false).
  { revert q_is_no_json_char. rewrite has_char_app. intros H.
    now apply orb_false_elim in H as [_ H]. }
  now rewrite Hdq, orb_false_r.
Qed.

Lemma has_char_literal (s : string) :
  all_chars (fun c => PyStr.has_char c "[]{},: nulltruefalse") s = true ->
  PyStr.has_char q s = false.
Proof.
  induction s as [|c s IH]; [reflexivity |].
  cbn [all_chars]. intros H. apply andb_prop in H as [Hc Hs].
  change (PyStr.has_char q (String c s))
    with (Ascii.eqb c q || PyStr.has_char q s).
  rewrite (IH Hs), orb_false_r.
  destruct (Ascii.eqb_spec c q) as [->|]; [|reflexivity].
  revert q_is_no_json_char. rewrite has_char_app, Hc. discriminate.
Qed.

Lemma has_char_encode (j : json) :
  floats_are_numbers j = true ->
  forall level,
    PyStr.has_char q (Json.encode None level j) = occurs g j.
Proof.
  induction j as [| b | z | text | s | items IH | fields IH]
    using json_induction; intros Hf level.
  - now apply has_char_literal.
  - destruct b; now apply has_char_literal.
  - cbn [Json.encode occurs].
    apply number_text_has_no; [assumption | apply of_Z_number].
  - cbn [Json.encode occurs]. now apply number_text_has_no.
  - cbn [Json.encode occurs]. apply has_char_encode_str.
  - destruct items as [|x items]; [now apply has_char_literal |].
    cbn [Json.encode occurs]. remember (x :: items) as l eqn:El.
    rewrite !has_char_app, has_char_join by now apply has_char_literal.
    rewrite !has_char_literal by reflexivity.
    rewrite orb_false_r. cbn [orb]. clear El.
    cbn [floats_are_numbers] in Hf.
    induction IH as [|y l Hy _ IHl]; [reflexivity |].
    cbn [forallb] in Hf. apply andb_prop in Hf as [Hfy Hfl].
    cbn [map existsb]. now rewrite (Hy Hfy), (IHl Hfl).
  - destruct fields as [|x fields]; [now apply has_char_literal |].
    cbn [Json.encode occurs]. remember (x :: fields) as l eqn:El.
    rewrite !has_char_app, has_char_join by now apply has_char_literal.
    rewrite !has_char_literal by reflexivity.
    rewrite orb_false_r. cbn [orb]. clear El.
    cbn [floats_are_numbers] in Hf.
    induction IH as [|[k v] l Hy _ IHl]; [reflexivity |].
    cbn [forallb] in Hf. apply andb_prop in Hf as [Hfy Hfl].
    cbn [map existsb fst snd] in *.
    rewrite !has_char_app, has_char_encode_str, (Hy Hfy), (IHl Hfl).
    now rewrite has_char_literal by reflexivity.
Qed.

End Serialised.

Lemma occurs_never (j : json) : occurs (fun _ => false) j = false.
Proof.
  induction j as [| b | z | text | s | items IH | fields IH]
    using json_induction; try reflexivity.
  - cbn [occurs]. induction IH as [|y l Hy _ IHl]; [reflexivity |].
    cbn [existsb]. now rewrite Hy, IHl.
  - cbn [occurs]. induction IH as [|[k v] l Hy _ IHl]; [reflexivity |].
    cbn [existsb fst snd] in *. now rewrite Hy, IHl.
Qed.

(** X23.  The text [json.dumps] writes for a configuration holds no line
    break, so the SET line of its UPDATE statement is one line whatever
    the configuration holds; and it holds a single quote exactly when a
    key or a text of the configuration does, which is when the SQL
    literal around it ends early. *)
Theorem serialised_json_is_one_line (j : json) :
  floats_are_numbers j = true ->
  plain (Json.dumps j) = true /\
  PyStr.has_char PyStr.SQUOTE (Json.dumps j) = has_quote j.
Proof.
  intros Hf. unfold plain, Json.dumps, has_quote. split.
  - rewrite (has_char_encode PyStr.LF (fun _ => false)); try reflexivity.
    + now rewrite occurs_never.
    + apply escape_plain.
    + exact Hf.
  - apply has_char_encode; try reflexivity; [apply escape_quote | exact Hf].
Qed.

(** ** The instructions after the script *)

Section Instructions.
Context {W : World}.
Import PyStr.

(** A list the analysis returns is that of its row loop. *)
Lemma analysis_list_from_rows (db_path : string)
    (collection_name : option string) (h : heap) es h1 t1 :
  analyze_configuration_error db_path collection_name h
    = (Ok (AList es), h1, t1) ->
  exists rows t, analyze_rows rows [] h = (Ok es, h1, t).
Proof.
  destruct (first_existing_storage db_path h) as (tf & Hf & _).
  unfold analyze_configuration_error.
  unfold bind at 1. unfold print at 1, emit at 1.
  rewrite (bind_run _ _ _ _ _ _ Hf).
  destruct (storage_file db_path) as [p|].
  2: { unfold bind, emit, print, ret. cbn. discriminate. }
  destruct (select_collections_run p collection_name h) as (sql & params & Hs).
  unfold bind at 1. unfold print at 1, emit at 1.
  unfold attempt, sqlite3_connect, sqlite3_close.
  unfold bind, emit, lift, print, ret.
  destruct (w_sqlite_connect p) as [[]|e]; cbn; [|discriminate].
  rewrite Hs.
  destruct (w_sqlite_collections p (name_filter collection_name)) as [rows|e];
    cbn; [|discriminate].
  destruct (analyze_rows rows [] h) as [[[es'|e] h'] t'] eqn:Hr; cbn;
    [|discriminate].
  intros [= <- <- _]. eauto.
Qed.

End Instructions.

(** X24.  The apply step printed after the script always names the file
    chroma.sqlite3 below the database path.  When that file does not
    exist and the analysis read the collections from chroma.db, the
    printed command still reads
    [sqlite3 '<db_path>/chroma.sqlite3' < '<script>']. *)
Theorem the_apply_step_names_chroma_sqlite3 {W : World} (db_path : string)
    (collection_name : option string) (h : heap) (es : list entry)
    (h1 : heap) (t1 : list event) :
  w_path_exists (PyStr.path_join db_path "chroma.sqlite3") = false ->
  analyze_configuration_error db_path collection_name h
    = (Ok (AList es), h1, t1) ->
  es <> [] ->
  w_file_write (script_path_of db_path) (script_text db_path h1 es) = Ok tt ->
  In (SqliteConnect (PyStr.path_join db_path "chroma.db")) t1 /\
  exists h2 t2,
    generate_migration_script db_path es h1 = (Ok tt, h2, t2) /\
    In (Print ("  2. Apply the script: sqlite3 '"
               +:+ PyStr.path_join db_path "chroma.sqlite3" +:+ "' < '"
               +:+ script_path_of db_path +:+ "'")) t2.
Proof.
  intros Hno Hrun Hne Hwrite. split.
  - destruct (analysis_outcome db_path collection_name h)
      as (a & h' & t' & Hrun' & Hcase).
    rewrite Hrun in Hrun'. injection Hrun' as <- <- <-.
    destruct Hcase as (p & t0 & Hp & Hin & -> & _).
    unfold storage_file in Hp. rewrite Hno in Hp.
    destruct (w_path_exists (PyStr.path_join db_path "chroma.db"));
      [|discriminate].
    injection Hp as <-. apply in_or_app. now left.
  - destruct (analysis_list_from_rows _ _ _ _ _ _ Hrun) as (rows & t & Hrows).
    destruct (analyze_rows_grows rows [] h _ _ _ (List.Forall_nil _) Hrows)
      as (_ & _ & _ & _ & Hok).
    pose proof (generate_migration_script_run db_path es h1 Hne Hok) as Hgen.
    cbv zeta in Hgen. rewrite Hwrite in Hgen.
    do 2 eexists. split; [exact Hgen |]. cbn [In]. auto 10.
Qed.

(** ** The further properties at sample surroundings *)

Lemma analysis_lists_the_rows_to_repair_witness :
  exists es h' t,
    analyze_configuration_error (W := Sample.repair_world) "/data/chroma" None []
      = (Ok (AList es), h', t) /\
    Forall2 (listed_as (W := Sample.repair_world) h') es
      (List.filter (needs_repair (W := Sample.repair_world)) Sample.mixed_table) /\
    map fst es
      = map (fun r => (row_id r, row_name r))
          (List.filter (needs_repair (W := Sample.repair_world))
             Sample.mixed_table).
Proof.
  apply (analysis_lists_the_rows_to_repair (W := Sample.repair_world)
           "/data/chroma" None Sample.mixed_table []).
  - exact sample_table_read.
  - vm_compute. reflexivity.
Defined.

Lemma non_dict_configuration_aborts_the_analysis_witness :
  exists h' t,
    analyze_configuration_error (W := Cases.list_world) "/data/chroma" None []
      = (Ok ANone, h', t) /\
    last t = Some (Print ("Error analyzing SQLite database: '"
                          +:+ Json.type_name (JArr [])
                          +:+ "' object has no attribute 'keys'")) /\
    (exists p, In (SqliteConnect p) t) /\
    (forall p, ~ In (SqliteClose p) t).
Proof.
  apply (non_dict_configuration_aborts_the_analysis (W := Cases.list_world)
           "/data/chroma" None [abc_docs_null] [Sample.hnsw_row]
           Cases.list_row "["%char "]" (JArr []) []).
  - exists "/data/chroma/chroma.sqlite3". repeat split.
  - reflexivity.
  - reflexivity.
  - vm_compute. reflexivity.
  - discriminate.
Defined.

Lemma generating_the_script_again_changes_nothing_witness :
  let es := [("abc", "docs", None); ("h1", "vectors", Some 0)] in
  let h := [[("hnsw", JObj [])]] in
  exists outcome h1 t text,
    generate_migration_script (W := Sample.repair_world) "/data/chroma" es h
      = (outcome, h1, t) /\
    generate_migration_script (W := Sample.repair_world) "/data/chroma" es h1
      = (outcome, h1, t) /\
    In (FileWrite (script_path_of "/data/chroma") text) t.
Proof.
  apply (generating_the_script_again_changes_nothing (W := Sample.repair_world)
           "/data/chroma"
           [("abc", "docs", None); ("h1", "vectors", Some 0)]
           [[("hnsw", JObj [])]]).
  - discriminate.
  - repeat constructor. unfold entry_ok. simpl. eauto.
Defined.

Lemma the_script_step_adds_type_to_the_listed_dicts_witness :
  let es := [("abc", "docs", None); ("h1", "vectors", Some 0)] in
  let h := [[("hnsw", JObj [])]; [("other", JObj [])]] in
  exists outcome h' t,
    generate_migration_script (W := Sample.repair_world) "/data/chroma" es h
      = (outcome, h', t) /\
    length h' = length h /\
    forall l d,
      h !! l = Some d ->
      h' !! l
      = Some (if refers es l && negb (Dict.contains "_type" d)
              then d ++ [("_type", JStr "CollectionConfigurationInternal")]
              else d).
Proof.
  apply (the_script_step_adds_type_to_the_listed_dicts (W := Sample.repair_world)
           "/data/chroma"
           [("abc", "docs", None); ("h1", "vectors", Some 0)]
           [[("hnsw", JObj [])]; [("other", JObj [])]]).
  - discriminate.
  - repeat constructor. unfold entry_ok. simpl. eauto.
Defined.

Lemma script_goes_beside_the_database_directory_witness :
  script_path_of "/data/chroma" = "/data/chroma_migration.sql" /\
  script_path_of "chroma" = "chroma_migration.sql".
Proof.
  exact (script_goes_beside_the_database_directory "/dat" "chroma" "a"
           eq_refl eq_refl).
Defined.

Lemma a_version_from_1_0_7_on_is_accepted_witness :
  check_chromadb_version_info (W := Cases.accepted_world) []
  = (Ok "1.1.0", [],
     [ Print "=== ChromaDB Version Information ===";
       Print "ChromaDB version: 1.1.0";
       Print "✓ This version should handle '_type' configuration correctly" ]).
Proof.
  apply (a_version_from_1_0_7_on_is_accepted (W := Cases.accepted_world) []).
  reflexivity.
Defined.

Lemma a_later_patch_version_is_warned_too_witness :
  check_chromadb_version_info (W := Sample.repair_world) []
  = (Ok "1.0.12", [],
     [ Print "=== ChromaDB Version Information ===";
       Print "ChromaDB version: 1.0.12";
       Print "⚠️  WARNING: This version may have '_type' configuration issues";
       Print "   Recommended: Upgrade to version 1.0.7+" ]).
Proof.
  apply (a_later_patch_version_is_warned_too (W := Sample.repair_world)
           "1"%char "2" []); reflexivity.
Defined.

Lemma usage_is_all_without_a_path_witness :
  version_analysis_main (W := Sample.repair_world)
    ["chroma_version_analysis.py"] []
    = (Ok tt, [],
       [ Print "Usage: python chroma_version_analysis.py <path_to_chroma_database> [collection_name]" ]) /\
  diagnostic_main (W := Sample.repair_world) ["chroma_version_analysis.py"] []
    = (Ok tt, [],
       [ Print "Usage: python chroma_diagnostic.py <path_to_chroma_database>";
         Print "Example: python chroma_diagnostic.py C:/path/to/chroma_data" ]).
Proof.
  apply (usage_is_all_without_a_path (W := Sample.repair_world)
           ["chroma_version_analysis.py"] []).
  simpl. lia.
Defined.

Lemma directory_verdict_is_the_client_verdict_witness :
  exists t,
    analyze_chroma_database (W := Sample.second_world) "/data/chroma" []
      = (Ok (succeeds (W := Sample.second_world) (PathOnly "/data/chroma")), [], t) /\
    Forall writes_nothing t.
Proof.
  apply (directory_verdict_is_the_client_verdict (W := Sample.second_world)
           "/data/chroma" ["chroma.sqlite3"] []); reflexivity.
Defined.

Lemma a_directory_that_cannot_be_listed_ends_the_diagnostic_witness :
  let e := Sample.refused "NotADirectoryError" "[Errno 20] Not a directory" in
  let analysis :=
    [ Print ("=== Analyzing ChromaDB at: " +:+ "/data/chroma" +:+ " ===");
      Print ("ChromaDB version: " +:+ @chromadb_version Cases.unlistable_world);
      PathExists "/data/chroma";
      Print (PyStr.nl +:+ "Database files:");
      ListDir "/data/chroma" ] in
  analyze_chroma_database (W := Cases.unlistable_world) "/data/chroma" []
    = (Raise e, [], analysis) /\
  diagnostic_main (W := Cases.unlistable_world)
    ["chroma_diagnostic.py"; "/data/chroma"] []
    = (Raise e, [],
       Print "ChromaDB Database Diagnostic Tool"
       :: Print (PyStr.repeat_str "=" 50) :: analysis).
Proof.
  apply (a_directory_that_cannot_be_listed_ends_the_diagnostic
           (W := Cases.unlistable_world) "chroma_diagnostic.py" "/data/chroma" []
           (Sample.refused "NotADirectoryError" "[Errno 20] Not a directory") []);
    reflexivity.
Defined.

Lemma a_database_that_opens_is_not_copied_witness :
  exists t,
    diagnostic_main (W := Cases.open_world)
      ["chroma_diagnostic.py"; "/data/chroma"] [] = (Ok tt, [], t) /\
    Forall writes_nothing t /\
    last t = Some (Print "✓ Database appears to be compatible with current ChromaDB version").
Proof.
  apply (a_database_that_opens_is_not_copied (W := Cases.open_world)
           "chroma_diagnostic.py" "/data/chroma" [] ["chroma.sqlite3"] []);
    reflexivity.
Defined.

Lemma the_verdict_ignores_the_migration_test_witness :
  exists t1 t2,
    test_database_migration (W := Sample.second_world) "/data/chroma" []
      = (Ok (succeeds (W := Sample.second_world)
               (WithAllowReset "/data/chroma" false)), [], t2) /\
    diagnostic_main (W := Sample.second_world)
      ["chroma_diagnostic.py"; "/data/chroma"] []
      = (Ok tt, [],
         t1 ++ t2
         ++ Print (PyStr.nl +:+ "=== Recommendations ===") :: map Print issues_lines).
Proof.
  apply (the_verdict_ignores_the_migration_test (W := Sample.second_world)
           "chroma_diagnostic.py" "/data/chroma" [] ["chroma.sqlite3"] []);
    try reflexivity.
  right. reflexivity.
Defined.

Lemma a_database_that_opens_is_not_analysed_witness :
  exists t,
    version_analysis_main (W := Cases.open_world)
      ["chroma_version_analysis.py"; "/data/chroma"] [] = (Ok tt, [], t) /\
    Forall (connection_test_event "/data/chroma") t.
Proof.
  apply (a_database_that_opens_is_not_analysed (W := Cases.open_world)
           "chroma_version_analysis.py" "/data/chroma" [] []).
  - reflexivity.
  - left. reflexivity.
Defined.

Lemma the_script_is_recommended_when_none_is_written_witness :
  exists h' t0,
    version_analysis_main (W := Cases.typed_world)
      ["chroma_version_analysis.py"; "/data/chroma"] []
      = (Ok tt, h',
         t0 ++ map Print
                 [ PyStr.nl +:+ "=== Recommendations ===";
                   "1. IMMEDIATE FIX: Apply the generated migration script";
                   "2. VERSION FIX: Consider upgrading ChromaDB:";
                   "   pip install 'chromadb>=1.0.7'";
                   "3. COMPATIBILITY: Ensure all ChromaDB clients use the same version";
                   "4. BACKUP: Always backup your database before applying migrations" ]) /\
    forall path text, ~ In (FileWrite path text) t0.
Proof.
  apply (the_script_is_recommended_when_none_is_written (W := Cases.typed_world)
           "chroma_version_analysis.py" "/data/chroma" [] []);
    try reflexivity.
  right. exists [Sample.typed_row]. split.
  - exists "/data/chroma/chroma.sqlite3". repeat split.
  - split; vm_compute; reflexivity.
Defined.

Lemma a_script_that_cannot_be_written_ends_the_run_witness :
  exists h' t0 text,
    version_analysis_main (W := Cases.unwritable_world)
      ["chroma_version_analysis.py"; "/data/chroma"] []
      = (Raise (Sample.refused "PermissionError" "[Errno 13] Permission denied"),
         h', t0 ++ [FileWrite (script_path_of "/data/chroma") text]).
Proof.
  apply (a_script_that_cannot_be_written_ends_the_run (W := Cases.unwritable_world)
           "chroma_version_analysis.py" "/data/chroma" [] Sample.mixed_table
           (Sample.refused "PermissionError" "[Errno 13] Permission denied") []);
    [ reflexivity | reflexivity | reflexivity
    | exists "/data/chroma/chroma.sqlite3"; repeat split
    | vm_compute; reflexivity
    | vm_compute; reflexivity
    | intros text; reflexivity ].
Defined.

Lemma serialised_json_is_one_line_witness :
  let j := JObj [("note", JStr "it's"); ("hnsw", JObj [("M", JInt 16);
                 ("resize_factor", JFloat "1.2")])] in
  plain (Json.dumps j) = true /\
  PyStr.has_char PyStr.SQUOTE (Json.dumps j) = has_quote j.
Proof.
  apply (serialised_json_is_one_line
           (JObj [("note", JStr "it's"); ("hnsw", JObj [("M", JInt 16);
                  ("resize_factor", JFloat "1.2")])])).
  reflexivity.
Defined.

Lemma the_apply_step_names_chroma_sqlite3_witness :
  In (SqliteConnect "/data/chroma/chroma.db")
     (snd (analyze_configuration_error (W := Cases.chroma_db_world)
             "/data/chroma" None [])) /\
  exists h2 t2,
    generate_migration_script (W := Cases.chroma_db_world) "/data/chroma"
      [("h1", "vectors", Some 0)]
      [[("hnsw", JObj []); ("_type", JStr "CollectionConfigurationInternal")]]
      = (Ok tt, h2, t2) /\
    In (Print "  2. Apply the script: sqlite3 '/data/chroma/chroma.sqlite3' < '/data/chroma_migration.sql'") t2.
Proof.
  eapply (the_apply_step_names_chroma_sqlite3 (W := Cases.chroma_db_world)
            "/data/chroma" None []).
  - reflexivity.
  - vm_compute. reflexivity.
  - discriminate.
  - reflexivity.
Defined.

(** * The literals and the statements of the script, again *)

(** ** How the literals are read *)

Lemma sql_literal_inv_aux (s : string) :
  (forall w r, sql_literal s = Some (w, r) ->
               s = sql_escape w +:+ String PyStr.SQUOTE r) /\
  (forall c w r, sql_literal (String c s) = Some (w, r) ->
                 String c s = sql_escape w +:+ String PyStr.SQUOTE r).
Proof.
  induction s as [|a s [IH1 IH2]].
  - split; [discriminate |].
    intros c w r. cbn [sql_literal].
    destruct (Ascii.eqb_spec c PyStr.SQUOTE) as [->|Hc].
    + intros [= <- <-]. reflexivity.
    + discriminate.
  - split; [exact (IH2 a) |].
    intros c w r.
    change (sql_literal (String c (String a s)))
      with (if Ascii.eqb c PyStr.SQUOTE
            then if Ascii.eqb a PyStr.SQUOTE
                 then match sql_literal s with
                      | Some (v, rest) => Some (String PyStr.SQUOTE v, rest)
                      | None => None
                      end
                 else Some ("", String a s)
            else match sql_literal (String a s) with
                 | Some (v, rest) => Some (String c v, rest)
                 | None => None
                 end).
    destruct (Ascii.eqb_spec c PyStr.SQUOTE) as [->|Hc].
    + destruct (Ascii.eqb_spec a PyStr.SQUOTE) as [->|Ha].
      * destruct (sql_literal s) as [[v rest]|] eqn:E; [|discriminate].
        intros [= <- <-]. rewrite (IH1 v rest eq_refl) at 1.
        cbn [sql_escape]. rewrite Ascii.eqb_refl. now rewrite !append_cons.
      * intros [= <- <-]. reflexivity.
    + destruct (sql_literal (String a s)) as [[v rest]|] eqn:E; [|discriminate].
      intros [= <- <-]. rewrite (IH2 a v rest E) at 1.
      cbn [sql_escape]. apply Ascii.eqb_neq in Hc. rewrite Hc.
      now rewrite append_cons.
Qed.

(** What the reader hands back is what was written with every single
    quote twice. *)
Lemma sql_literal_inv (s w r : string) :
  sql_literal s = Some (w, r) -> s = sql_escape w +:+ String PyStr.SQUOTE r.
Proof. apply sql_literal_inv_aux. Qed.

Lemma quotes_shift (n : nat) (x : string) :
  PyStr.repeat_str PyStr.sq n +:+ String PyStr.SQUOTE (String PyStr.SQUOTE x)
  = PyStr.repeat_str PyStr.sq (S (S n)) +:+ x.
Proof.
  induction n as [|n IH]; [reflexivity |].
  change (PyStr.repeat_str PyStr.sq (S n))
    with (String PyStr.SQUOTE (PyStr.repeat_str PyStr.sq n)).
  change (PyStr.repeat_str PyStr.sq (S (S (S n))))
    with (String PyStr.SQUOTE (PyStr.repeat_str PyStr.sq (S (S n)))).
  rewrite !append_cons. now rewrite IH.
Qed.

Lemma quotes_then_escaped (n : nat) (v rest r : string) :
  v +:+ String PyStr.SQUOTE rest
  = PyStr.repeat_str PyStr.sq (S n) +:+ sql_escape v +:+ String PyStr.SQUOTE r ->
  starts_unquoted rest = false.
Proof.
  revert n. induction v as [|c v IH]; intros n.
  - change (PyStr.repeat_str PyStr.sq (S n))
      with (String PyStr.SQUOTE (PyStr.repeat_str PyStr.sq n)).
    rewrite append_nil_l, append_cons. intros [= ->].
    destruct n as [|n]; reflexivity.
  - change (PyStr.repeat_str PyStr.sq (S n))
      with (String PyStr.SQUOTE (PyStr.repeat_str PyStr.sq n)).
    rewrite !append_cons. intros [= -> H].
    apply (IH (S n)). rewrite H. cbn [sql_escape]. rewrite Ascii.eqb_refl.
    rewrite !append_cons. apply quotes_shift.
Qed.

Lemma unescaped_equals_escaped (v rest r : string) :
  starts_unquoted rest = true ->
  v +:+ String PyStr.SQUOTE rest = sql_escape v +:+ String PyStr.SQUOTE r ->
  PyStr.has_char PyStr.SQUOTE v = false.
Proof.
  intros Hrest. induction v as [|c v IH]; [reflexivity |].
  cbn [sql_escape PyStr.has_char].
  destruct (Ascii.eqb_spec c PyStr.SQUOTE) as [->|Hc].
  - rewrite !append_cons. intros [= H]. exfalso.
    assert (Hq : starts_unquoted rest = false); [|congruence].
    apply (quotes_then_escaped 0 v rest r). exact H.
  - rewrite !append_cons. intros [= H]. cbn [orb]. now apply IH.
Qed.

(** A value with a single quote, written as it is and followed by text
    that starts with no quote, is not read back. *)
Lemma sql_literal_quoted (v rest r : string) :
  starts_unquoted rest = true ->
  PyStr.has_char PyStr.SQUOTE v = true ->
  sql_literal (v +:+ String PyStr.SQUOTE rest) <> Some (v, r).
Proof.
  intros Hrest Hv H. apply sql_literal_inv in H.
  apply (unescaped_equals_escaped v rest r Hrest) in H. congruence.
Qed.

(** C5 as the code has it.  The script step escapes nothing: the block
    of an entry is the text written out below, with the serialised JSON
    and the identifier between single quotes as they are.  SQLite reads
    the SET literal back as the serialised JSON when that text holds no
    single quote, and as no such value when it holds one; and the WHERE
    literal as the identifier when the identifier holds no single
    quote, and as no such value when it holds one. *)
Theorem literals_are_written_unescaped (e : entry) (script : string) (h : heap) :
  entry_ok h e ->
  let collection_id := fst (fst e) in
  let name := snd (fst e) in
  let json :=
    match snd e with
    | Some l =>
        match h !! l with
        | Some d =>
            Json.dumps
              (JObj (if Dict.contains "_type" d then d
                     else d ++ [("_type", JStr "CollectionConfigurationInternal")]))
        | None => ""
        end
    | None =>
        Json.dumps
          (JObj [ ("_type", JStr "CollectionConfigurationInternal");
                  ("hnsw", JObj []);
                  ("embedding_function", JObj []) ])
    end in
  let comment :=
    match snd e with
    | Some _ => "Fix collection: "
    | None => "Fix collection with default config: "
    end in
  let where_tail := collection_id +:+ "';

" in
  let set_tail := json +:+ "'
WHERE id = '" +:+ where_tail in
  migrate_entry e script h =
    (Ok (script +:+ "-- " +:+ comment +:+ name +:+ "
UPDATE collections 
SET configuration_json_str = '" +:+ set_tail), patched [e] h, []) /\
  (PyStr.has_char PyStr.SQUOTE json = false ->
   sql_literal set_tail = Some (json, "
WHERE id = '" +:+ where_tail)) /\
  (PyStr.has_char PyStr.SQUOTE json = true ->
   forall rest, sql_literal set_tail <> Some (json, rest)) /\
  (PyStr.has_char PyStr.SQUOTE collection_id = false ->
   sql_literal where_tail = Some (collection_id, ";

")) /\
  (PyStr.has_char PyStr.SQUOTE collection_id = true ->
   forall rest, sql_literal where_tail <> Some (collection_id, rest)).
Proof.
  intros Hok collection_id name json comment where_tail set_tail.
  assert (Hjson : entry_json h e = json).
  { unfold entry_json, json. destruct (snd e) as [l|]; [|reflexivity].
    destruct (h !! l) as [d|]; [|reflexivity].
    unfold with_type. destruct (Dict.contains "_type" d) eqn:T; [reflexivity |].
    now rewrite dict_set_fresh. }
  split.
  { rewrite (migrate_entry_run e script h Hok). do 2 f_equal. f_equal.
    unfold update_block. rewrite Hjson.
    subst collection_id name comment set_tail where_tail.
    destruct e as [[cid nm] [l|]]; reflexivity. }
  split; [intros Hq; apply (sql_literal_plain json PyStr.LF _ Hq); reflexivity |].
  split; [intros Hq rest; now apply sql_literal_quoted |].
  split; [intros Hq; apply (sql_literal_plain collection_id ";"%char _ Hq);
          reflexivity |].
  intros Hq rest. now apply sql_literal_quoted.
Qed.

Lemma literals_are_written_unescaped_witness :
  let h := [[("hnsw", JObj [])]] in
  let json :=
    Json.dumps
      (JObj [("hnsw", JObj []); ("_type", JStr "CollectionConfigurationInternal")]) in
  let where_tail := "h1" +:+ "';

" in
  let set_tail := json +:+ "'
WHERE id = '" +:+ where_tail in
  migrate_entry ("h1", "vectors", Some 0) "" h =
    (Ok ("" +:+ "-- " +:+ "Fix collection: " +:+ "vectors" +:+ "
UPDATE collections 
SET configuration_json_str = '" +:+ set_tail),
     patched [("h1", "vectors", Some 0)] h, []) /\
  (PyStr.has_char PyStr.SQUOTE json = false ->
   sql_literal set_tail = Some (json, "
WHERE id = '" +:+ where_tail)) /\
  (PyStr.has_char PyStr.SQUOTE json = true ->
   forall rest, sql_literal set_tail <> Some (json, rest)) /\
  (PyStr.has_char PyStr.SQUOTE "h1" = false ->
   sql_literal where_tail = Some ("h1", ";

")) /\
  (PyStr.has_char PyStr.SQUOTE "h1" = true ->
   forall rest, sql_literal where_tail <> Some ("h1", rest)).
Proof.
  apply (literals_are_written_unescaped
           ("h1", "vectors", Some 0) "" [[("hnsw", JObj [])]]).
  unfold entry_ok. simpl. eauto.
Defined.

(** ** The statements of the script *)





